(** * Empyrion Scenario Editor: path validation and scenario loading

    A shallow embedding of [utils/security.py], [utils/exceptions.py],
    [scenario_loader.py] and the scenario endpoint of [app.py], together with
    the parts of Python's [posixpath] and [pathlib] they call, followed by the
    properties proved about them.

    Conventions of the embedding:
    - a Python [str] is a Rocq [string] (code points 0..255);
    - a call that may raise returns a [result]; [Raise e] is the exception;
    - the process environment (current directory, [HOME], password database)
      and the file system are oracle records passed explicitly;
    - calls to the logger return normally and have no effect on results, so
      they do not appear; what a wrapper evaluates to build the context it
      logs does, where it can raise. *)

From Stdlib Require Import String Ascii List ZArith Bool Lia Arith.
From Stdlib Require Import DecimalString.
Import ListNotations.
Open Scope string_scope.

(** ** Exceptions and fallible computations *)

(** The subclasses of [EmpyrionEditorError] that [create_error_response]
    distinguishes. *)
Inductive editor_class : Type :=
| ValidationError
| InvalidScenarioError
| ScenarioNotFoundError
| ScenarioLoadError
| YAMLParsingError
| FileAccessError
| ConfigurationError
| ResourceLimitError
| PlainEditorError.

Inductive exn : Type :=
| ValueError (msg : string)
| TypeError (msg : string)
| KeyError (msg : string)
| IndexError (msg : string)
| OSError (msg : string)
| FileNotFoundError (msg : string)
| PermissionError (msg : string)
| UnicodeDecodeError (msg : string)
| YAMLError (msg : string)
| PathTraversalError (msg : string)
| FileSizeError (msg : string)
| NameError (msg : string)
| EditorError (cls : editor_class) (message user_message : string).

(** [str(e)] *)
Definition exn_str (e : exn) : string :=
  match e with
  | ValueError m | TypeError m | KeyError m | IndexError m | OSError m
  | FileNotFoundError m | PermissionError m | UnicodeDecodeError m
  | YAMLError m | PathTraversalError m | FileSizeError m | NameError m => m
  | EditorError _ m _ => m
  end.

(** [isinstance(e, OSError)]: [FileNotFoundError] and [PermissionError] are
    subclasses of [OSError]. *)
Definition is_OSError (e : exn) : bool :=
  match e with
  | OSError _ | FileNotFoundError _ | PermissionError _ => true
  | _ => false
  end.

(** [isinstance(e, ValueError)]: [UnicodeDecodeError] is a subclass. *)
Definition is_ValueError (e : exn) : bool :=
  match e with
  | ValueError _ | UnicodeDecodeError _ => true
  | _ => false
  end.

Definition is_PathTraversalError (e : exn) : bool :=
  match e with PathTraversalError _ => true | _ => false end.

Inductive result (A : Type) : Type :=
| Ok (a : A)
| Raise (e : exn).
Arguments Ok {A} a.
Arguments Raise {A} e.

Definition bind {A B : Type} (m : result A) (k : A -> result B) : result B :=
  match m with
  | Ok a => k a
  | Raise e => Raise e
  end.

Notation "x <- m ;; k" := (bind m (fun x => k))
  (at level 61, m at next level, right associativity).

(** [try: m  except Exception as e: h e] *)
Definition try_except {A : Type} (m : result A) (h : exn -> result A) : result A :=
  match m with
  | Ok a => Ok a
  | Raise e => h e
  end.

(** [str(n)] for an integer. *)
Definition str_of_Z (n : Z) : string := NilZero.string_of_int (Z.to_int n).

(** ** Python string primitives *)

Module Py.

(** [s.startswith(p)] *)
Fixpoint startswith (s p : string) {struct p} : bool :=
  match p with
  | EmptyString => true
  | String c p' =>
      match s with
      | EmptyString => false
      | String d s' => Ascii.eqb c d && startswith s' p'
      end
  end.

(** [s.endswith(p)] *)
Fixpoint endswith (s p : string) : bool :=
  String.eqb s p ||
  match s with
  | EmptyString => false
  | String _ s' => endswith s' p
  end.

(** [sub in s] for two strings. *)
Fixpoint contains (sub s : string) : bool :=
  startswith s sub ||
  match s with
  | EmptyString => false
  | String _ s' => contains sub s'
  end.

(** [s.split(sep)] for a one-character separator. *)
Fixpoint split (sep : ascii) (s : string) : list string :=
  match s with
  | EmptyString => [EmptyString]
  | String c s' =>
      if Ascii.eqb c sep then EmptyString :: split sep s'
      else match split sep s' with
           | x :: xs => String c x :: xs
           | [] => [String c EmptyString]
           end
  end.

(** [sep.join(l)] *)
Definition join (sep : string) (l : list string) : string := String.concat sep l.

(** [s.rstrip(ch)] for a one-character argument. *)
Fixpoint rstrip (ch : ascii) (s : string) : string :=
  match s with
  | EmptyString => EmptyString
  | String c s' =>
      match rstrip ch s' with
      | EmptyString => if Ascii.eqb c ch then EmptyString else String c EmptyString
      | r => String c r
      end
  end.

(** [s.lstrip(ch)] for a one-character argument. *)
Fixpoint lstrip (ch : ascii) (s : string) : string :=
  match s with
  | EmptyString => EmptyString
  | String c s' => if Ascii.eqb c ch then lstrip ch s' else s
  end.

(** [s[:n]] and [s[n:]] for [0 <= n]. *)
Fixpoint take (n : nat) (s : string) : string :=
  match n, s with
  | S k, String c s' => String c (take k s')
  | _, _ => EmptyString
  end.

Fixpoint drop (n : nat) (s : string) : string :=
  match n, s with
  | S k, String _ s' => drop k s'
  | _, _ => s
  end.

(** [s.replace(old, new)] for a non-empty [old]: occurrences are replaced from
    left to right without overlap; [skip] counts the characters of a matched
    occurrence still to be passed over. *)
Fixpoint replace_from (old new : string) (skip : nat) (s : string) : string :=
  match s with
  | EmptyString => EmptyString
  | String c s' =>
      match skip with
      | S k => replace_from old new k s'
      | O =>
          if startswith s old
          then new ++ replace_from old new (String.length old - 1) s'
          else String c (replace_from old new 0 s')
      end
  end.

Definition replace (old new s : string) : string := replace_from old new 0 s.

(** [s.find(ch, start)] for one character: the least index [>= start] holding
    [ch], or [-1]. *)
Fixpoint find_from (ch : ascii) (i : nat) (start : nat) (s : string) : Z :=
  match s with
  | EmptyString => (-1)%Z
  | String c s' =>
      if (start <=? i)%nat && Ascii.eqb c ch then Z.of_nat i
      else find_from ch (S i) start s'
  end.

Definition find (ch : ascii) (start : nat) (s : string) : Z := find_from ch 0 start s.

(** [s.rfind(ch)] for one character: the greatest index holding [ch], or [-1]. *)
Fixpoint rfind_from (ch : ascii) (i : nat) (s : string) : Z :=
  match s with
  | EmptyString => (-1)%Z
  | String c s' =>
      let r := rfind_from ch (S i) s' in
      if (0 <=? r)%Z then r
      else if Ascii.eqb c ch then Z.of_nat i else (-1)%Z
  end.

Definition rfind (ch : ascii) (s : string) : Z := rfind_from ch 0 s.

(** [ord(c)] *)
Definition ord (c : ascii) : N := N_of_ascii c.

(** [c.lower()] on code points below 256: the ASCII capitals and the Latin-1
    capitals U+00C0..U+00DE other than the multiplication sign U+00D7. *)
Definition lower_char (c : ascii) : ascii :=
  let n := ord c in
  if ((65 <=? n) && (n <=? 90))%N then ascii_of_N (n + 32)
  else if ((192 <=? n) && (n <=? 222) && negb (n =? 215))%N then ascii_of_N (n + 32)
  else c.

(** [s.lower()] *)
Fixpoint lower (s : string) : string :=
  match s with
  | EmptyString => EmptyString
  | String c s' => String (lower_char c) (lower s')
  end.

(** [c.isspace()] on code points below 256. *)
Definition isspace (c : ascii) : bool :=
  let n := ord c in
  (((9 <=? n) && (n <=? 13)) || ((28 <=? n) && (n <=? 32)) || (n =? 133) || (n =? 160))%N.

(** [s.lstrip()], [s.rstrip()] and [s.strip()] without argument. *)
Fixpoint lstrip_ws (s : string) : string :=
  match s with
  | EmptyString => EmptyString
  | String c s' => if isspace c then lstrip_ws s' else s
  end.

Fixpoint rstrip_ws (s : string) : string :=
  match s with
  | EmptyString => EmptyString
  | String c s' =>
      match rstrip_ws s' with
      | EmptyString => if isspace c then EmptyString else String c EmptyString
      | r => String c r
      end
  end.

Definition strip (s : string) : string := rstrip_ws (lstrip_ws s).

(** [bool(s)] *)
Definition truthy (s : string) : bool := negb (String.eqb s EmptyString).

(** [x in l] for a list (or set) of strings. *)
Definition mem (x : string) (l : list string) : bool := existsb (String.eqb x) l.

End Py.

(** ** The process environment *)

Record Env : Type := {
  (** [os.getcwd()]; it raises [OSError] when the directory was removed. *)
  getcwd : result string;
  (** [os.environ['HOME']], when set. *)
  environ_HOME : option string;
  (** [pwd.getpwuid(os.getuid()).pw_dir]; [None] stands for [KeyError]. *)
  pw_dir_self : option string;
  (** [pwd.getpwnam(name).pw_dir]; [None] stands for [KeyError]. *)
  pw_dir_of : string -> option string
}.

(** ** [posixpath] *)

Module PosixPath.

(** [isabs(s)] *)
Definition isabs (s : string) : bool := Py.startswith s "/".

(** [join(a, b)] *)
Definition join (a b : string) : string :=
  if Py.startswith b "/" then b
  else if negb (Py.truthy a) || Py.endswith a "/" then a ++ b
  else a ++ "/" ++ b.

(** One iteration of [normpath]'s loop. [stack] is [new_comps] with its last
    element first, so that [new_comps[-1]] is the head, [append] is a cons and
    [pop] takes the tail. *)
Definition normpath_step (initial_slashes : nat) (stack : list string) (comp : string)
  : list string :=
  if (comp =? "") || (comp =? ".") then stack
  else if negb (comp =? "..")
          || ((initial_slashes =? 0)%nat && (match stack with [] => true | _ => false end))
          || (match stack with x :: _ => x =? ".." | [] => false end)
       then comp :: stack
       else match stack with _ :: st => st | [] => [] end.

(** The number [normpath] keeps in [initial_slashes]: 0, 1, or 2 when the path
    starts with exactly two slashes. *)
Definition initial_slashes (path : string) : nat :=
  if Py.startswith path "/" then
    if Py.startswith path "//" && negb (Py.startswith path "///") then 2 else 1
  else 0.

Fixpoint slashes (n : nat) : string :=
  match n with
  | O => EmptyString
  | S k => String "/" (slashes k)
  end.

(** [normpath(path)] *)
Definition normpath (path : string) : string :=
  if path =? "" then "."
  else
    let n := initial_slashes path in
    let comps := rev (fold_left (normpath_step n) (Py.split "/" path) []) in
    let path1 := Py.join "/" comps in
    let path2 := if (n =? 0)%nat then path1 else slashes n ++ path1 in
    if path2 =? "" then "." else path2.

(** [abspath(path)] *)
Definition abspath (env : Env) (path : string) : result string :=
  if negb (isabs path) then
    cwd <- getcwd env ;;
    Ok (normpath (join cwd path))
  else Ok (normpath path).

(** [expanduser(path)] *)
Definition expanduser (env : Env) (path : string) : string :=
  if negb (Py.startswith path "~") then path
  else
    let i := match Py.find "/" 1 path with
             | Zneg _ => String.length path
             | z => Z.to_nat z
             end in
    let userhome :=
      if (i =? 1)%nat then
        match environ_HOME env with
        | Some h => Some h
        | None => pw_dir_self env
        end
      else pw_dir_of env (Py.drop 1 (Py.take i path)) in
    match userhome with
    | None => path
    | Some h =>
        let r := Py.rstrip "/" h ++ Py.drop i path in
        if Py.truthy r then r else "/"
    end.

(** Python's [<] on lists of strings: the first differing position decides,
    and a proper prefix is smaller. *)
Fixpoint list_ltb (xs ys : list string) : bool :=
  match xs, ys with
  | _, [] => false
  | [], _ :: _ => true
  | x :: xs', y :: ys' => if x =? y then list_ltb xs' ys' else String.ltb x y
  end.

(** [min(first :: rest)] and [max(first :: rest)]: the first extremal element. *)
Fixpoint min_from (cur : list string) (rest : list (list string)) : list string :=
  match rest with
  | [] => cur
  | x :: r => min_from (if list_ltb x cur then x else cur) r
  end.

Fixpoint max_from (cur : list string) (rest : list (list string)) : list string :=
  match rest with
  | [] => cur
  | x :: r => max_from (if list_ltb cur x then x else cur) r
  end.

(** The loop of [commonpath]: [for i, c in enumerate(s1): if c != s2[i]: ...].
    [rest] is what remains of [s1] from index [i]; [s2[i]] out of range is
    [IndexError]. *)
Fixpoint common_loop (s1 s2 : list string) (i : nat) (rest : list string)
  : result (list string) :=
  match rest with
  | [] => Ok s1
  | c :: rest' =>
      match nth_error s2 i with
      | None => Raise (IndexError "list index out of range")
      | Some c2 =>
          if c =? c2 then common_loop s1 s2 (S i) rest'
          else Ok (firstn i s1)
      end
  end.

(** [[c for c in s if c and c != curdir]] *)
Definition drop_empty_and_dot (s : list string) : list string :=
  filter (fun c => Py.truthy c && negb (c =? ".")) s.

(** [commonpath(paths)] *)
Definition commonpath (paths : list string) : result string :=
  match paths with
  | [] => Raise (ValueError "commonpath() arg is an empty sequence")
  | p0 :: ps =>
      let split_paths := map (Py.split "/") paths in
      if forallb (fun p => Bool.eqb (isabs p) (isabs p0)) ps then
        let isabs0 := isabs p0 in
        match map drop_empty_and_dot split_paths with
        | [] => Raise (ValueError "commonpath() arg is an empty sequence")
        | c0 :: cs =>
            let s1 := min_from c0 cs in
            let s2 := max_from c0 cs in
            common <- common_loop s1 s2 0 s1 ;;
            Ok ((if isabs0 then "/" else "") ++ Py.join "/" common)
        end
      else Raise (ValueError "Can't mix absolute and relative paths")
  end.

(** [genericpath._splitext(p, '/', None, '.')]: the loop skips the leading dots
    of the last component; [fuel] bounds its iterations by [dotIndex]. *)
Fixpoint splitext_loop (fuel : nat) (p : string) (filenameIndex dotIndex : nat)
  : string * string :=
  match fuel with
  | O => (p, EmptyString)
  | S f =>
      if (filenameIndex <? dotIndex)%nat then
        if negb (Py.take 1 (Py.drop filenameIndex p) =? ".")
        then (Py.take dotIndex p, Py.drop dotIndex p)
        else splitext_loop f p (S filenameIndex) dotIndex
      else (p, EmptyString)
  end.

(** [splitext(p)] *)
Definition splitext (p : string) : string * string :=
  let sepIndex := Py.rfind "/" p in
  let dotIndex := Py.rfind "." p in
  if (sepIndex <? dotIndex)%Z then
    splitext_loop (S (Z.to_nat dotIndex)) p (Z.to_nat (sepIndex + 1)) (Z.to_nat dotIndex)
  else (p, EmptyString).

(** [basename(p)] *)
Definition basename (p : string) : string :=
  Py.drop (Z.to_nat (Py.rfind "/" p + 1)) p.

End PosixPath.

(** ** [pathlib.PurePosixPath] *)

Module PurePosixPath.

(** [splitroot(part)]: the root and the rest (the drive is always empty). *)
Definition splitroot (part : string) : string * string :=
  if Py.startswith part "/" then
    let stripped_part := Py.lstrip "/" part in
    if (String.length part - String.length stripped_part =? 2)%nat
    then ("//", stripped_part)
    else ("/", stripped_part)
  else (EmptyString, part).

(** [PurePosixPath(path).parts] *)
Definition parts (path : string) : list string :=
  if negb (Py.truthy path) then []
  else
    let '(root, rel) := splitroot path in
    let parsed :=
      if Py.contains "/" rel
      then filter (fun x => Py.truthy x && negb (x =? ".")) (Py.split "/" rel)
      else if Py.truthy rel && negb (rel =? ".") then [rel] else [] in
    if Py.truthy root then root :: parsed else parsed.

End PurePosixPath.

(** ** Parsed YAML documents *)

(** What [yaml.safe_load] returns: mappings, sequences and scalars. A mapping
    is the Python [dict] in insertion order (its keys are distinct); [YNull] is
    [None]; [YOther truth] is any other scalar (a float, a timestamp), of which
    only the truth value matters here. *)
#[warnings="-register-all"]
Inductive yaml : Type :=
| YNull
| YBool (b : bool)
| YInt (n : Z)
| YStr (s : string)
| YOther (truth : bool)
| YSeq (items : list yaml)
| YMap (entries : list (yaml * yaml)).

Module PyYaml.

(** [v == s] for a string [s]. *)
Definition eq_str (s : string) (v : yaml) : bool :=
  match v with
  | YStr t => s =? t
  | _ => false
  end.

(** [bool(v)] *)
Definition truthy (v : yaml) : bool :=
  match v with
  | YNull => false
  | YBool b => b
  | YInt n => negb (n =? 0)%Z
  | YStr s => Py.truthy s
  | YOther t => t
  | YSeq l => match l with [] => false | _ => true end
  | YMap l => match l with [] => false | _ => true end
  end.

(** [key in v] for a string [key]: a key of a mapping, an element of a
    sequence, a substring of a string; [TypeError] on the other scalars. *)
Definition contains (key : string) (v : yaml) : result bool :=
  match v with
  | YMap entries => Ok (existsb (fun kv => eq_str key (fst kv)) entries)
  | YSeq items => Ok (existsb (eq_str key) items)
  | YStr s => Ok (Py.contains key s)
  | _ => Raise (TypeError "argument is not iterable")
  end.

(** [v[key]] for a string [key]. *)
Definition getitem (v : yaml) (key : string) : result yaml :=
  match v with
  | YMap entries =>
      match List.find (fun kv => eq_str key (fst kv)) entries with
      | Some kv => Ok (snd kv)
      | None => Raise (KeyError key)
      end
  | YSeq _ => Raise (TypeError "list indices must be integers or slices, not str")
  | YStr _ => Raise (TypeError "string indices must be integers, not 'str'")
  | _ => Raise (TypeError "object is not subscriptable")
  end.

(** The characters of a string, as [for c in s] yields them. *)
Fixpoint chars (s : string) : list yaml :=
  match s with
  | EmptyString => []
  | String c s' => YStr (String c EmptyString) :: chars s'
  end.

(** What [for x in v] iterates over: the elements of a sequence, the keys of a
    mapping, the characters of a string; [TypeError] on the other scalars. *)
Definition iterate (v : yaml) : result (list yaml) :=
  match v with
  | YSeq items => Ok items
  | YMap entries => Ok (map fst entries)
  | YStr s => Ok (chars s)
  | _ => Raise (TypeError "object is not iterable")
  end.

End PyYaml.

(** ** The file system *)

Record FS : Type := {
  (** [os.path.exists], [os.path.isdir], [os.path.isfile]: they never raise. *)
  exists_ : string -> bool;
  isdir : string -> bool;
  isfile : string -> bool;
  (** [os.access(path, os.R_OK)] *)
  access_r : string -> result bool;
  (** [os.path.getsize(path)] *)
  getsize : string -> result Z;
  (** [open(path, 'r', encoding='utf-8')] followed by [f.read(n)] ([Some n]) or
      [f.read()] ([None]). *)
  read_text : string -> option nat -> result string;
  (** [open(path, 'r', encoding='utf-8')] followed by [yaml.safe_load(f)]. *)
  safe_load : string -> result yaml;
  (** [os.walk(top)]: the triples [(root, dirs, files)] it yields, and the
      exception that ends the iteration early, if any. *)
  walk : string -> list (string * list string * list string) * option exn
}.

(** ** [utils/security.py] *)

Module Security.

Record PathValidator : Type := {
  allowed_root : option string;
  max_file_size : Z;
  max_depth : Z
}.

Definition DEFAULT_MAX_FILE_SIZE : Z := 10 * 1024 * 1024.
Definition DEFAULT_MAX_DIRECTORY_DEPTH : Z := 10.

Definition DANGEROUS_COMPONENTS : list string := ["."; ".."; "~"; "$"].

Definition BLOCKED_EXTENSIONS : list string :=
  [".exe"; ".bat"; ".cmd"; ".ps1"; ".sh"; ".py"; ".js"].

(** [PathValidator.__init__] *)
Definition PathValidator_init (env : Env) (root : option string)
  (max_file_size max_depth : Z) : result PathValidator :=
  r <- match root with
       | Some r =>
           if Py.truthy r then (a <- PosixPath.abspath env r ;; Ok (Some a))
           else Ok None
       | None => Ok None
       end ;;
  Ok {| allowed_root := r; max_file_size := max_file_size; max_depth := max_depth |}.

(** [''.join(char for char in path if ord(char) >= 32)] *)
Fixpoint drop_control_chars (path : string) : string :=
  match path with
  | EmptyString => EmptyString
  | String c s' =>
      if (32 <=? Py.ord c)%N then String c (drop_control_chars s')
      else drop_control_chars s'
  end.

(** [while '//' in sanitized: sanitized = sanitized.replace('//', '/')]; every
    round shortens the string, so its length bounds the number of rounds. *)
Fixpoint collapse_slashes (fuel : nat) (sanitized : string) : string :=
  match fuel with
  | O => sanitized
  | S f =>
      if Py.contains "//" sanitized
      then collapse_slashes f (Py.replace "//" "/" sanitized)
      else sanitized
  end.

Definition _sanitize_path_string (path : string) : string :=
  let sanitized := drop_control_chars path in
  let sanitized := collapse_slashes (String.length sanitized) sanitized in
  if (1 <? String.length sanitized)%nat && Py.endswith sanitized "/"
  then Py.rstrip "/" sanitized
  else sanitized.

(** The four literals of [dangerous_patterns]: dot dot slash, dot dot
    backslash, dot dot slash again, dot dot backslash backslash. *)
Definition dangerous_patterns : list string :=
  ["../"; "..\"; "../"; "..\\"].

Definition _check_path_traversal (original_path resolved_path : string) : result unit :=
  match List.find (fun pattern => Py.contains pattern original_path) dangerous_patterns with
  | Some pattern =>
      Raise (PathTraversalError
               ("Path traversal detected: " ++ pattern ++ " in " ++ original_path))
  | None =>
      match List.find (fun part => Py.mem part DANGEROUS_COMPONENTS)
                      (PurePosixPath.parts original_path) with
      | Some part => Raise (PathTraversalError ("Dangerous path component: " ++ part))
      | None => Ok tt
      end
  end.

(** [except (ValueError, OSError): return False]; any other exception of
    [commonpath] would propagate. *)
Definition _is_within_allowed_root (v : PathValidator) (path : string) : result bool :=
  match allowed_root v with
  | None => Ok true
  | Some root =>
      if negb (Py.truthy root) then Ok true
      else
        try_except
          (common <- PosixPath.commonpath [root; path] ;; Ok (common =? root))
          (fun e => if is_ValueError e || is_OSError e then Ok false else Raise e)
  end.

(** [self.allowed_root and not self._is_within_allowed_root(abs_path)] *)
Definition outside_allowed_root (v : PathValidator) (abs_path : string) : result bool :=
  match allowed_root v with
  | None => Ok false
  | Some root =>
      if negb (Py.truthy root) then Ok false
      else (w <- _is_within_allowed_root v abs_path ;; Ok (negb w))
  end.

(** The sanitising, expanding and resolving steps shared by both validators. *)
Definition resolve (env : Env) (user_path : string) : result string :=
  PosixPath.abspath env (PosixPath.expanduser env (_sanitize_path_string user_path)).

Definition validate_directory_path (env : Env) (fs : FS) (v : PathValidator)
  (user_path : string) : result string :=
  if negb (Py.truthy user_path) then Raise (ValueError "Path must be a non-empty string")
  else
    abs_path <- try_except (resolve env user_path)
                  (fun e => if is_OSError e || is_ValueError e
                            then Raise (ValueError ("Invalid path format: " ++ exn_str e))
                            else Raise e) ;;
    _ <- _check_path_traversal user_path abs_path ;;
    out <- outside_allowed_root v abs_path ;;
    if out then
      Raise (PathTraversalError
               ("Path outside allowed directory: " ++ abs_path ++ " not within "
                ++ match allowed_root v with Some r => r | None => "None" end))
    else if negb (exists_ fs abs_path) then
      Raise (FileNotFoundError ("Directory does not exist: " ++ abs_path))
    else if negb (isdir fs abs_path) then
      Raise (ValueError ("Path is not a directory: " ++ abs_path))
    else
      readable <- access_r fs abs_path ;;
      if negb readable then
        Raise (PermissionError ("Directory not readable: " ++ abs_path))
      else
        let depth := Z.of_nat (List.length (PurePosixPath.parts abs_path)) in
        if (max_depth v <? depth)%Z then
          Raise (ValueError ("Directory depth " ++ str_of_Z depth ++ " exceeds maximum "
                             ++ str_of_Z (max_depth v)))
        else Ok abs_path.

Definition validate_file_path (env : Env) (fs : FS) (v : PathValidator)
  (user_path : string) (must_exist : bool) : result string :=
  if negb (Py.truthy user_path) then Raise (ValueError "File path must be a non-empty string")
  else
    abs_path <- resolve env user_path ;;
    _ <- _check_path_traversal user_path abs_path ;;
    out <- outside_allowed_root v abs_path ;;
    if out then
      Raise (PathTraversalError ("File path outside allowed directory: " ++ abs_path))
    else
      let file_ext := Py.lower (snd (PosixPath.splitext abs_path)) in
      if Py.mem file_ext BLOCKED_EXTENSIONS then
        Raise (ValueError ("File type not allowed: " ++ file_ext))
      else if must_exist then
        if negb (exists_ fs abs_path) then
          Raise (FileNotFoundError ("File does not exist: " ++ abs_path))
        else if negb (isfile fs abs_path) then
          Raise (ValueError ("Path is not a file: " ++ abs_path))
        else
          _ <- try_except
                 (file_size <- getsize fs abs_path ;;
                  if (max_file_size v <? file_size)%Z then
                    Raise (FileSizeError ("File too large: " ++ str_of_Z file_size
                                          ++ " bytes (max: " ++ str_of_Z (max_file_size v) ++ ")"))
                  else Ok tt)
                 (fun e => if is_OSError e
                           then Raise (PermissionError ("Cannot access file: " ++ abs_path
                                                        ++ " - " ++ exn_str e))
                           else Raise e) ;;
          Ok abs_path
      else Ok abs_path.

End Security.

(** ** [utils/exceptions.py]: the response built for the client *)

Module Exceptions.

(** The dictionary [create_error_response] returns (its [context] and [cause]
    entries carry no message text for the errors of the validator). *)
Record error_dict : Type := {
  error_code : string;
  message : string;
  user_message : string
}.

Definition class_name (c : editor_class) : string :=
  match c with
  | ValidationError => "ValidationError"
  | InvalidScenarioError => "InvalidScenarioError"
  | ScenarioNotFoundError => "ScenarioNotFoundError"
  | ScenarioLoadError => "ScenarioLoadError"
  | YAMLParsingError => "YAMLParsingError"
  | FileAccessError => "FileAccessError"
  | ConfigurationError => "ConfigurationError"
  | ResourceLimitError => "ResourceLimitError"
  | PlainEditorError => "EmpyrionEditorError"
  end.

(** [status_code_map] with its default of 500. *)
Definition status_code (e : exn) : Z :=
  match e with
  | EditorError ValidationError _ _ => 400
  | EditorError InvalidScenarioError _ _ => 400
  | EditorError ScenarioNotFoundError _ _ => 404
  | EditorError FileAccessError _ _ => 403
  | EditorError ResourceLimitError _ _ => 413
  | EditorError YAMLParsingError _ _ => 422
  | EditorError ConfigurationError _ _ => 500
  | _ => 500
  end.

Definition create_error_response (error : exn) : error_dict * Z :=
  let d :=
    match error with
    | EditorError c m um =>
        {| error_code := class_name c; message := m; user_message := um |}
    | _ =>
        {| error_code := "UnexpectedError";
           message := exn_str error;
           user_message := "An unexpected error occurred" |}
    end in
  (d, status_code error).

End Exceptions.

(** ** [scenario_loader.py] *)

(** The values a caller may pass where a path string is expected. [PyObject]
    is any other object; its fields are what [bool(obj)] and [repr(obj)] give,
    the text of the latter left out because it only reaches the log. *)
Inductive pyval : Type :=
| PyNone
| PyBool (b : bool)
| PyInt (n : Z)
| PyStr (s : string)
| PyObject (truth : result bool) (repr : result unit).

Module Loader.

Record ScenarioLoader : Type := {
  max_file_size : Z;
  path_validator : Security.PathValidator;
  required_files : list string;
  optional_files : list string;
  file_size_limits : list (string * Z)
}.

(** [ScenarioLoader.__init__] *)
Definition ScenarioLoader_init (max_file_size : Z) : ScenarioLoader :=
  {| max_file_size := max_file_size;
     path_validator :=
       {| Security.allowed_root := None;
          Security.max_file_size := max_file_size;
          Security.max_depth := Security.DEFAULT_MAX_DIRECTORY_DEPTH |};
     required_files := ["gameoptions.yaml"; "description.txt"];
     optional_files :=
       ["SolarSystemConfig.yaml"; "RandomSolarSystemConfig.yaml"; "preview.jpg";
        "preview.png"; "playfield.yaml"];
     file_size_limits :=
       [(".yaml", 10 * 1024 * 1024); (".yml", 10 * 1024 * 1024);
        (".txt", 1 * 1024 * 1024); (".jpg", 5 * 1024 * 1024);
        (".png", 5 * 1024 * 1024)]%Z |}.

(** The loader the application builds: [ScenarioLoader()]. *)
Definition default_loader : ScenarioLoader := ScenarioLoader_init (10 * 1024 * 1024).

(** [d.get(key, default)] *)
Fixpoint dict_get (d : list (string * Z)) (key : string) (default : Z) : Z :=
  match d with
  | [] => default
  | (k, v) :: r => if k =? key then v else dict_get r key default
  end.

(** [bool(v)] *)
Definition truth (v : pyval) : result bool :=
  match v with
  | PyNone => Ok false
  | PyBool b => Ok b
  | PyInt n => Ok (negb (n =? 0)%Z)
  | PyStr s => Ok (Py.truthy s)
  | PyObject t _ => t
  end.

(** [isinstance(v, str)] *)
Definition is_str (v : pyval) : bool :=
  match v with
  | PyStr _ => true
  | _ => false
  end.

(** How the loop over [required_files] ends: with a [return] from inside it,
    or by running to its end with the list of missing files. *)
Inductive loop_outcome : Type :=
| Returned (b : bool)
| Completed (missing_files : list string).

Fixpoint check_required_files (L : ScenarioLoader) (fs : FS) (directory_path : string)
  (files missing_files : list string) : result loop_outcome :=
  match files with
  | [] => Ok (Completed missing_files)
  | required_file :: rest =>
      let file_path := PosixPath.join directory_path required_file in
      if negb (exists_ fs file_path) then
        check_required_files L fs directory_path rest (missing_files ++ [required_file])%list
      else
        readable <- access_r fs file_path ;;
        if negb readable then Ok (Returned false)
        else
          rejected <- try_except
                         (file_size <- getsize fs file_path ;;
                          let file_ext := Py.lower (snd (PosixPath.splitext required_file)) in
                          let size_limit :=
                            dict_get (file_size_limits L) file_ext (max_file_size L) in
                          Ok (size_limit <? file_size)%Z)
                         (fun e => if is_OSError e then Ok true else Raise e) ;;
          if rejected then Ok (Returned false)
          else check_required_files L fs directory_path rest missing_files
  end.

(** The probe of [gameoptions.yaml]: [Some false] when the function returns
    [False] from it, [None] when control falls through to [return True]. *)
Definition probe_gameoptions (fs : FS) (directory_path : string) : option bool :=
  let gameoptions_path := PosixPath.join directory_path "gameoptions.yaml" in
  match read_text fs gameoptions_path (Some 1024%nat) with
  | Ok content => if negb (Py.truthy (Py.strip content)) then Some false else None
  | Raise _ => Some false
  end.

(** The statements inside the outer [try] of [is_valid_scenario]. *)
Definition is_valid_scenario_body (L : ScenarioLoader) (fs : FS) (directory_path : pyval)
  : result bool :=
  t <- truth directory_path ;;
  if negb t || negb (is_str directory_path) then Ok false
  else
    match directory_path with
    | PyStr d =>
        if negb (exists_ fs d) then Ok false
        else if negb (isdir fs d) then Ok false
        else
          readable <- access_r fs d ;;
          if negb readable then Ok false
          else
            o <- check_required_files L fs d (required_files L) [] ;;
            match o with
            | Returned b => Ok b
            | Completed missing_files =>
                match missing_files with
                | _ :: _ => Ok false
                | [] =>
                    match probe_gameoptions fs d with
                    | Some b => Ok b
                    | None => Ok true
                    end
                end
            end
    | _ => Ok false
    end.

(** Evaluating [repr(v)]: of the values here only an arbitrary object can
    raise. *)
Definition eval_repr (v : pyval) : result unit :=
  match v with
  | PyObject _ r => r
  | _ => Ok tt
  end.

(** [str(args)] for the positional arguments after [self], whose own [repr]
    is the default one of [object]: the [repr] of each in turn. *)
Fixpoint str_of_args (args : list pyval) : result unit :=
  match args with
  | [] => Ok tt
  | v :: rest => _ <- eval_repr v ;; str_of_args rest
  end.

(** [@logged_function(..., include_args=True)]: the wrapper first builds the
    log context, evaluating [str(args)[:200]] outside any [try]; then the
    body runs inside [with PerformanceLogger(...)], whose [__exit__] returns
    [None], so that the value or the exception of the body passes through. *)
Definition logged_function {A : Type} (args : list pyval) (call : result A) : result A :=
  _ <- str_of_args args ;; call.

Definition is_valid_scenario (L : ScenarioLoader) (fs : FS) (directory_path : pyval)
  : result bool :=
  logged_function [directory_path]
    (try_except (is_valid_scenario_body L fs directory_path) (fun _ => Ok false)).

(** [_load_yaml_file]: Python's [None] is [YNull]. *)
Definition _load_yaml_file (fs : FS) (file_path : string) : yaml :=
  match safe_load fs file_path with
  | Ok v => v
  | Raise _ => YNull
  end.

Record preview : Type := {
  name : string;
  path : string;
  description : string;
  preview_image : option string;
  game_mode : string;
  multiplayer_ready : bool
}.

Definition set_description (s : string) (p : preview) : preview :=
  {| name := name p; path := path p; description := s;
     preview_image := preview_image p; game_mode := game_mode p;
     multiplayer_ready := multiplayer_ready p |}.

Definition set_preview_image (s : string) (p : preview) : preview :=
  {| name := name p; path := path p; description := description p;
     preview_image := Some s; game_mode := game_mode p;
     multiplayer_ready := multiplayer_ready p |}.

Definition set_game_mode (s : string) (p : preview) : preview :=
  {| name := name p; path := path p; description := description p;
     preview_image := preview_image p; game_mode := s;
     multiplayer_ready := multiplayer_ready p |}.

Definition set_multiplayer_ready (b : bool) (p : preview) : preview :=
  {| name := name p; path := path p; description := description p;
     preview_image := preview_image p; game_mode := game_mode p;
     multiplayer_ready := b |}.

(** Statements that update [preview_data] in place and may raise: the updates
    made before an exception stay. *)
Definition SE (A : Type) : Type := preview -> preview * result A.

Definition se_ret {A : Type} (a : A) : SE A := fun p => (p, Ok a).

Definition se_bind {A B : Type} (m : SE A) (k : A -> SE B) : SE B :=
  fun p =>
    match m p with
    | (p', Ok a) => k a p'
    | (p', Raise e) => (p', Raise e)
    end.

Definition se_lift {A : Type} (r : result A) : SE A := fun p => (p, r).

Definition se_modify (f : preview -> preview) : SE unit := fun p => (f p, Ok tt).

Notation "x <-- m ;;; k" := (se_bind m (fun x => k))
  (at level 61, m at next level, right associativity).

(** The body of [for option_set in gameoptions['Options']]. *)
Definition apply_option_set (option_set : yaml) : SE unit :=
  has_valid_for <-- se_lift (PyYaml.contains "ValidFor" option_set) ;;;
  if has_valid_for then
    valid_for <-- se_lift (PyYaml.getitem option_set "ValidFor") ;;;
    mp <-- se_lift (PyYaml.contains "MP" valid_for) ;;;
    _ <-- (if mp then se_modify (set_multiplayer_ready true) else se_ret tt) ;;;
    sp <-- se_lift (PyYaml.contains "SP" valid_for) ;;;
    sp_creative <-- (if sp then se_lift (PyYaml.contains "Creative" valid_for)
                     else se_ret false) ;;;
    if sp_creative then se_modify (set_game_mode "Single Player")
    else
      mp' <-- se_lift (PyYaml.contains "MP" valid_for) ;;;
      if mp' then se_modify (set_game_mode "Multiplayer") else se_ret tt
  else se_ret tt.

Fixpoint for_each_option_set (option_sets : list yaml) : SE unit :=
  match option_sets with
  | [] => se_ret tt
  | option_set :: rest =>
      _ <-- apply_option_set option_set ;;; for_each_option_set rest
  end.

(** The statements inside [try: ... except: pass] of [get_scenario_preview]. *)
Definition read_game_options (fs : FS) (scenario_path : string) : SE unit :=
  let gameoptions :=
    _load_yaml_file fs (PosixPath.join scenario_path "gameoptions.yaml") in
  if PyYaml.truthy gameoptions then
    has_options <-- se_lift (PyYaml.contains "Options" gameoptions) ;;;
    if has_options then
      options <-- se_lift (PyYaml.getitem gameoptions "Options") ;;;
      option_sets <-- se_lift (PyYaml.iterate options) ;;;
      for_each_option_set option_sets
    else se_ret tt
  else se_ret tt.

(** Reading [description.txt]; the bare [except:] stores a placeholder. *)
Definition read_description (fs : FS) (scenario_path : string) (p : preview) : preview :=
  let desc_path := PosixPath.join scenario_path "description.txt" in
  if exists_ fs desc_path then
    match read_text fs desc_path None with
    | Ok text => set_description (Py.strip text) p
    | Raise _ => set_description "Error reading description" p
    end
  else p.

(** [for img_ext in ['jpg', 'png']: ... break] *)
Fixpoint find_preview_image (fs : FS) (scenario_path : string) (exts : list string)
  (p : preview) : preview :=
  match exts with
  | [] => p
  | img_ext :: rest =>
      let img_path := PosixPath.join scenario_path ("preview." ++ img_ext) in
      if exists_ fs img_path then set_preview_image ("preview." ++ img_ext) p
      else find_preview_image fs scenario_path rest p
  end.

Definition get_scenario_preview (L : ScenarioLoader) (fs : FS) (scenario_path : string)
  : result preview :=
  valid <- is_valid_scenario L fs (PyStr scenario_path) ;;
  if negb valid then Raise (ValueError ("Invalid scenario directory: " ++ scenario_path))
  else
    let preview_data :=
      {| name := PosixPath.basename scenario_path;
         path := scenario_path;
         description := "";
         preview_image := None;
         game_mode := "Unknown";
         multiplayer_ready := false |} in
    let preview_data := read_description fs scenario_path preview_data in
    let preview_data := find_preview_image fs scenario_path ["jpg"; "png"] preview_data in
    let preview_data := fst (read_game_options fs scenario_path preview_data) in
    Ok preview_data.

(** An entry of the [files] mapping of a loaded scenario, by its ['type']. *)
Inductive file_entry : Type :=
| YamlEntry (path : string) (content : yaml)
| TextEntry (path : string) (content : string)
| ErrorEntry (path : string) (error : string).

Record structure : Type := {
  directories : list string;
  files : list string;
  playfields_count : nat;
  prefabs_count : nat;
  has_content : bool;
  has_custom_configs : bool
}.

(** [os.path.relpath(path, start)] *)
Definition relpath (env : Env) (path start : string) : result string :=
  if negb (Py.truthy path) then Raise (ValueError "no path specified")
  else
    start_abs <- PosixPath.abspath env start ;;
    path_abs <- PosixPath.abspath env path ;;
    let start_list := filter Py.truthy (Py.split "/" start_abs) in
    let path_list := filter Py.truthy (Py.split "/" path_abs) in
    let s1 := PosixPath.min_from start_list [path_list] in
    let s2 := PosixPath.max_from start_list [path_list] in
    common <- PosixPath.common_loop s1 s2 0 s1 ;;
    let i := List.length common in
    let rel_list :=
      (repeat ".." (List.length start_list - i) ++ skipn i path_list)%list in
    match rel_list with
    | [] => Ok "."
    | first :: others => Ok (fold_left PosixPath.join others first)
    end.

(** One iteration of the loop over [os.walk(scenario_path)]. *)
Definition analyze_step (env : Env) (scenario_path : string) (st : structure)
  (entry : string * list string * list string) : result structure :=
  let '(root, dirs, fnames) := entry in
  rel_path <- relpath env root scenario_path ;;
  let st1 :=
    if rel_path =? "."
    then {| directories := directories st; files := (files st ++ fnames)%list;
            playfields_count := playfields_count st; prefabs_count := prefabs_count st;
            has_content := has_content st; has_custom_configs := has_custom_configs st |}
    else {| directories := (directories st ++ [rel_path])%list; files := files st;
            playfields_count := playfields_count st; prefabs_count := prefabs_count st;
            has_content := has_content st; has_custom_configs := has_custom_configs st |} in
  if Py.contains "Playfields" rel_path then
    Ok {| directories := directories st1; files := files st1;
          playfields_count :=
            playfields_count st1
            + List.length (filter (fun d => negb (Py.startswith d ".")) dirs);
          prefabs_count := prefabs_count st1;
          has_content := has_content st1; has_custom_configs := has_custom_configs st1 |}
  else if Py.contains "Prefabs" rel_path then
    Ok {| directories := directories st1; files := files st1;
          playfields_count := playfields_count st1;
          prefabs_count :=
            prefabs_count st1
            + List.length (filter (fun f => Py.endswith f ".epb") fnames);
          has_content := has_content st1; has_custom_configs := has_custom_configs st1 |}
  else if Py.contains "Content" rel_path then
    Ok {| directories := directories st1; files := files st1;
          playfields_count := playfields_count st1; prefabs_count := prefabs_count st1;
          has_content := true;
          has_custom_configs :=
            if existsb (fun f => Py.endswith f ".ecf") fnames then true
            else has_custom_configs st1 |}
  else Ok st1.

(** The loop; an exception leaves the structure as built so far. *)
Fixpoint analyze_loop (env : Env) (scenario_path : string) (st : structure)
  (entries : list (string * list string * list string)) : structure :=
  match entries with
  | [] => st
  | entry :: rest =>
      match analyze_step env scenario_path st entry with
      | Ok st' => analyze_loop env scenario_path st' rest
      | Raise _ => st
      end
  end.

Definition _analyze_scenario_structure (env : Env) (fs : FS) (scenario_path : string)
  : structure :=
  analyze_loop env scenario_path
    {| directories := []; files := []; playfields_count := 0; prefabs_count := 0;
       has_content := false; has_custom_configs := false |}
    (fst (walk fs scenario_path)).

Record scenario_data : Type := {
  metadata : preview;
  loaded_files : list (string * file_entry);
  scenario_structure : structure
}.

(** [d[key] = value] on a mapping kept in insertion order. *)
Fixpoint dict_set (d : list (string * file_entry)) (key : string) (value : file_entry)
  : list (string * file_entry) :=
  match d with
  | [] => [(key, value)]
  | (k, v) :: r => if k =? key then (k, value) :: r else (k, v) :: dict_set r key value
  end.

(** [d.get(key)] *)
Fixpoint dict_lookup (d : list (string * file_entry)) (key : string) : option file_entry :=
  match d with
  | [] => None
  | (k, v) :: r => if k =? key then Some v else dict_lookup r key
  end.

Definition config_files : list (string * string) :=
  [("gameoptions.yaml", "Game Options");
   ("SolarSystemConfig.yaml", "Solar System Config");
   ("RandomPresets/SolarSystemConfig.yaml", "Random Solar System Config")].

(** The body of the loop over [config_files.items()]. *)
Definition load_config_file (fs : FS) (scenario_path : string)
  (loaded : list (string * file_entry)) (item : string * string)
  : list (string * file_entry) :=
  let '(file_path, file_name) := item in
  let full_path := PosixPath.join scenario_path file_path in
  if exists_ fs full_path then
    let attempt :=
      if Py.endswith file_path ".yaml"
      then Ok (YamlEntry file_path (_load_yaml_file fs full_path))
      else (text <- read_text fs full_path None ;; Ok (TextEntry file_path text)) in
    match attempt with
    | Ok entry => dict_set loaded file_name entry
    | Raise e => dict_set loaded file_name (ErrorEntry file_path (exn_str e))
    end
  else loaded.

Definition load_scenario (env : Env) (L : ScenarioLoader) (fs : FS) (scenario_path : string)
  : result scenario_data :=
  valid <- is_valid_scenario L fs (PyStr scenario_path) ;;
  if negb valid then Raise (ValueError ("Invalid scenario directory: " ++ scenario_path))
  else
    metadata <- get_scenario_preview L fs scenario_path ;;
    let structure := _analyze_scenario_structure env fs scenario_path in
    Ok {| metadata := metadata;
          loaded_files := fold_left (load_config_file fs scenario_path) config_files [];
          scenario_structure := structure |}.

End Loader.

(** ** [utils/security.py]: [InputSanitizer] and [get_safe_temp_path] *)

Module InputSanitizer.

(** The characters of [dangerous_chars]: less-than, greater-than, colon,
    double quote, slash, backslash, bar, question mark, star and the null
    character. *)
Definition dangerous_chars : list ascii :=
  ["<"; ">"; ":"; ascii_of_nat 34; "/"; "\"; "|"; "?"; "*"; ascii_of_nat 0]%char.

(** [char in dangerous_chars] *)
Definition is_dangerous (char : ascii) : bool := existsb (Ascii.eqb char) dangerous_chars.

(** [''.join(char for char in filename if char not in dangerous_chars)] *)
Fixpoint drop_dangerous_chars (filename : string) : string :=
  match filename with
  | EmptyString => EmptyString
  | String c s' =>
      if is_dangerous c then drop_dangerous_chars s'
      else String c (drop_dangerous_chars s')
  end.

(** [c.upper()] on code points below 256, as the code points of the result:
    the small letters of ASCII and Latin-1 move down by 32, the micro sign
    becomes U+039C, the sharp s becomes two capital S, and y with diaeresis
    becomes U+0178. *)
Definition upper_char (c : ascii) : list N :=
  let n := Py.ord c in
  if ((97 <=? n) && (n <=? 122))%N then [n - 32]%N
  else if (n =? 181)%N then [924]%N
  else if (n =? 223)%N then [83; 83]%N
  else if ((224 <=? n) && (n <=? 254) && negb (n =? 247))%N then [n - 32]%N
  else if (n =? 255)%N then [376]%N
  else [n].

(** [s.upper()] *)
Fixpoint upper (s : string) : list N :=
  match s with
  | EmptyString => []
  | String c s' => (upper_char c ++ upper s')%list
  end.

(** The code points of a string. *)
Fixpoint code_points (s : string) : list N :=
  match s with
  | EmptyString => []
  | String c s' => Py.ord c :: code_points s'
  end.

Fixpoint code_points_eqb (a b : list N) : bool :=
  match a, b with
  | [], [] => true
  | x :: a', y :: b' => (x =? y)%N && code_points_eqb a' b'
  | _, _ => false
  end.

Definition reserved_names : list string :=
  ["CON"; "PRN"; "AUX"; "NUL";
   "COM1"; "COM2"; "COM3"; "COM4"; "COM5"; "COM6"; "COM7"; "COM8"; "COM9";
   "LPT1"; "LPT2"; "LPT3"; "LPT4"; "LPT5"; "LPT6"; "LPT7"; "LPT8"; "LPT9"].

(** [sanitized.upper() in reserved_names] *)
Definition is_reserved (sanitized : string) : bool :=
  existsb (fun name => code_points_eqb (upper sanitized) (code_points name)) reserved_names.

(** [sanitize_filename(filename, max_length)] for a [str] argument. *)
Definition sanitize_filename (filename : string) (max_length : Z) : result string :=
  if negb (Py.truthy filename) then Raise (ValueError "Filename must be a non-empty string")
  else
    let sanitized := drop_dangerous_chars filename in
    let sanitized := Security.drop_control_chars sanitized in
    let sanitized := Py.strip sanitized in
    if (max_length <? Z.of_nat (String.length sanitized))%Z then
      Raise (ValueError ("Filename too long: " ++ str_of_Z (Z.of_nat (String.length sanitized))
                         ++ " > " ++ str_of_Z max_length))
    else if negb (Py.truthy sanitized) then
      Raise (ValueError "Filename is empty after sanitization")
    else if is_reserved sanitized then
      Raise (ValueError ("Filename uses reserved name: " ++ sanitized))
    else Ok sanitized.

(** [s[:n]] for any integer [n]: a negative [n] counts from the end. *)
Definition slice_to (n : Z) (s : string) : string :=
  if (0 <=? n)%Z then Py.take (Z.to_nat n) s
  else Py.take (String.length s - Z.to_nat (- n)) s.

(** [sanitize_search_term(search_term, max_length)] for a [str] argument. *)
Definition sanitize_search_term (search_term : string) (max_length : Z) : string :=
  if negb (Py.truthy search_term) then ""
  else
    let sanitized := Security.drop_control_chars search_term in
    let sanitized :=
      if (max_length <? Z.of_nat (String.length sanitized))%Z
      then slice_to max_length sanitized
      else sanitized in
    Py.strip sanitized.

End InputSanitizer.

(** [get_safe_temp_path(base_name)]; [uuid_hex] is what [uuid.uuid4().hex]
    gives and [temp_dir] what [tempfile.gettempdir()] gives. *)
Definition get_safe_temp_path (uuid_hex temp_dir base_name : string) : result string :=
  safe_name <- InputSanitizer.sanitize_filename base_name 255 ;;
  let unique_name := safe_name ++ "_" ++ Py.take 8 uuid_hex in
  Ok (PosixPath.join temp_dir unique_name).

(** ** [utils/exceptions.py]: required parameters *)

(** [ValidationError(field_name, value, reason)], with [value] already
    formatted by [str]. *)
Definition new_ValidationError (field_name value reason : string) : exn :=
  EditorError ValidationError
    ("Validation failed for '" ++ field_name ++ "' with value '" ++ value ++ "': " ++ reason)
    ("Invalid " ++ field_name ++ ": " ++ reason).

(** [require_params]: [required_params] holds the keyword arguments in the
    order of the call. *)
Fixpoint require_params (required_params : list (string * pyval)) : result unit :=
  match required_params with
  | [] => Ok tt
  | (param_name, param_value) :: rest =>
      match param_value with
      | PyNone => Raise (new_ValidationError param_name "None" "is required")
      | PyStr s =>
          if negb (Py.truthy (Py.strip s))
          then Raise (new_ValidationError param_name s "cannot be empty")
          else require_params rest
      | _ => require_params rest
      end
  end.

(** ** [app.py]: the endpoint that loads a scenario *)

Module App.

(** What the endpoint sends back: the scenario as JSON, or the error
    dictionary of [create_error_response]. *)
Inductive body : Type :=
| ScenarioJson (scenario_data : Loader.scenario_data)
| ErrorJson (error_dict : Exceptions.error_dict).

(** The body of [load_scenario()]: [path] is [request.args.get('path')];
    [jsonify] tells whether [jsonify(scenario_data)] returns or raises (a
    document that JSON cannot represent). The name [InvalidScenarioError] is
    not among those [app.py] imports, so that the [raise] statement using it
    raises [NameError]. *)
Definition load_scenario_view (env : Env) (fs : FS)
  (jsonify : Loader.scenario_data -> result unit)
  (path_validator : Security.PathValidator)
  (scenario_loader : Loader.ScenarioLoader) (path : option string)
  : result Loader.scenario_data :=
  _ <- require_params [("path", match path with Some s => PyStr s | None => PyNone end)] ;;
  validated_path <-
    match path with
    | Some scenario_path =>
        Security.validate_directory_path env fs path_validator scenario_path
    | None => Raise (ValueError "Path must be a non-empty string")
    end ;;
  valid <- Loader.is_valid_scenario scenario_loader fs (PyStr validated_path) ;;
  if negb valid then
    Raise (NameError "name 'InvalidScenarioError' is not defined")
  else
    scenario_data <- Loader.load_scenario env scenario_loader fs validated_path ;;
    _ <- jsonify scenario_data ;;
    Ok scenario_data.

(** [@handle_api_errors]: the value of the view with status 200, or the
    response built from the exception. *)
Definition handle_api_errors (view : result Loader.scenario_data) : body * Z :=
  match view with
  | Ok scenario_data => (ScenarioJson scenario_data, 200%Z)
  | Raise e =>
      let '(error_dict, status_code) := Exceptions.create_error_response e in
      (ErrorJson error_dict, status_code)
  end.

(** [load_scenario] as Flask serves it. *)
Definition load_scenario (env : Env) (fs : FS)
  (jsonify : Loader.scenario_data -> result unit)
  (path_validator : Security.PathValidator)
  (scenario_loader : Loader.ScenarioLoader) (path : option string) : body * Z :=
  handle_api_errors (load_scenario_view env fs jsonify path_validator scenario_loader path).

End App.

(** ** Concrete environments and file systems used by the examples *)

Module Examples.

(** A file: its size, what reading it as text gives, what loading it as YAML
    gives. *)
Record file : Type := {
  file_size : Z;
  file_text : result string;
  file_yaml : result yaml
}.

Fixpoint lookup_file (files : list (string * file)) (p : string) : option file :=
  match files with
  | [] => None
  | (k, f) :: r => if k =? p then Some f else lookup_file r p
  end.

(** The file system holding the directories [dirs] and the files [files], all
    readable. *)
Definition mk_fs (dirs : list string) (files : list (string * file))
  (walked : list (string * list string * list string)) : FS :=
  {| exists_ := fun p =>
       Py.mem p dirs || match lookup_file files p with Some _ => true | None => false end;
     isdir := fun p => Py.mem p dirs;
     isfile := fun p => match lookup_file files p with Some _ => true | None => false end;
     access_r := fun p =>
       Ok (Py.mem p dirs || match lookup_file files p with Some _ => true | None => false end);
     getsize := fun p =>
       match lookup_file files p with
       | Some f => Ok (file_size f)
       | None => Raise (FileNotFoundError p)
       end;
     read_text := fun p n =>
       match lookup_file files p with
       | Some f =>
           text <- file_text f ;;
           Ok (match n with Some k => Py.take k text | None => text end)
       | None => Raise (FileNotFoundError p)
       end;
     safe_load := fun p =>
       match lookup_file files p with
       | Some f => file_yaml f
       | None => Raise (FileNotFoundError p)
       end;
     walk := fun top => (if top =? "/home/alice/scenarios/Default" then walked else [], None) |}.

Definition env_alice : Env :=
  {| getcwd := Ok "/home/alice";
     environ_HOME := Some "/home/alice";
     pw_dir_self := Some "/home/alice";
     pw_dir_of := fun _ => None |}.

(** The validator of the application: rooted at the home directory, 50 MB,
    depth 20. *)
Definition validator_alice : Security.PathValidator :=
  {| Security.allowed_root := Some "/home/alice";
     Security.max_file_size := 50 * 1024 * 1024;
     Security.max_depth := 20 |}.

(** A validator without a root, as [ScenarioLoader] builds it. *)
Definition validator_free : Security.PathValidator :=
  {| Security.allowed_root := None;
     Security.max_file_size := 10 * 1024 * 1024;
     Security.max_depth := 10 |}.

(** A validator whose root kept the two leading slashes [abspath] preserves. *)
Definition validator_srv : Security.PathValidator :=
  {| Security.allowed_root := Some "//srv";
     Security.max_file_size := 10 * 1024 * 1024;
     Security.max_depth := 10 |}.

(** A process whose current directory is the file-system root. *)
Definition env_at_root : Env :=
  {| getcwd := Ok "/";
     environ_HOME := Some "/home/alice";
     pw_dir_self := Some "/home/alice";
     pw_dir_of := fun _ => None |}.

Definition gameoptions_doc : yaml :=
  YMap [(YStr "Options",
         YSeq [YMap [(YStr "ValidFor", YSeq [YStr "SP"; YStr "Creative"; YStr "MP"]);
                     (YStr "Difficulty", YStr "Easy")];
               YMap [(YStr "ValidFor", YSeq [YStr "MP"])]])].

Definition gameoptions_file : file :=
  {| file_size := 120;
     file_text :=
       Ok "Options: [{ValidFor: [SP, Creative, MP], Difficulty: Easy}, {ValidFor: [MP]}]";
     file_yaml := Ok gameoptions_doc |}.

Definition description_file : file :=
  {| file_size := 24;
     file_text := Ok "  A quiet starter system  ";
     file_yaml := Raise (YAMLError "not a YAML document") |}.

Definition unreadable_description_file : file :=
  {| file_size := 24;
     file_text := Raise (UnicodeDecodeError "'utf-8' codec can't decode byte 0xff");
     file_yaml := Raise (YAMLError "not a YAML document") |}.

Definition corrupted_solar_file : file :=
  {| file_size := 17;
     file_text := Ok "Sectors: [unclosed";
     file_yaml := Raise (YAMLError "while parsing a flow sequence: expected ',' or ']'") |}.

Definition home_dirs : list string :=
  ["/"; "/home"; "/home/alice"; "/home/alice/scenarios";
   "/home/alice/scenarios/Default"; "/home/alice/foo"; "/home/alice-other";
   "/etc"; "/srv"].

(** A scenario holding the two required files and nothing else. *)
Definition fs_minimal : FS :=
  mk_fs home_dirs
    [("/home/alice/scenarios/Default/gameoptions.yaml", gameoptions_file);
     ("/home/alice/scenarios/Default/description.txt", description_file)]
    [("/home/alice/scenarios/Default", [], ["gameoptions.yaml"; "description.txt"])].

(** The same scenario with a description that cannot be decoded. *)
Definition fs_bad_description : FS :=
  mk_fs home_dirs
    [("/home/alice/scenarios/Default/gameoptions.yaml", gameoptions_file);
     ("/home/alice/scenarios/Default/description.txt", unreadable_description_file)]
    [("/home/alice/scenarios/Default", [], ["gameoptions.yaml"; "description.txt"])].

(** The scenario with a corrupted solar-system configuration. *)
Definition fs_corrupted_solar : FS :=
  mk_fs home_dirs
    [("/home/alice/scenarios/Default/gameoptions.yaml", gameoptions_file);
     ("/home/alice/scenarios/Default/description.txt", description_file);
     ("/home/alice/scenarios/Default/SolarSystemConfig.yaml", corrupted_solar_file)]
    [("/home/alice/scenarios/Default", [],
      ["gameoptions.yaml"; "description.txt"; "SolarSystemConfig.yaml"])].

(** The scenario directory without its [gameoptions.yaml]. *)
Definition fs_description_only : FS :=
  mk_fs home_dirs
    [("/home/alice/scenarios/Default/description.txt", description_file)]
    [("/home/alice/scenarios/Default", [], ["description.txt"])].

(** A [gameoptions.yaml] of 11 MB, above the 10 MB allowed to [.yaml] files. *)
Definition fs_oversized_options : FS :=
  mk_fs home_dirs
    [("/home/alice/scenarios/Default/gameoptions.yaml",
      {| file_size := 11 * 1024 * 1024;
         file_text := file_text gameoptions_file;
         file_yaml := file_yaml gameoptions_file |});
     ("/home/alice/scenarios/Default/description.txt", description_file)]
    [("/home/alice/scenarios/Default", [], ["gameoptions.yaml"; "description.txt"])].

(** A [gameoptions.yaml] holding blanks only. *)
Definition fs_blank_options : FS :=
  mk_fs home_dirs
    [("/home/alice/scenarios/Default/gameoptions.yaml",
      {| file_size := 3; file_text := Ok "   "; file_yaml := Ok YNull |});
     ("/home/alice/scenarios/Default/description.txt", description_file)]
    [("/home/alice/scenarios/Default", [], ["gameoptions.yaml"; "description.txt"])].

(** A [gameoptions.yaml] that is not blank but does not parse. *)
Definition fs_unparsable_options : FS :=
  mk_fs home_dirs
    [("/home/alice/scenarios/Default/gameoptions.yaml",
      {| file_size := 29;
         file_text := Ok "Options: [{ValidFor: [SP, MP";
         file_yaml := Raise (YAMLError "while parsing a flow sequence: expected ',' or ']'") |});
     ("/home/alice/scenarios/Default/description.txt", description_file)]
    [("/home/alice/scenarios/Default", [], ["gameoptions.yaml"; "description.txt"])].





(** The minimal scenario on a file system that, like the kernel, also answers
    for the directory and its files when the path of the directory is written
    with a trailing slash or a trailing dot component. *)
Definition fs_respelled : FS :=
  mk_fs ("/home/alice/scenarios/Default/" :: "/home/alice/scenarios/Default/." :: home_dirs)
    [("/home/alice/scenarios/Default/gameoptions.yaml", gameoptions_file);
     ("/home/alice/scenarios/Default/description.txt", description_file);
     ("/home/alice/scenarios/Default/./gameoptions.yaml", gameoptions_file);
     ("/home/alice/scenarios/Default/./description.txt", description_file)]
    [("/home/alice/scenarios/Default", [], ["gameoptions.yaml"; "description.txt"])].

Definition image_file : file :=
  {| file_size := 2048;
     file_text := Raise (UnicodeDecodeError "'utf-8' codec can't decode byte 0x89");
     file_yaml := Raise (YAMLError "unacceptable character") |}.

(** A scenario with both preview images, playfields, prefabs and custom
    configuration files. *)
Definition fs_full : FS :=
  mk_fs (home_dirs ++
         ["/home/alice/scenarios/Default/Content";
          "/home/alice/scenarios/Default/Content/Configuration";
          "/home/alice/scenarios/Default/Playfields";
          "/home/alice/scenarios/Default/Playfields/Akua";
          "/home/alice/scenarios/Default/Playfields/Omicron";
          "/home/alice/scenarios/Default/Prefabs"])%list
    [("/home/alice/scenarios/Default/gameoptions.yaml", gameoptions_file);
     ("/home/alice/scenarios/Default/description.txt", description_file);
     ("/home/alice/scenarios/Default/preview.jpg", image_file);
     ("/home/alice/scenarios/Default/preview.png", image_file)]
    [("/home/alice/scenarios/Default", ["Content"; "Playfields"; "Prefabs"],
      ["gameoptions.yaml"; "description.txt"; "preview.jpg"; "preview.png"]);
     ("/home/alice/scenarios/Default/Content", ["Configuration"], []);
     ("/home/alice/scenarios/Default/Content/Configuration", [], ["Config.ecf"]);
     ("/home/alice/scenarios/Default/Playfields", ["Akua"; "Omicron"], []);
     ("/home/alice/scenarios/Default/Playfields/Akua", [], ["playfield.yaml"]);
     ("/home/alice/scenarios/Default/Playfields/Omicron", [], ["playfield.yaml"]);
     ("/home/alice/scenarios/Default/Prefabs", [], ["Base.epb"; "notes.txt"])].

End Examples.

(** ** Vocabulary of the properties *)

(** The size limit that applies to a required file: the entry of
    [file_size_limits] for its lower-cased extension, else [max_file_size]. *)
Definition size_limit_of (L : Loader.ScenarioLoader) (required_file : string) : Z :=
  Loader.dict_get (Loader.file_size_limits L)
    (Py.lower (snd (PosixPath.splitext required_file))) (Loader.max_file_size L).

(** What the loop over the required files has established about one file when
    it runs to its end without reporting it missing. *)
Definition file_accepted (L : Loader.ScenarioLoader) (fs : FS) (d f : string) : Prop :=
  exists_ fs (PosixPath.join d f) = true /\
  access_r fs (PosixPath.join d f) = Ok true /\
  exists n, getsize fs (PosixPath.join d f) = Ok n /\ (n <= size_limit_of L f)%Z.

(** The value of the [ValidFor] entry of an option group, when the group is a
    mapping that has one. *)
Definition valid_for_of (group : yaml) : option yaml :=
  match group with
  | YMap entries =>
      match List.find (fun kv => PyYaml.eq_str "ValidFor" (fst kv)) entries with
      | Some kv => Some (snd kv)
      | None => None
      end
  | _ => None
  end.



(** The group carries [tag] in its [ValidFor] tag set. *)
Definition has_tag (tag : string) (group : yaml) : bool :=
  match valid_for_of group with
  | Some v =>
      match PyYaml.contains tag v with
      | Ok b => b
      | Raise _ => false
      end
  | None => false
  end.

(** Both the single-player and the creative marker are on the group. *)
Definition sp_creative (group : yaml) : bool :=
  has_tag "SP" group && has_tag "Creative" group.



(** [base] is the name of the directory that the path [d] is written to
    designate: the last component of [d], which is a proper name (not empty,
    without slash, neither the dot nor the double dot), [d] being that name
    alone or ending in a slash followed by it. *)
Definition names_directory (d base : string) : Prop :=
  Py.truthy base = true /\
  Py.contains "/" base = false /\
  base <> "." /\ base <> ".." /\
  (d = base \/ exists parent, d = parent ++ String "/" base).

(** The entry has ['type': 'yaml']. *)
Definition is_yaml_entry (e : Loader.file_entry) : bool :=
  match e with
  | Loader.YamlEntry _ _ => true
  | _ => false
  end.

(** The ASCII capitals folded to small letters, every other character kept:
    two strings are equal up to ASCII letter case when their folds are equal. *)
Definition ascii_fold_char (c : ascii) : ascii :=
  let n := Py.ord c in
  if ((65 <=? n) && (n <=? 90))%N then ascii_of_N (n + 32) else c.

Fixpoint ascii_fold (s : string) : string :=
  match s with
  | EmptyString => EmptyString
  | String c s' => String (ascii_fold_char c) (ascii_fold s')
  end.

Definition same_upto_ascii_case (s t : string) : Prop := ascii_fold s = ascii_fold t.

(** Two previews agree on everything but the game mode and the multiplayer
    flag. *)
Definition same_identity (p q : Loader.preview) : Prop :=
  Loader.name q = Loader.name p /\ Loader.path q = Loader.path p /\
  Loader.description q = Loader.description p /\
  Loader.preview_image q = Loader.preview_image p.

(** All characters are below 128. *)
Fixpoint all_ascii (s : string) : bool :=
  match s with
  | EmptyString => true
  | String c s' => (Py.ord c <? 128)%N && all_ascii s'
  end.

(** A component of a canonical path: not empty, not the dot, without slash. *)
Definition is_component (c : string) : bool :=
  Py.truthy c && negb (c =? ".") && negb (Py.contains "/" c).

(** The components of a path, as [commonpath] compares them. *)
Definition components (p : string) : list string :=
  PosixPath.drop_empty_and_dot (Py.split "/" p).

(** [xs] is a prefix of [ys], component by component. *)
Fixpoint is_prefix (xs ys : list string) : bool :=
  match xs, ys with
  | [], _ => true
  | x :: xs', y :: ys' => (x =? y) && is_prefix xs' ys'
  | _ :: _, [] => false
  end.

(** The longest common prefix of two lists of components. *)
Fixpoint lcp (xs ys : list string) : list string :=
  match xs, ys with
  | x :: xs', y :: ys' => if x =? y then x :: lcp xs' ys' else []
  | _, _ => []
  end.

(** The shape of what [abspath] returns: one or two slashes, then components
    joined by single slashes. *)
Definition canonical (p : string) : Prop :=
  exists n comps,
    (n = 1 \/ n = 2) /\
    forallb is_component comps = true /\
    p = PosixPath.slashes n ++ Py.join "/" comps.

(** [os.getcwd()], when it succeeds, returns an absolute path. *)
Definition cwd_is_absolute (env : Env) : Prop :=
  forall cwd, getcwd env = Ok cwd -> PosixPath.isabs cwd = true.

(** No character of the string is a control character. *)
Fixpoint all_printable (s : string) : bool :=
  match s with
  | EmptyString => true
  | String c s' => (32 <=? Py.ord c)%N && all_printable s'
  end.

(** The exceptions the docstring of [validate_directory_path] announces. *)
Definition documented_directory_error (e : exn) : bool :=
  match e with
  | ValueError _ | PathTraversalError _ | FileNotFoundError _ | PermissionError _ => true
  | _ => false
  end.

(** [os.getcwd()] fails with an [OSError] only. *)
Definition getcwd_raises_OSError (env : Env) : Prop :=
  forall e, getcwd env = Raise e -> is_OSError e = true.

(** [os.access] answers without raising. *)
Definition access_never_raises (fs : FS) : Prop :=
  forall p, exists b, access_r fs p = Ok b.

(** The game mode and the multiplayer flag fit together: the mode is one of
    the three labels, ['Unknown'] only with the flag down and ['Multiplayer']
    only with the flag up. *)
Definition mode_consistent (p : Loader.preview) : Prop :=
  (Loader.game_mode p = "Unknown" /\ Loader.multiplayer_ready p = false) \/
  Loader.game_mode p = "Single Player" \/
  (Loader.game_mode p = "Multiplayer" /\ Loader.multiplayer_ready p = true).

(** What the loop maintains, from the structure [st0] it starts with and the
    triples it has consumed. *)
Definition structure_grows (entries : list (string * list string * list string))
  (st0 st : Loader.structure) : Prop :=
  (Loader.has_custom_configs st = true ->
   Loader.has_custom_configs st0 = true \/ Loader.has_content st = true) /\
  (Loader.has_content st0 = true -> Loader.has_content st = true) /\
  (exists more, Loader.files st = (Loader.files st0 ++ more)%list /\
                forall f, In f more ->
                  exists root dirs fnames, In (root, dirs, fnames) entries /\ In f fnames) /\
  (exists more, Loader.directories st = (Loader.directories st0 ++ more)%list /\
                Py.mem "." more = false /\
                List.length more <= List.length entries).

(** A parameter value [require_params] lets pass: not [None], and not a
    string that is empty or blank. *)
Definition acceptable_param (v : pyval) : bool :=
  match v with
  | PyNone => false
  | PyStr s => Py.truthy (Py.strip s)
  | _ => true
  end.

(** What [require_params] reports about a value it refuses: the formatted
    value and the reason. *)
Definition refusal_of (v : pyval) : string * string :=
  match v with
  | PyStr s => (s, "cannot be empty")
  | _ => ("None", "is required")
  end.

(** Every character of the string satisfies [p]. *)
Fixpoint string_forall (p : ascii -> bool) (s : string) : bool :=
  match s with
  | EmptyString => true
  | String c s' => p c && string_forall p s'
  end.

(** The string is empty or starts with a character that is not white
    space. *)
Definition starts_nonspace (s : string) : bool :=
  match s with
  | EmptyString => true
  | String c _ => negb (Py.isspace c)
  end.

(** The 256 characters. *)
Definition every_char : list ascii := map ascii_of_nat (seq 0 256).

(** An ASCII capital or digit. *)
Definition is_capital_or_digit (c : ascii) : bool :=
  let n := Py.ord c in
  (((65 <=? n) && (n <=? 90)) || ((48 <=? n) && (n <=? 57)))%N.

(** * Properties *)

(** ** Facts about the string primitives *)

Lemma truthy_true_iff (s : string) : Py.truthy s = true <-> s <> "".
Proof.
  unfold Py.truthy. destruct (String.eqb_spec s ""); simpl; split; congruence.
Qed.

Lemma truthy_false_iff (s : string) : Py.truthy s = false <-> s = "".
Proof.
  unfold Py.truthy. destruct (String.eqb_spec s ""); simpl; split; congruence.
Qed.

Lemma append_empty_r (s : string) : s ++ "" = s.
Proof. induction s as [|c s IH]; simpl; [reflexivity | now rewrite IH]. Qed.

Lemma append_assoc (a b c : string) : (a ++ b) ++ c = a ++ (b ++ c).
Proof. induction a as [|x a IH]; simpl; [reflexivity | now rewrite IH]. Qed.

Lemma startswith_app (p t : string) : Py.startswith (p ++ t) p = true.
Proof.
  induction p as [|c p IH]; simpl; [reflexivity |].
  now rewrite Ascii.eqb_refl, IH.
Qed.

Lemma startswith_spec (s p : string) :
  Py.startswith s p = true <-> exists t, s = p ++ t.
Proof.
  split.
  - revert s. induction p as [|c p IH]; intros s H.
    + now exists s.
    + destruct s as [|d s]; simpl in H; [discriminate |].
      apply andb_true_iff in H as [Hc Hs].
      apply Ascii.eqb_eq in Hc. subst d.
      destruct (IH _ Hs) as [t ->]. now exists t.
  - intros [t ->]. apply startswith_app.
Qed.

Lemma contains_here (sub s : string) :
  Py.startswith s sub = true -> Py.contains sub s = true.
Proof. intros H. destruct s; simpl in *; rewrite H; reflexivity. Qed.

Lemma contains_later (sub a s : string) :
  Py.contains sub s = true -> Py.contains sub (a ++ s) = true.
Proof.
  intros H. induction a as [|c a IH]; simpl; [exact H |].
  rewrite IH. apply orb_true_r.
Qed.

(** A string occurs in every text built around it. *)
Lemma contains_infix (a sub b : string) : Py.contains sub (a ++ sub ++ b) = true.
Proof. apply contains_later, contains_here, startswith_app. Qed.

Lemma contains_spec (sub s : string) :
  Py.contains sub s = true <-> exists a b, s = a ++ sub ++ b.
Proof.
  split.
  - induction s as [|c s IH]; simpl; intros H.
    + rewrite orb_false_r in H. apply startswith_spec in H as [t Ht].
      exists "", t. exact Ht.
    + apply orb_true_iff in H as [H | H].
      * apply startswith_spec in H as [t Ht]. exists "", t. exact Ht.
      * destruct (IH H) as (a & b & ->). exists (String c a), b. reflexivity.
  - intros (a & b & ->). apply contains_infix.
Qed.

Lemma mem_In (x : string) (l : list string) : Py.mem x l = true <-> In x l.
Proof.
  unfold Py.mem. rewrite existsb_exists. split.
  - intros (y & Hy & E). apply String.eqb_eq in E. now subst.
  - intros H. exists x. split; [exact H | apply String.eqb_refl].
Qed.

(** ** Facts about [result] *)

Lemma bind_Ok_inv {A B : Type} (m : result A) (k : A -> result B) (b : B) :
  (x <- m ;; k x) = Ok b -> exists a, m = Ok a /\ k a = Ok b.
Proof. destruct m as [a | e]; simpl; intros H; [now exists a | discriminate]. Qed.

(** ** The scenario detector never raises *)

(** For a string argument the wrapper has nothing that can fail. *)
Lemma is_valid_scenario_str (L : Loader.ScenarioLoader) (fs : FS) (d : string) :
  Loader.is_valid_scenario L fs (PyStr d)
  = try_except (Loader.is_valid_scenario_body L fs (PyStr d)) (fun _ => Ok false).
Proof. reflexivity. Qed.

Lemma is_valid_scenario_str_returns (L : Loader.ScenarioLoader) (fs : FS) (d : string) :
  exists b, Loader.is_valid_scenario L fs (PyStr d) = Ok b.
Proof.
  rewrite is_valid_scenario_str. unfold try_except.
  destruct (Loader.is_valid_scenario_body L fs (PyStr d)) as [b | e]; eexists; reflexivity.
Qed.




(** ** What a successful detection implies *)

Lemma check_required_files_returned (L : Loader.ScenarioLoader) (fs : FS) (d : string)
  (files missing : list string) (b : bool) :
  Loader.check_required_files L fs d files missing = Ok (Loader.Returned b) -> b = false.
Proof.
  revert missing. induction files as [|f files IH]; intros missing H; simpl in H.
  - discriminate.
  - destruct (exists_ fs (PosixPath.join d f)); simpl in H; [| now apply IH in H].
    destruct (access_r fs (PosixPath.join d f)) as [[|] | e]; simpl in H; try discriminate.
    + destruct (getsize fs (PosixPath.join d f)) as [n | e]; simpl in H.
      * destruct (_ <? n)%Z; [congruence | now apply IH in H].
      * destruct (is_OSError e); simpl in H; [congruence | discriminate].
    + congruence.
Qed.

Lemma check_required_files_completed (L : Loader.ScenarioLoader) (fs : FS) (d : string)
  (files missing m : list string) :
  Loader.check_required_files L fs d files missing = Ok (Loader.Completed m) ->
  exists extra,
    m = (missing ++ extra)%list /\
    forall f, In f files ->
      (exists_ fs (PosixPath.join d f) = false /\ In f extra) \/ file_accepted L fs d f.
Proof.
  revert missing. induction files as [|f files IH]; intros missing H; simpl in H.
  - injection H as <-. exists []. split; [now rewrite app_nil_r | intros f []].
  - destruct (exists_ fs (PosixPath.join d f)) eqn:Hex; simpl in H.
    + destruct (access_r fs (PosixPath.join d f)) as [[|] | e] eqn:Hacc;
        simpl in H; try discriminate.
      destruct (getsize fs (PosixPath.join d f)) as [n | e] eqn:Hsz; simpl in H.
      * destruct (_ <? n)%Z eqn:Hlt; [discriminate |].
        destruct (IH _ H) as (extra & -> & Hall).
        exists extra. split; [reflexivity |].
        intros g [<- | Hg]; [| now apply Hall].
        right. split; [exact Hex |]. split; [exact Hacc |].
        exists n. split; [exact Hsz |].
        apply Z.ltb_ge in Hlt. exact Hlt.
      * destruct (is_OSError e); simpl in H; discriminate.
    + destruct (IH _ H) as (extra & -> & Hall).
      exists (f :: extra). split.
      * now rewrite <- app_assoc.
      * intros g [<- | Hg].
        -- left. split; [exact Hex | now left].
        -- destruct (Hall g Hg) as [[Hm Hin] | Hok]; [left | right; exact Hok].
           split; [exact Hm | now right].
Qed.

(** Everything [is_valid_scenario] has checked when it answers [True]. *)
Lemma is_valid_scenario_true_inv (L : Loader.ScenarioLoader) (fs : FS) (d : string) :
  Loader.is_valid_scenario L fs (PyStr d) = Ok true ->
  exists_ fs d = true /\ isdir fs d = true /\ access_r fs d = Ok true /\
  (forall f, In f (Loader.required_files L) -> file_accepted L fs d f) /\
  exists content,
    read_text fs (PosixPath.join d "gameoptions.yaml") (Some 1024%nat) = Ok content /\
    Py.truthy (Py.strip content) = true.
Proof.
  rewrite is_valid_scenario_str. unfold try_except, Loader.is_valid_scenario_body. simpl.
  destruct (Py.truthy d); simpl; [| intros; discriminate].
  destruct (exists_ fs d); simpl; [| intros; discriminate].
  destruct (isdir fs d); simpl; [| intros; discriminate].
  destruct (access_r fs d) as [[|] | e]; simpl; try (intros; discriminate).
  destruct (Loader.check_required_files L fs d (Loader.required_files L) [])
    as [[b | m] | e] eqn:Hloop; simpl; try (intros; discriminate).
  - apply check_required_files_returned in Hloop. subst b. intros; discriminate.
  - destruct m as [|x m]; [| intros; discriminate].
    apply check_required_files_completed in Hloop as (extra & Hm & Hall).
    symmetry in Hm. apply app_eq_nil in Hm as [_ ->].
    unfold Loader.probe_gameoptions.
    destruct (read_text fs (PosixPath.join d "gameoptions.yaml") (Some 1024%nat))
      as [content | e] eqn:Hread; [| intros; discriminate].
    destruct (Py.truthy (Py.strip content)) eqn:Hs; simpl; [| intros; discriminate].
    intros _. split; [reflexivity |]. split; [reflexivity |].
    split; [reflexivity |]. split.
    + intros f Hf. destruct (Hall f Hf) as [[_ []] | Hok]. exact Hok.
    + exists content. now split.
Qed.

Lemma is_valid_scenario_not_true (L : Loader.ScenarioLoader) (fs : FS) (d : string) :
  Loader.is_valid_scenario L fs (PyStr d) <> Ok true ->
  Loader.is_valid_scenario L fs (PyStr d) = Ok false.
Proof.
  rewrite is_valid_scenario_str. unfold try_except.
  destruct (Loader.is_valid_scenario_body L fs (PyStr d)) as [[|] | e];
    [intros H; now elim H | reflexivity | reflexivity].
Qed.

(** C6. [is_valid_scenario] answers [False] whenever a required file is absent
    from the directory, whenever the size of a required file exceeds the limit
    configured for its extension, and whenever the first kilobyte of
    [gameoptions.yaml] holds nothing but whitespace. *)
Theorem is_valid_scenario_rejects (L : Loader.ScenarioLoader) (fs : FS) (d : string) :
  (forall f, In f (Loader.required_files L) ->
     exists_ fs (PosixPath.join d f) = false ->
     Loader.is_valid_scenario L fs (PyStr d) = Ok false) /\
  (forall f n, In f (Loader.required_files L) ->
     getsize fs (PosixPath.join d f) = Ok n -> (size_limit_of L f < n)%Z ->
     Loader.is_valid_scenario L fs (PyStr d) = Ok false) /\
  (forall content,
     read_text fs (PosixPath.join d "gameoptions.yaml") (Some 1024%nat) = Ok content ->
     Py.strip content = "" ->
     Loader.is_valid_scenario L fs (PyStr d) = Ok false).
Proof.
  repeat split.
  - intros f Hf Hmiss. apply is_valid_scenario_not_true. intros Hv.
    apply is_valid_scenario_true_inv in Hv as (_ & _ & _ & Hall & _).
    destruct (Hall f Hf) as (Hex & _). congruence.
  - intros f n Hf Hsz Hbig. apply is_valid_scenario_not_true. intros Hv.
    apply is_valid_scenario_true_inv in Hv as (_ & _ & _ & Hall & _).
    destruct (Hall f Hf) as (_ & _ & n' & Hsz' & Hle).
    rewrite Hsz in Hsz'. injection Hsz' as <-. lia.
  - intros content Hread Hblank. apply is_valid_scenario_not_true. intros Hv.
    apply is_valid_scenario_true_inv in Hv as (_ & _ & _ & _ & c & Hc & Ht).
    rewrite Hread in Hc. injection Hc as <-.
    rewrite Hblank in Ht. discriminate.
Qed.

Lemma is_valid_scenario_rejects_witness :
  Loader.is_valid_scenario Loader.default_loader Examples.fs_description_only
    (PyStr "/home/alice/scenarios/Default") = Ok false /\
  Loader.is_valid_scenario Loader.default_loader Examples.fs_oversized_options
    (PyStr "/home/alice/scenarios/Default") = Ok false /\
  Loader.is_valid_scenario Loader.default_loader Examples.fs_blank_options
    (PyStr "/home/alice/scenarios/Default") = Ok false.
Proof.
  split; [| split].
  - apply (proj1 (is_valid_scenario_rejects Loader.default_loader
                    Examples.fs_description_only "/home/alice/scenarios/Default")
             "gameoptions.yaml"); [simpl; auto | reflexivity].
  - apply (proj1 (proj2 (is_valid_scenario_rejects Loader.default_loader
                           Examples.fs_oversized_options "/home/alice/scenarios/Default"))
             "gameoptions.yaml" (11 * 1024 * 1024)%Z);
      [simpl; auto | reflexivity | vm_compute; reflexivity].
  - apply (proj2 (proj2 (is_valid_scenario_rejects Loader.default_loader
                           Examples.fs_blank_options "/home/alice/scenarios/Default"))
             "   "); reflexivity.
Defined.

(** ** The preview of a valid scenario *)

Lemma check_required_files_accepted (L : Loader.ScenarioLoader) (fs : FS) (d : string)
  (files missing : list string) :
  (forall f, In f files -> file_accepted L fs d f) ->
  Loader.check_required_files L fs d files missing = Ok (Loader.Completed missing).
Proof.
  revert missing. induction files as [|f files IH]; intros missing Hall; simpl.
  - reflexivity.
  - destruct (Hall f (or_introl eq_refl)) as (Hex & Hacc & n & Hsz & Hle).
    rewrite Hex, Hacc. simpl. rewrite Hsz. simpl.
    unfold size_limit_of in Hle. apply Z.ltb_ge in Hle. rewrite Hle.
    apply IH. intros g Hg. apply Hall. now right.
Qed.

(** The converse of [is_valid_scenario_true_inv]. *)
Lemma is_valid_scenario_true_intro (L : Loader.ScenarioLoader) (fs : FS) (d content : string) :
  Py.truthy d = true ->
  exists_ fs d = true -> isdir fs d = true -> access_r fs d = Ok true ->
  (forall f, In f (Loader.required_files L) -> file_accepted L fs d f) ->
  read_text fs (PosixPath.join d "gameoptions.yaml") (Some 1024%nat) = Ok content ->
  Py.truthy (Py.strip content) = true ->
  Loader.is_valid_scenario L fs (PyStr d) = Ok true.
Proof.
  intros Hd Hex Hdir Hacc Hall Hread Hs.
  rewrite is_valid_scenario_str. unfold try_except, Loader.is_valid_scenario_body. simpl.
  rewrite Hd, Hex, Hdir, Hacc. simpl.
  rewrite (check_required_files_accepted L fs d _ [] Hall). simpl.
  unfold Loader.probe_gameoptions. rewrite Hread, Hs. reflexivity.
Qed.

Lemma apply_option_set_identity (o : yaml) (p : Loader.preview) :
  same_identity p (fst (Loader.apply_option_set o p)).
Proof.
  unfold Loader.apply_option_set, same_identity.
  unfold Loader.se_bind, Loader.se_lift, Loader.se_modify, Loader.se_ret.
  destruct (PyYaml.contains "ValidFor" o) as [[|] | e]; simpl; auto.
  destruct (PyYaml.getitem o "ValidFor") as [v | e]; simpl; auto.
  destruct (PyYaml.contains "MP" v) as [[|] | e]; simpl; auto;
    destruct (PyYaml.contains "SP" v) as [[|] | e']; simpl; auto;
    destruct (PyYaml.contains "Creative" v) as [[|] | e'']; simpl; auto.
Qed.

Lemma same_identity_trans (p q r : Loader.preview) :
  same_identity p q -> same_identity q r -> same_identity p r.
Proof. unfold same_identity. intuition congruence. Qed.

Lemma same_identity_refl (p : Loader.preview) : same_identity p p.
Proof. unfold same_identity. auto. Qed.

Lemma for_each_option_set_identity (l : list yaml) (p : Loader.preview) :
  same_identity p (fst (Loader.for_each_option_set l p)).
Proof.
  revert p. induction l as [|o l IH]; intros p; simpl.
  - apply same_identity_refl.
  - unfold Loader.se_bind.
    pose proof (apply_option_set_identity o p) as H1.
    destruct (Loader.apply_option_set o p) as [p' [[] | e]]; simpl in *.
    + eapply same_identity_trans; [exact H1 | apply IH].
    + exact H1.
Qed.

Lemma read_game_options_identity (fs : FS) (d : string) (p : Loader.preview) :
  same_identity p (fst (Loader.read_game_options fs d p)).
Proof.
  unfold Loader.read_game_options.
  destruct (PyYaml.truthy _); [| apply same_identity_refl].
  unfold Loader.se_bind, Loader.se_lift, Loader.se_ret.
  destruct (PyYaml.contains "Options" _) as [[|] | e]; simpl; try apply same_identity_refl.
  destruct (PyYaml.getitem _ "Options") as [v | e]; simpl; try apply same_identity_refl.
  destruct (PyYaml.iterate v) as [l | e]; simpl; try apply same_identity_refl.
  apply for_each_option_set_identity.
Qed.

Lemma find_preview_image_identity (fs : FS) (d : string) (exts : list string)
  (p : Loader.preview) :
  Loader.name (Loader.find_preview_image fs d exts p) = Loader.name p /\
  Loader.description (Loader.find_preview_image fs d exts p) = Loader.description p.
Proof.
  induction exts as [|x exts IH]; simpl; [auto |].
  destruct (exists_ fs _); [simpl; auto | exact IH].
Qed.

(** The name and the description of the preview of a valid scenario. *)
Lemma get_scenario_preview_of_valid (L : Loader.ScenarioLoader) (fs : FS) (d : string) :
  Loader.is_valid_scenario L fs (PyStr d) = Ok true ->
  exists pv,
    Loader.get_scenario_preview L fs d = Ok pv /\
    Loader.name pv = PosixPath.basename d /\
    Loader.description pv =
      if exists_ fs (PosixPath.join d "description.txt") then
        match read_text fs (PosixPath.join d "description.txt") None with
        | Ok text => Py.strip text
        | Raise _ => "Error reading description"
        end
      else "".
Proof.
  intros Hv. unfold Loader.get_scenario_preview. rewrite Hv. cbn [bind negb].
  eexists. split; [reflexivity |]. cbv zeta.
  set (p0 := {| Loader.name := PosixPath.basename d; Loader.path := d;
                Loader.description := ""; Loader.preview_image := None;
                Loader.game_mode := "Unknown"; Loader.multiplayer_ready := false |}).
  set (p1 := Loader.read_description fs d p0).
  set (p2 := Loader.find_preview_image fs d ["jpg"; "png"] p1).
  destruct (read_game_options_identity fs d p2) as (Hn & _ & Hd & _).
  destruct (find_preview_image_identity fs d ["jpg"; "png"] p1) as (Hn' & Hd').
  rewrite Hn, Hd. subst p2. rewrite Hn', Hd'. subst p1 p0.
  unfold Loader.read_description.
  destruct (exists_ fs _); [| simpl; auto].
  destruct (read_text fs _ None); simpl; auto.
Qed.

(** ** Game mode and multiplayer flag *)








Lemma read_description_modes (fs : FS) (d : string) (p : Loader.preview) :
  Loader.game_mode (Loader.read_description fs d p) = Loader.game_mode p /\
  Loader.multiplayer_ready (Loader.read_description fs d p) = Loader.multiplayer_ready p.
Proof.
  unfold Loader.read_description.
  destruct (exists_ fs _); [| auto]. destruct (read_text fs _ None); simpl; auto.
Qed.

Lemma find_preview_image_modes (fs : FS) (d : string) (exts : list string)
  (p : Loader.preview) :
  Loader.game_mode (Loader.find_preview_image fs d exts p) = Loader.game_mode p /\
  Loader.multiplayer_ready (Loader.find_preview_image fs d exts p)
  = Loader.multiplayer_ready p.
Proof.
  induction exts as [|x exts IH]; simpl; [auto |].
  destruct (exists_ fs _); [simpl; auto | exact IH].
Qed.




(** ** Loading a scenario with a corrupted configuration file *)

Lemma dict_set_yaml (loaded : list (string * Loader.file_entry)) (key : string)
  (e : Loader.file_entry) :
  forallb (fun kv => is_yaml_entry (snd kv)) loaded = true ->
  is_yaml_entry e = true ->
  forallb (fun kv => is_yaml_entry (snd kv)) (Loader.dict_set loaded key e) = true.
Proof.
  intros Hl He. induction loaded as [|[k v] loaded IH]; simpl in *.
  - now rewrite He.
  - apply andb_true_iff in Hl as [Hv Hl].
    destruct (k =? key); simpl.
    + now rewrite He, Hl.
    + now rewrite Hv, IH.
Qed.

(** Every entry of the [files] mapping that [load_scenario] builds has type
    ['yaml']: the [except] branch that would store an ['error'] entry is never
    taken, because [_load_yaml_file] turns every failure into [None]. *)
Lemma load_scenario_entries_are_yaml (env : Env) (L : Loader.ScenarioLoader) (fs : FS)
  (d : string) (doc : Loader.scenario_data) :
  Loader.load_scenario env L fs d = Ok doc ->
  forallb (fun kv => is_yaml_entry (snd kv)) (Loader.loaded_files doc) = true.
Proof.
  unfold Loader.load_scenario. intros H.
  apply bind_Ok_inv in H as (valid & _ & H).
  destruct (negb valid); [discriminate |].
  apply bind_Ok_inv in H as (m & _ & H). injection H as <-. simpl.
  unfold Loader.load_config_file.
  repeat match goal with
         | |- context [exists_ fs ?p] => destruct (exists_ fs p)
         end;
    repeat (apply dict_set_yaml; [| reflexivity]); reflexivity.
Qed.

(** C7, the code at the failing input. The scenario is valid, its
    [gameoptions.yaml] loads, and loading its [SolarSystemConfig.yaml] raises
    a YAML error; [load_scenario] succeeds, but the entry it stores for the
    solar-system file has type ['yaml'] with content [None], not type
    ['error']. *)
Theorem load_scenario_corrupted_solar_system :
  safe_load Examples.fs_corrupted_solar
    "/home/alice/scenarios/Default/SolarSystemConfig.yaml"
  = Raise (YAMLError "while parsing a flow sequence: expected ',' or ']'") /\
  exists doc,
    Loader.load_scenario Examples.env_alice Loader.default_loader
      Examples.fs_corrupted_solar "/home/alice/scenarios/Default" = Ok doc /\
    Loader.dict_lookup (Loader.loaded_files doc) "Solar System Config"
    = Some (Loader.YamlEntry "SolarSystemConfig.yaml" YNull) /\
    Loader.dict_lookup (Loader.loaded_files doc) "Game Options"
    = Some (Loader.YamlEntry "gameoptions.yaml" Examples.gameoptions_doc).
Proof.
  split; [reflexivity |].
  eexists. split; [vm_compute; reflexivity |]. split; reflexivity.
Qed.

(** ** The extension denylist *)

Lemma lower_char_of_fold (c : ascii) :
  (Py.ord (ascii_fold_char c) <? 128)%N = true -> Py.lower_char c = ascii_fold_char c.
Proof.
  destruct c as [[] [] [] [] [] [] [] []]; vm_compute; intros H;
    first [reflexivity | discriminate].
Qed.

Lemma lower_of_fold (s : string) :
  all_ascii (ascii_fold s) = true -> Py.lower s = ascii_fold s.
Proof.
  induction s as [|c s IH]; simpl; [reflexivity |].
  intros H. apply andb_true_iff in H as [Hc Hs].
  now rewrite (lower_char_of_fold c Hc), (IH Hs).
Qed.

(** An extension equal to a blocked one up to ASCII letter case lower-cases to
    that blocked extension. *)
Lemma lower_blocked_extension (ext b : string) :
  In b Security.BLOCKED_EXTENSIONS -> same_upto_ascii_case ext b -> Py.lower ext = b.
Proof.
  unfold same_upto_ascii_case. intros Hb Heq.
  assert (Hfold : ascii_fold b = b /\ all_ascii b = true).
  { simpl in Hb. repeat (destruct Hb as [<- | Hb]; [split; reflexivity |]). destruct Hb. }
  destruct Hfold as [Hfold Hall].
  rewrite lower_of_fold; rewrite Heq, Hfold; [reflexivity | exact Hall].
Qed.

(** C10. A non-empty path that resolves, passes the lexical traversal check
    and the allowed-root check, and whose extension ([splitext] of the resolved
    path) equals one of [.exe .bat .cmd .ps1 .sh .py .js] up to ASCII letter
    case, is rejected by [validate_file_path] with the file-type-not-allowed
    [ValueError], whether or not the file must exist. *)
Theorem blocked_extension_rejected (env : Env) (fs : FS) (v : Security.PathValidator)
  (user_path abs_path b : string) (must_exist : bool) :
  Py.truthy user_path = true ->
  Security.resolve env user_path = Ok abs_path ->
  Security._check_path_traversal user_path abs_path = Ok tt ->
  Security.outside_allowed_root v abs_path = Ok false ->
  In b Security.BLOCKED_EXTENSIONS ->
  same_upto_ascii_case (snd (PosixPath.splitext abs_path)) b ->
  Security.validate_file_path env fs v user_path must_exist
  = Raise (ValueError ("File type not allowed: " ++ b)).
Proof.
  intros Hne Hres Hlex Hin Hb Hext.
  unfold Security.validate_file_path.
  rewrite Hne, Hres. cbn [negb bind]. rewrite Hlex. cbn [bind]. rewrite Hin. cbn [bind].
  rewrite (lower_blocked_extension _ b Hb Hext).
  apply mem_In in Hb. rewrite Hb. reflexivity.
Qed.

Lemma blocked_extension_rejected_witness :
  Security.validate_file_path Examples.env_alice Examples.fs_minimal
    Examples.validator_alice "mods/Tool.EXE" true
  = Raise (ValueError "File type not allowed: .exe") /\
  Security.validate_file_path Examples.env_alice Examples.fs_minimal
    Examples.validator_alice "/home/alice/run.Py" false
  = Raise (ValueError "File type not allowed: .py").
Proof.
  split.
  - apply (blocked_extension_rejected Examples.env_alice Examples.fs_minimal
             Examples.validator_alice "mods/Tool.EXE" "/home/alice/mods/Tool.EXE"
             ".exe" true); try reflexivity.
    simpl. auto.
  - apply (blocked_extension_rejected Examples.env_alice Examples.fs_minimal
             Examples.validator_alice "/home/alice/run.Py" "/home/alice/run.Py"
             ".py" false); try reflexivity.
    simpl. auto 10.
Defined.

(** ** The lexical traversal check *)

Lemma startswith_char (c d : ascii) (s : string) :
  Py.startswith (String d s) (String c "") = Ascii.eqb c d.
Proof. simpl. destruct s; apply andb_true_r. Qed.

(** A string without the separator is the only piece of its split. *)
Lemma split_without_sep (sep : ascii) (s : string) :
  Py.contains (String sep "") s = false -> Py.split sep s = [s].
Proof.
  induction s as [|c s IH]; intros H; [reflexivity |].
  cbn [Py.contains] in H. rewrite startswith_char in H.
  apply orb_false_iff in H as [Hc Hs].
  cbn [Py.split]. rewrite Ascii.eqb_sym, Hc, (IH Hs). reflexivity.
Qed.

(** Stripping the leading separators loses no non-empty piece. *)
Lemma split_lstrip (sep : ascii) (s c : string) :
  In c (Py.split sep s) -> c <> "" -> In c (Py.split sep (Py.lstrip sep s)).
Proof.
  induction s as [|x s IH]; intros Hin Hne; [exact Hin |].
  cbn [Py.lstrip]. destruct (Ascii.eqb x sep) eqn:Hx; [| exact Hin].
  cbn [Py.split] in Hin. rewrite Hx in Hin.
  destruct Hin as [E | Hin]; [now elim Hne | now apply IH].
Qed.

(** Every slash-separated piece other than the empty string and the dot is
    one of the [parts] of the path. *)
Lemma parts_of_split (p c : string) :
  In c (Py.split "/" p) -> c <> "" -> c <> "." -> In c (PurePosixPath.parts p).
Proof.
  intros Hin Hne Hdot. unfold PurePosixPath.parts.
  destruct (Py.truthy p) eqn:Hp; cbn [negb].
  2:{ apply truthy_false_iff in Hp. subst p. simpl in Hin.
      destruct Hin as [E | []]. now elim Hne. }
  assert (Hok : (Py.truthy c && negb (c =? "."))%bool = true).
  { apply andb_true_iff. split; [now apply truthy_true_iff |].
    apply negb_true_iff. now apply String.eqb_neq. }
  assert (Hparsed : forall rel, In c (Py.split "/" rel) ->
            In c (if Py.contains "/" rel
                  then filter (fun x => Py.truthy x && negb (x =? ".")) (Py.split "/" rel)
                  else if Py.truthy rel && negb (rel =? ".") then [rel] else [])).
  { intros rel Hrel. destruct (Py.contains "/" rel) eqn:Hc.
    - apply filter_In. now split.
    - rewrite (split_without_sep "/" rel Hc) in Hrel.
      destruct Hrel as [<- | []]. rewrite Hok. now left. }
  unfold PurePosixPath.splitroot.
  destruct (Py.startswith p "/").
  - assert (Hrel := Hparsed _ (split_lstrip "/" p c Hin Hne)).
    destruct (_ =? 2)%nat; cbn [Py.truthy String.eqb negb]; now right.
  - cbn [Py.truthy String.eqb negb]. now apply Hparsed.
Qed.

Lemma find_some_of {A : Type} (f : A -> bool) (l : list A) (x : A) :
  In x l -> f x = true -> exists y, List.find f l = Some y /\ f y = true.
Proof.
  intros Hin Hf. destruct (List.find f l) as [y |] eqn:E.
  - exists y. split; [reflexivity |]. now apply find_some in E.
  - now rewrite (find_none _ _ E x Hin) in Hf.
Qed.

(** The lexical check either passes or raises [PathTraversalError]. *)
Lemma check_path_traversal_cases (original resolved : string) :
  Security._check_path_traversal original resolved = Ok tt \/
  exists msg,
    Security._check_path_traversal original resolved = Raise (PathTraversalError msg).
Proof.
  unfold Security._check_path_traversal.
  destruct (List.find _ Security.dangerous_patterns); [right; eexists; reflexivity |].
  destruct (List.find _ (PurePosixPath.parts original)); [right; eexists; reflexivity |].
  now left.
Qed.

(** What makes the lexical check raise: dot dot followed by a slash or by a
    backslash anywhere in the string, or a slash-separated piece equal to dot
    dot, to the tilde or to the dollar sign. *)
Lemma check_path_traversal_raises (original resolved : string) :
  Py.contains "../" original = true \/
  Py.contains "..\" original = true \/
  In ".." (Py.split "/" original) \/
  In "~" (Py.split "/" original) \/
  In "$" (Py.split "/" original) ->
  exists msg,
    Security._check_path_traversal original resolved = Raise (PathTraversalError msg).
Proof.
  intros H. unfold Security._check_path_traversal.
  destruct (List.find _ Security.dangerous_patterns) as [pat |] eqn:Hpat;
    [eexists; reflexivity |].
  assert (Hno : forall pat, In pat Security.dangerous_patterns ->
                            Py.contains pat original = false).
  { intros pat' Hin. exact (find_none _ _ Hpat pat' Hin). }
  assert (Hcomp : exists c, In c (PurePosixPath.parts original) /\
                            Py.mem c Security.DANGEROUS_COMPONENTS = true).
  { destruct H as [H | [H | [H | [H | H]]]].
    - rewrite (Hno "../") in H; [discriminate | simpl; auto].
    - rewrite (Hno "..\") in H; [discriminate | simpl; auto].
    - exists "..". split; [apply parts_of_split; [exact H | |]; discriminate | reflexivity].
    - exists "~". split; [apply parts_of_split; [exact H | |]; discriminate | reflexivity].
    - exists "$". split; [apply parts_of_split; [exact H | |]; discriminate | reflexivity]. }
  destruct Hcomp as (c & Hin & Hmem).
  destruct (find_some_of (fun part => Py.mem part Security.DANGEROUS_COMPONENTS)
              _ c Hin Hmem) as (y & -> & _).
  eexists; reflexivity.
Qed.

Lemma contains_nonempty (sub s : string) :
  sub <> "" -> Py.contains sub s = true -> Py.truthy s = true.
Proof.
  intros Hsub H. destruct s; [| reflexivity].
  destruct sub; [now elim Hsub | discriminate].
Qed.

(** C2, as the code has it. Provided the current directory can be determined,
    [validate_directory_path] rejects with [PathTraversalError], whatever the
    allowed root and the file system, every input that contains dot dot
    followed by a slash or by a backslash, and every input one of whose
    slash-separated components is exactly dot dot, the tilde or the dollar
    sign. *)
Theorem lexical_traversal_rejected (env : Env) (fs : FS) (v : Security.PathValidator)
  (cwd user_path : string) :
  getcwd env = Ok cwd ->
  Py.contains "../" user_path = true \/
  Py.contains "..\" user_path = true \/
  In ".." (Py.split "/" user_path) \/
  In "~" (Py.split "/" user_path) \/
  In "$" (Py.split "/" user_path) ->
  exists msg,
    Security.validate_directory_path env fs v user_path = Raise (PathTraversalError msg).
Proof.
  intros Hcwd H.
  assert (Hne : Py.truthy user_path = true).
  { destruct user_path; [| reflexivity]. simpl in H.
    destruct H as [H | [H | [[H | []] | [[H | []] | [H | []]]]]]; discriminate. }
  unfold Security.validate_directory_path. rewrite Hne. cbn [negb].
  assert (Hres : exists q, Security.resolve env user_path = Ok q).
  { unfold Security.resolve, PosixPath.abspath. rewrite Hcwd.
    destruct (negb _); eexists; reflexivity. }
  destruct Hres as [q ->]. cbn [try_except bind].
  destruct (check_path_traversal_raises user_path q H) as [msg ->].
  exists msg. reflexivity.
Qed.

Lemma lexical_traversal_rejected_witness :
  (exists msg,
     Security.validate_directory_path Examples.env_alice Examples.fs_minimal
       Examples.validator_alice "scenarios/../../bob" = Raise (PathTraversalError msg)) /\
  (exists msg,
     Security.validate_directory_path Examples.env_alice Examples.fs_minimal
       Examples.validator_free "scenarios\..\Default" = Raise (PathTraversalError msg)) /\
  (exists msg,
     Security.validate_directory_path Examples.env_alice Examples.fs_minimal
       Examples.validator_alice "/home/alice/scenarios/.." = Raise (PathTraversalError msg)).
Proof.
  split; [| split].
  - apply (lexical_traversal_rejected Examples.env_alice Examples.fs_minimal
             Examples.validator_alice "/home/alice" "scenarios/../../bob");
      [reflexivity | left; reflexivity].
  - apply (lexical_traversal_rejected Examples.env_alice Examples.fs_minimal
             Examples.validator_free "/home/alice" "scenarios\..\Default");
      [reflexivity | right; left; reflexivity].
  - apply (lexical_traversal_rejected Examples.env_alice Examples.fs_minimal
             Examples.validator_alice "/home/alice" "/home/alice/scenarios/..");
      [reflexivity | right; right; left; simpl; auto 10].
Defined.

(** C2, the claim as stated fails: [./foo] has a component equal to the dot,
    and [foo\..] ends in dot dot next to a backslash; the lexical check passes
    both, the first is accepted and the second fails only because the
    directory does not exist. *)
Lemma lexical_check_passes_dot_and_trailing_backslash :
  In "." (Py.split "/" "./foo") /\
  Security._check_path_traversal "./foo" "/home/alice/foo" = Ok tt /\
  Security.validate_directory_path Examples.env_alice Examples.fs_minimal
    Examples.validator_alice "./foo" = Ok "/home/alice/foo" /\
  Py.endswith "foo\.." "\.." = true /\
  Security._check_path_traversal "foo\.." "/home/alice/foo\.." = Ok tt /\
  Security.validate_directory_path Examples.env_alice Examples.fs_minimal
    Examples.validator_alice "foo\.."
  = Raise (FileNotFoundError "Directory does not exist: /home/alice/foo\..").
Proof.
  split; [simpl; auto |]. repeat split; vm_compute; reflexivity.
Qed.

(** ** Splitting and joining paths *)

Lemma split_cons_sep (sep : ascii) (s : string) :
  Py.split sep (String sep s) = "" :: Py.split sep s.
Proof. cbn [Py.split]. now rewrite Ascii.eqb_refl. Qed.

Lemma split_app_sep (sep : ascii) (c s : string) :
  Py.contains (String sep "") c = false ->
  Py.split sep (c ++ String sep s) = c :: Py.split sep s.
Proof.
  induction c as [|x c IH]; intros H.
  - apply split_cons_sep.
  - cbn [Py.contains] in H. rewrite startswith_char in H.
    apply orb_false_iff in H as [Hx Hc].
    cbn [append Py.split]. rewrite Ascii.eqb_sym, Hx, (IH Hc). reflexivity.
Qed.

(** No piece of a split holds the separator. *)
Lemma split_pieces_no_sep (sep : ascii) (s x : string) :
  In x (Py.split sep s) -> Py.contains (String sep "") x = false.
Proof.
  revert x. induction s as [|c s IH]; intros x Hin.
  - destruct Hin as [<- | []]. reflexivity.
  - cbn [Py.split] in Hin. destruct (Ascii.eqb c sep) eqn:Hc.
    + destruct Hin as [<- | Hin]; [reflexivity | now apply IH].
    + destruct (Py.split sep s) as [|y ys] eqn:Hs.
      * destruct Hin as [<- | []]. cbn [Py.contains].
        rewrite startswith_char, Ascii.eqb_sym, Hc. reflexivity.
      * destruct Hin as [<- | Hin].
        -- cbn [Py.contains]. rewrite startswith_char, Ascii.eqb_sym, Hc.
           apply IH. now left.
        -- apply IH. now right.
Qed.

Lemma is_component_inv (c : string) :
  is_component c = true ->
  Py.truthy c = true /\ (c =? ".") = false /\ Py.contains "/" c = false.
Proof.
  unfold is_component. intros H.
  apply andb_true_iff in H as [H H3]. apply andb_true_iff in H as [H1 H2].
  apply negb_true_iff in H2, H3. auto.
Qed.

Lemma join_cons2 (c c' : string) (r : list string) :
  Py.join "/" (c :: c' :: r) = c ++ String "/" (Py.join "/" (c' :: r)).
Proof. reflexivity. Qed.

(** Splitting undoes joining, for components. *)
Lemma split_join (comps : list string) :
  forallb is_component comps = true -> comps <> [] ->
  Py.split "/" (Py.join "/" comps) = comps.
Proof.
  induction comps as [|c comps IH]; intros Hall Hne; [now elim Hne |].
  cbn [forallb] in Hall. apply andb_true_iff in Hall as [Hc Hall].
  destruct (is_component_inv c Hc) as (_ & _ & Hslash).
  destruct comps as [|c' r].
  - apply split_without_sep. exact Hslash.
  - rewrite join_cons2, (split_app_sep "/" c _ Hslash), IH; [reflexivity | exact Hall |].
    discriminate.
Qed.

Lemma filter_all {A : Type} (f : A -> bool) (l : list A) :
  forallb f l = true -> filter f l = l.
Proof.
  induction l as [|x l IH]; simpl; [reflexivity |].
  intros H. apply andb_true_iff in H as [Hx Hl]. now rewrite Hx, IH.
Qed.

Lemma forallb_impl {A : Type} (f g : A -> bool) (l : list A) :
  (forall x, f x = true -> g x = true) -> forallb f l = true -> forallb g l = true.
Proof.
  intros Hfg. induction l as [|x l IH]; simpl; [reflexivity |].
  intros H. apply andb_true_iff in H as [Hx Hl]. now rewrite (Hfg x Hx), IH.
Qed.

Lemma components_of_join (comps : list string) :
  forallb is_component comps = true -> components (Py.join "/" comps) = comps.
Proof.
  intros Hall. unfold components, PosixPath.drop_empty_and_dot.
  destruct comps as [|c r]; [reflexivity |].
  rewrite split_join; [| exact Hall | discriminate].
  apply filter_all. revert Hall. apply forallb_impl.
  intros x Hx. destruct (is_component_inv x Hx) as (H1 & H2 & _).
  now rewrite H1, H2.
Qed.

Lemma components_cons_slash (s : string) : components (String "/" s) = components s.
Proof. unfold components. rewrite split_cons_sep. reflexivity. Qed.

(** The components of a canonical path are the ones it was joined from. *)
Lemma components_canonical (n : nat) (comps : list string) :
  n = 1 \/ n = 2 -> forallb is_component comps = true ->
  components (PosixPath.slashes n ++ Py.join "/" comps) = comps.
Proof.
  intros [-> | ->] Hall; cbn [PosixPath.slashes append];
    rewrite ?components_cons_slash; now apply components_of_join.
Qed.

Lemma join_of_component (c : string) (r : list string) :
  is_component c = true ->
  exists x t, Py.join "/" (c :: r) = String x t /\ Ascii.eqb "/" x = false.
Proof.
  intros Hc. destruct (is_component_inv c Hc) as (Hne & _ & Hslash).
  destruct c as [|x c]; [discriminate |].
  cbn [Py.contains] in Hslash. rewrite startswith_char in Hslash.
  apply orb_false_iff in Hslash as [Hx _].
  destruct r as [|c' r].
  - exists x, c. split; [reflexivity | exact Hx].
  - rewrite join_cons2. cbn [append]. eexists x, _. split; [reflexivity | exact Hx].
Qed.

(** Components joined by slashes never start with a slash. *)
Lemma join_not_slash_start (comps : list string) :
  forallb is_component comps = true -> Py.startswith (Py.join "/" comps) "/" = false.
Proof.
  destruct comps as [|c r]; [reflexivity |].
  cbn [forallb]. intros H. apply andb_true_iff in H as [Hc _].
  destruct (join_of_component c r Hc) as (x & t & -> & Hx).
  now rewrite startswith_char.
Qed.

Lemma join_inj (xs ys : list string) :
  forallb is_component xs = true -> forallb is_component ys = true ->
  Py.join "/" xs = Py.join "/" ys -> xs = ys.
Proof.
  intros Hx Hy E.
  destruct xs as [|x xs], ys as [|y ys].
  - reflexivity.
  - cbn [forallb] in Hy. apply andb_true_iff in Hy as [Hy _].
    destruct (join_of_component y ys Hy) as (c & t & E' & _).
    rewrite E' in E. discriminate.
  - cbn [forallb] in Hx. apply andb_true_iff in Hx as [Hx _].
    destruct (join_of_component x xs Hx) as (c & t & E' & _).
    rewrite E' in E. discriminate.
  - rewrite <- (split_join (x :: xs) Hx), <- (split_join (y :: ys) Hy), E by discriminate.
    reflexivity.
Qed.

(** ** The shape of normalised paths *)

Lemma normpath_step_components (n : nat) (stack : list string) (comp : string) :
  forallb is_component stack = true -> Py.contains "/" comp = false ->
  forallb is_component (PosixPath.normpath_step n stack comp) = true.
Proof.
  intros Hs Hc. unfold PosixPath.normpath_step.
  destruct (comp =? "") eqn:He; [exact Hs |].
  destruct (comp =? ".") eqn:Hd; [exact Hs |]. cbn [orb].
  destruct (_ || _ || _)%bool.
  - cbn [forallb]. rewrite Hs. unfold is_component, Py.truthy.
    now rewrite He, Hd, Hc.
  - destruct stack as [|x st]; [reflexivity |].
    cbn [forallb] in Hs. now apply andb_true_iff in Hs as [_ Hs].
Qed.

Lemma normpath_fold_components (n : nat) (l stack : list string) :
  forallb is_component stack = true ->
  (forall x, In x l -> Py.contains "/" x = false) ->
  forallb is_component (fold_left (PosixPath.normpath_step n) l stack) = true.
Proof.
  revert stack. induction l as [|c l IH]; intros stack Hs Hl; [exact Hs |].
  cbn [fold_left]. apply IH.
  - apply normpath_step_components; [exact Hs | apply Hl; now left].
  - intros x Hx. apply Hl. now right.
Qed.

Lemma forallb_rev {A : Type} (f : A -> bool) (l : list A) :
  forallb f l = true -> forallb f (rev l) = true.
Proof.
  rewrite !forallb_forall. intros H x Hx. apply H. now apply in_rev.
Qed.

Lemma initial_slashes_abs (p : string) :
  PosixPath.isabs p = true ->
  PosixPath.initial_slashes p = 1 \/ PosixPath.initial_slashes p = 2.
Proof.
  unfold PosixPath.isabs, PosixPath.initial_slashes. intros ->.
  destruct (_ && _)%bool; auto.
Qed.

(** [normpath] of an absolute path is canonical. *)
Lemma normpath_canonical (p : string) :
  PosixPath.isabs p = true -> canonical (PosixPath.normpath p).
Proof.
  intros Habs. unfold PosixPath.normpath.
  destruct (p =? "") eqn:Hp.
  { apply String.eqb_eq in Hp. subst p. discriminate. }
  set (n := PosixPath.initial_slashes p).
  set (comps := rev (fold_left (PosixPath.normpath_step n) (Py.split "/" p) [])).
  assert (Hn : n = 1 \/ n = 2) by now apply initial_slashes_abs.
  assert (Hcomps : forallb is_component comps = true).
  { apply forallb_rev, normpath_fold_components; [reflexivity |].
    intros x Hx. exact (split_pieces_no_sep "/" p x Hx). }
  exists n, comps. split; [exact Hn |]. split; [exact Hcomps |].
  destruct Hn as [-> | ->]; reflexivity.
Qed.

Lemma isabs_app (a b : string) :
  PosixPath.isabs a = true -> PosixPath.isabs (a ++ b) = true.
Proof.
  unfold PosixPath.isabs. destruct a as [|x a]; [discriminate |].
  cbn [append]. now rewrite !startswith_char.
Qed.

Lemma isabs_join (a b : string) :
  PosixPath.isabs a = true -> PosixPath.isabs (PosixPath.join a b) = true.
Proof.
  intros Ha. unfold PosixPath.join.
  destruct (Py.startswith b "/") eqn:Hb; [exact Hb |].
  destruct (_ || _)%bool; now apply isabs_app.
Qed.

(** What [abspath] returns is canonical. *)
Lemma abspath_canonical (env : Env) (x y : string) :
  cwd_is_absolute env -> PosixPath.abspath env x = Ok y -> canonical y.
Proof.
  intros Hcwd. unfold PosixPath.abspath.
  destruct (PosixPath.isabs x) eqn:Hx; cbn [negb].
  - intros H. injection H as <-. now apply normpath_canonical.
  - destruct (getcwd env) as [cwd | e] eqn:Hg; cbn [bind]; [| discriminate].
    intros H. injection H as <-.
    apply normpath_canonical, isabs_join, Hcwd, Hg.
Qed.

Lemma canonical_isabs (p : string) : canonical p -> PosixPath.isabs p = true.
Proof. intros (n & comps & [-> | ->] & _ & ->); reflexivity. Qed.

Lemma canonical_truthy (p : string) : canonical p -> Py.truthy p = true.
Proof. intros (n & comps & [-> | ->] & _ & ->); reflexivity. Qed.

(** ** Python's order on lists of strings *)

Lemma list_ltb_app (pre a b : list string) :
  PosixPath.list_ltb (pre ++ a) (pre ++ b) = PosixPath.list_ltb a b.
Proof.
  induction pre as [|x pre IH]; [reflexivity |].
  cbn [app PosixPath.list_ltb]. now rewrite String.eqb_refl.
Qed.

Lemma list_ltb_nil_r (a : list string) : PosixPath.list_ltb a [] = false.
Proof. now destruct a. Qed.

Lemma list_ltb_irrefl (a : list string) : PosixPath.list_ltb a a = false.
Proof.
  rewrite <- (app_nil_r a) at 1. rewrite <- (app_nil_r a) at 2.
  now rewrite list_ltb_app.
Qed.

Lemma string_ltb_asym (x y : string) : String.ltb x y = true -> String.ltb y x = false.
Proof.
  unfold String.ltb. rewrite (String.compare_antisym x y).
  destruct (String.compare y x); simpl; congruence.
Qed.

Lemma string_ltb_total (x y : string) :
  String.ltb x y = false -> String.ltb y x = false -> x = y.
Proof.
  unfold String.ltb. intros H1 H2.
  apply String.compare_eq_iff. rewrite (String.compare_antisym x y) in H1 |- *.
  destruct (String.compare y x); simpl in *; congruence.
Qed.

Lemma list_ltb_asym (a b : list string) :
  PosixPath.list_ltb a b = true -> PosixPath.list_ltb b a = false.
Proof.
  revert b. induction a as [|x a IH]; intros [|y b] H; try reflexivity; try discriminate.
  cbn [PosixPath.list_ltb] in *. rewrite String.eqb_sym.
  destruct (x =? y); [now apply IH | now apply string_ltb_asym].
Qed.

Lemma list_ltb_total (a b : list string) :
  PosixPath.list_ltb a b = false -> PosixPath.list_ltb b a = false -> a = b.
Proof.
  revert b. induction a as [|x a IH]; intros [|y b] H1 H2;
    try reflexivity; try discriminate.
  cbn [PosixPath.list_ltb] in *. rewrite String.eqb_sym in H2.
  destruct (String.eqb_spec x y) as [-> | Hne].
  - f_equal. now apply IH.
  - elim Hne. now apply string_ltb_total.
Qed.

Lemma lcp_comm (a b : list string) : lcp a b = lcp b a.
Proof.
  revert b. induction a as [|x a IH]; intros [|y b]; try reflexivity.
  cbn [lcp]. rewrite (String.eqb_sym y x).
  destruct (String.eqb_spec x y) as [-> | _]; [now rewrite IH | reflexivity].
Qed.

Lemma lcp_refl (a : list string) : lcp a a = a.
Proof.
  induction a as [|x a IH]; [reflexivity |].
  cbn [lcp]. now rewrite String.eqb_refl, IH.
Qed.

Lemma firstn_length_app {A : Type} (pre rest : list A) :
  firstn (List.length pre) (pre ++ rest) = pre.
Proof. induction pre as [|x pre IH]; simpl; [now destruct rest | now rewrite IH]. Qed.

Lemma nth_error_length_app {A : Type} (pre rest : list A) :
  nth_error (pre ++ rest) (List.length pre) = nth_error rest 0.
Proof. induction pre as [|x pre IH]; simpl; [reflexivity | exact IH]. Qed.

(** The loop of [commonpath] computes the longest common prefix, and its
    index never leaves [s2], when [s2] is not below [s1]. *)
Lemma common_loop_spec (pre rest rest2 : list string) :
  PosixPath.list_ltb (pre ++ rest2) (pre ++ rest) = false ->
  PosixPath.common_loop (pre ++ rest) (pre ++ rest2) (List.length pre) rest
  = Ok (pre ++ lcp rest rest2)%list.
Proof.
  revert pre rest2. induction rest as [|c rest IH]; intros pre rest2 Hle.
  - cbn [PosixPath.common_loop lcp]. reflexivity.
  - cbn [PosixPath.common_loop]. rewrite nth_error_length_app.
    rewrite list_ltb_app in Hle.
    destruct rest2 as [|c2 rest2]; [discriminate |].
    cbn [nth_error lcp]. destruct (String.eqb_spec c c2) as [<- | Hne].
    + replace (pre ++ c :: rest)%list with ((pre ++ [c]) ++ rest)%list
        by now rewrite <- app_assoc.
      replace (pre ++ c :: rest2)%list with ((pre ++ [c]) ++ rest2)%list
        by now rewrite <- app_assoc.
      replace (S (List.length pre)) with (List.length (pre ++ [c])%list)
        by (rewrite length_app; simpl; lia).
      rewrite IH.
      * now rewrite <- app_assoc.
      * rewrite list_ltb_app. cbn [PosixPath.list_ltb] in Hle.
        now rewrite String.eqb_refl in Hle.
    + now rewrite firstn_length_app, app_nil_r.
Qed.

Lemma common_loop_min_max (a b : list string) :
  PosixPath.common_loop (PosixPath.min_from a [b]) (PosixPath.max_from a [b]) 0
    (PosixPath.min_from a [b])
  = Ok (lcp a b).
Proof.
  cbn [PosixPath.min_from PosixPath.max_from].
  destruct (PosixPath.list_ltb b a) eqn:Hba.
  - rewrite (list_ltb_asym b a Hba).
    rewrite (lcp_comm a b). apply (common_loop_spec [] b a).
    now apply list_ltb_asym.
  - destruct (PosixPath.list_ltb a b) eqn:Hab.
    + apply (common_loop_spec [] a b). exact Hba.
    + rewrite <- (list_ltb_total a b Hab Hba), lcp_refl.
      rewrite <- (lcp_refl a) at 4.
      apply (common_loop_spec [] a a). apply list_ltb_irrefl.
Qed.

(** [commonpath] of two canonical paths: one slash, then the longest common
    prefix of their components. *)
Lemma commonpath_canonical (a b : string) :
  canonical a -> canonical b ->
  PosixPath.commonpath [a; b]
  = Ok (String "/" (Py.join "/" (lcp (components a) (components b)))).
Proof.
  intros Ha Hb. unfold PosixPath.commonpath.
  cbn [forallb map]. rewrite (canonical_isabs a Ha), (canonical_isabs b Hb).
  cbn [Bool.eqb andb].
  fold (components a). fold (components b).
  rewrite common_loop_min_max. reflexivity.
Qed.

Lemma lcp_is_prefix (xs ys : list string) : is_prefix xs ys = true <-> lcp xs ys = xs.
Proof.
  revert ys. induction xs as [|x xs IH]; intros ys.
  - destruct ys; simpl; tauto.
  - destruct ys as [|y ys]; cbn [is_prefix lcp].
    + split; discriminate.
    + destruct (x =? y); cbn [andb].
      * rewrite IH. split; [intros -> | intros H; injection H]; auto.
      * split; discriminate.
Qed.

Lemma lcp_components (xs ys : list string) :
  forallb is_component xs = true -> forallb is_component (lcp xs ys) = true.
Proof.
  revert ys. induction xs as [|x xs IH]; intros ys H; [reflexivity |].
  destruct ys as [|y ys]; [reflexivity |]. cbn [lcp].
  cbn [forallb] in H. apply andb_true_iff in H as [Hx Hxs].
  destruct (x =? y); [| reflexivity]. cbn [forallb]. now rewrite Hx, IH.
Qed.

Lemma startswith_cons (c d : ascii) (s p : string) :
  Py.startswith (String d s) (String c p) = Ascii.eqb c d && Py.startswith s p.
Proof. reflexivity. Qed.

Lemma eqb_cons (c : ascii) (a b : string) : (String c a =? String c b) = (a =? b).
Proof. cbn [String.eqb]. now rewrite Ascii.eqb_refl. Qed.

(** The containment check on canonical paths: the root starts with a single
    slash and its components are a prefix of those of the path. *)
Lemma is_within_canonical (v : Security.PathValidator) (root path : string) :
  Security.allowed_root v = Some root -> canonical root -> canonical path ->
  Security._is_within_allowed_root v path
  = Ok (negb (Py.startswith root "//") && is_prefix (components root) (components path)).
Proof.
  intros Hroot Hr Hp. unfold Security._is_within_allowed_root.
  rewrite Hroot, (canonical_truthy root Hr). cbn [negb].
  rewrite (commonpath_canonical root path Hr Hp). cbn [bind try_except].
  f_equal.
  destruct Hr as (n & comps & Hn & Hcomps & ->).
  rewrite (components_canonical n comps Hn Hcomps).
  set (cp := components path).
  assert (Hl : forallb is_component (lcp comps cp) = true) by now apply lcp_components.
  destruct Hn as [-> | ->]; cbn [PosixPath.slashes append].
  - rewrite startswith_cons, Ascii.eqb_refl, (join_not_slash_start comps Hcomps).
    rewrite eqb_cons. cbn [andb negb].
    destruct (is_prefix comps cp) eqn:Hpre.
    + apply lcp_is_prefix in Hpre. rewrite Hpre. apply String.eqb_refl.
    + apply String.eqb_neq. intros E. apply join_inj in E; [| assumption ..].
      apply lcp_is_prefix in E. congruence.
  - rewrite startswith_cons, Ascii.eqb_refl, startswith_char, Ascii.eqb_refl.
    rewrite eqb_cons. cbn [andb negb].
    apply String.eqb_neq. intros E.
    pose proof (join_not_slash_start _ Hl) as Hs. rewrite E in Hs.
    rewrite startswith_char in Hs. discriminate.
Qed.

(** ** Containment in the allowed root *)

Lemma init_allowed_root (env : Env) (r : string) (mfs md : Z) (v : Security.PathValidator) :
  Py.truthy r = true ->
  Security.PathValidator_init env (Some r) mfs md = Ok v ->
  exists root,
    Security.allowed_root v = Some root /\ PosixPath.abspath env r = Ok root.
Proof.
  intros Hr. unfold Security.PathValidator_init. rewrite Hr.
  destruct (PosixPath.abspath env r) as [root | e]; cbn [bind]; [| discriminate].
  intros H. injection H as <-. now exists root.
Qed.

Lemma is_prefix_strict_ancestor (xs rest : list string) (c : string) :
  is_prefix (xs ++ c :: rest) xs = false.
Proof.
  induction xs as [|x xs IH]; [reflexivity |].
  cbn [app is_prefix]. now rewrite IH, andb_false_r.
Qed.

(** A resolved path outside the root is rejected with [PathTraversalError],
    by the lexical check or by the containment check. *)
Lemma outside_root_rejected (env : Env) (fs : FS) (v : Security.PathValidator)
  (root user_path q : string) :
  Py.truthy user_path = true ->
  Security.resolve env user_path = Ok q ->
  Security.allowed_root v = Some root -> Py.truthy root = true ->
  Security._is_within_allowed_root v q = Ok false ->
  exists msg,
    Security.validate_directory_path env fs v user_path = Raise (PathTraversalError msg).
Proof.
  intros Hne Hres Hroot Ht Hw. unfold Security.validate_directory_path.
  rewrite Hne, Hres. cbn [negb try_except bind].
  destruct (check_path_traversal_cases user_path q) as [-> | [msg ->]];
    [| now exists msg].
  cbn [bind]. unfold Security.outside_allowed_root.
  rewrite Hroot, Ht, Hw. cbn [negb bind]. eexists. reflexivity.
Qed.

(** C1, as the code has it. Let the validator be built with a non-empty
    allowed root, and let a non-empty input resolve to the canonical absolute
    path [q]. The containment check answers [True] exactly when the root
    starts with a single slash and its components are a prefix of those of
    [q]: a path equal to such a root or below it passes. Whenever the
    components of the root are not a prefix of those of [q], in particular
    when [q] is a strict ancestor of the root, and also when the root is a
    mere string prefix of [q] as for [/home/alice-other] under [/home/alice],
    [validate_directory_path] rejects with [PathTraversalError]. *)
Theorem containment_is_componentwise (env : Env) (fs : FS) (r : string) (mfs md : Z)
  (v : Security.PathValidator) (user_path q : string) :
  cwd_is_absolute env ->
  Py.truthy r = true ->
  Security.PathValidator_init env (Some r) mfs md = Ok v ->
  Py.truthy user_path = true ->
  Security.resolve env user_path = Ok q ->
  exists root,
    Security.allowed_root v = Some root /\
    Security._is_within_allowed_root v q
    = Ok (negb (Py.startswith root "//")
          && is_prefix (components root) (components q)) /\
    (is_prefix (components root) (components q) = false ->
     exists msg,
       Security.validate_directory_path env fs v user_path
       = Raise (PathTraversalError msg)) /\
    (forall c rest, components root = (components q ++ c :: rest)%list ->
     exists msg,
       Security.validate_directory_path env fs v user_path
       = Raise (PathTraversalError msg)) /\
    (Py.startswith root "//" = false ->
     is_prefix (components root) (components q) = true ->
     Security._is_within_allowed_root v q = Ok true).
Proof.
  intros Hcwd Hr Hinit Hne Hres.
  destruct (init_allowed_root env r mfs md v Hr Hinit) as (root & Hroot & Habs).
  assert (Hcr : canonical root) by exact (abspath_canonical env r root Hcwd Habs).
  assert (Hcq : canonical q) by exact (abspath_canonical env _ q Hcwd Hres).
  pose proof (is_within_canonical v root q Hroot Hcr Hcq) as Hw.
  assert (Hrej : is_prefix (components root) (components q) = false ->
                 exists msg,
                   Security.validate_directory_path env fs v user_path
                   = Raise (PathTraversalError msg)).
  { intros Hpre. rewrite Hpre, andb_false_r in Hw.
    exact (outside_root_rejected env fs v root user_path q Hne Hres Hroot
             (canonical_truthy root Hcr) Hw). }
  exists root. split; [exact Hroot |]. split; [exact Hw |]. split; [exact Hrej |]. split.
  - intros c rest Hanc. apply Hrej. rewrite Hanc. apply is_prefix_strict_ancestor.
  - intros Hs Hpre. now rewrite Hw, Hs, Hpre.
Qed.

Lemma cwd_is_absolute_alice : cwd_is_absolute Examples.env_alice.
Proof. intros cwd H. injection H as <-. reflexivity. Defined.

Lemma containment_is_componentwise_witness :
  (exists msg,
     Security.validate_directory_path Examples.env_alice Examples.fs_minimal
       Examples.validator_alice "/home/alice-other" = Raise (PathTraversalError msg)) /\
  (exists msg,
     Security.validate_directory_path Examples.env_alice Examples.fs_minimal
       Examples.validator_alice "/home" = Raise (PathTraversalError msg)) /\
  Security._is_within_allowed_root Examples.validator_alice "/home/alice/scenarios"
  = Ok true.
Proof.
  split; [| split].
  - destruct (containment_is_componentwise Examples.env_alice Examples.fs_minimal
                "/home/alice" (50 * 1024 * 1024) 20 Examples.validator_alice
                "/home/alice-other" "/home/alice-other"
                cwd_is_absolute_alice eq_refl eq_refl eq_refl eq_refl)
      as (root & Hroot & _ & Hrej & _).
    injection Hroot as <-. apply Hrej. reflexivity.
  - destruct (containment_is_componentwise Examples.env_alice Examples.fs_minimal
                "/home/alice" (50 * 1024 * 1024) 20 Examples.validator_alice
                "/home" "/home"
                cwd_is_absolute_alice eq_refl eq_refl eq_refl eq_refl)
      as (root & Hroot & _ & _ & Hanc & _).
    injection Hroot as <-. apply (Hanc "alice" []). reflexivity.
  - destruct (containment_is_componentwise Examples.env_alice Examples.fs_minimal
                "/home/alice" (50 * 1024 * 1024) 20 Examples.validator_alice
                "scenarios" "/home/alice/scenarios"
                cwd_is_absolute_alice eq_refl eq_refl eq_refl eq_refl)
      as (root & Hroot & _ & _ & _ & Hacc).
    injection Hroot as <-. apply Hacc; reflexivity.
Defined.

(** C1, the claim as stated fails in two places. The empty string resolves to
    the current directory, here [/], a strict ancestor of the root
    [/home/alice], yet it is refused with [ValueError], not with
    [PathTraversalError]. And a root that keeps the two leading slashes
    [abspath] preserves does not contain itself nor anything below it,
    because [commonpath] returns its result with a single slash. *)
Lemma containment_fails_on_empty_input_and_double_slash_root :
  Security.resolve Examples.env_at_root "" = Ok "/" /\
  Security.validate_directory_path Examples.env_at_root Examples.fs_minimal
    Examples.validator_alice ""
  = Raise (ValueError "Path must be a non-empty string") /\
  Security.PathValidator_init Examples.env_alice (Some "//srv") (10 * 1024 * 1024) 10
  = Ok Examples.validator_srv /\
  PosixPath.commonpath ["//srv"; "//srv"] = Ok "/srv" /\
  Security._is_within_allowed_root Examples.validator_srv "//srv" = Ok false /\
  Security._is_within_allowed_root Examples.validator_srv "//srv/data" = Ok false.
Proof. repeat split; vm_compute; reflexivity. Qed.

(** ** What the path-traversal error tells the client *)

(** A failed containment check ends both validators with a
    [PathTraversalError]. *)
Lemma containment_failure_raises (env : Env) (fs : FS) (v : Security.PathValidator)
  (user_path abs_path : string) :
  Py.truthy user_path = true ->
  Security.resolve env user_path = Ok abs_path ->
  Security._check_path_traversal user_path abs_path = Ok tt ->
  Security.outside_allowed_root v abs_path = Ok true ->
  Security.validate_directory_path env fs v user_path
  = Raise (PathTraversalError
             ("Path outside allowed directory: " ++ abs_path ++ " not within "
              ++ match Security.allowed_root v with Some r => r | None => "None" end)) /\
  forall must_exist,
    Security.validate_file_path env fs v user_path must_exist
    = Raise (PathTraversalError ("File path outside allowed directory: " ++ abs_path)).
Proof.
  intros Hne Hres Hlex Hout. split.
  - unfold Security.validate_directory_path.
    rewrite Hne, Hres. simpl. rewrite Hlex. simpl. rewrite Hout. reflexivity.
  - intros must_exist. unfold Security.validate_file_path.
    rewrite Hne, Hres. simpl. rewrite Hlex. simpl. rewrite Hout. reflexivity.
Qed.




(** The technical message of the path-traversal error. When the containment
    check fails, the message of the [PathTraversalError] names the resolved
    absolute path, and for a directory the allowed root as well, and
    [create_error_response] forwards it unchanged in the [message] entry of
    the response, next to the fixed [user_message]. *)
Theorem traversal_error_technical_message (env : Env) (fs : FS)
  (v : Security.PathValidator) (root user_path abs_path : string) :
  Py.truthy user_path = true ->
  Security.resolve env user_path = Ok abs_path ->
  Security._check_path_traversal user_path abs_path = Ok tt ->
  Security.allowed_root v = Some root ->
  Security.outside_allowed_root v abs_path = Ok true ->
  exists dir_msg file_msg,
    dir_msg = "Path outside allowed directory: " ++ abs_path ++ " not within " ++ root /\
    file_msg = "File path outside allowed directory: " ++ abs_path /\
    Security.validate_directory_path env fs v user_path
    = Raise (PathTraversalError dir_msg) /\
    (forall must_exist,
       Security.validate_file_path env fs v user_path must_exist
       = Raise (PathTraversalError file_msg)) /\
    Py.contains abs_path dir_msg = true /\
    Py.contains root dir_msg = true /\
    Py.contains abs_path file_msg = true /\
    Exceptions.create_error_response (PathTraversalError dir_msg)
    = ({| Exceptions.error_code := "UnexpectedError";
          Exceptions.message := dir_msg;
          Exceptions.user_message := "An unexpected error occurred" |}, 500%Z) /\
    Exceptions.create_error_response (PathTraversalError file_msg)
    = ({| Exceptions.error_code := "UnexpectedError";
          Exceptions.message := file_msg;
          Exceptions.user_message := "An unexpected error occurred" |}, 500%Z).
Proof.
  intros Hne Hres Hlex Hroot Hout.
  destruct (containment_failure_raises env fs v user_path abs_path Hne Hres Hlex Hout)
    as [Hdir Hfile].
  rewrite Hroot in Hdir.
  eexists. eexists. split; [reflexivity |]. split; [reflexivity |].
  split; [exact Hdir |]. split; [exact Hfile |].
  split; [apply contains_infix |].
  split.
  { apply contains_spec.
    exists ("Path outside allowed directory: " ++ abs_path ++ " not within "), "".
    now rewrite append_empty_r, !append_assoc. }
  split.
  { rewrite <- (append_empty_r abs_path) at 2. apply contains_infix. }
  split; reflexivity.
Qed.

Lemma traversal_error_technical_message_witness :
  exists dir_msg file_msg,
    dir_msg = "Path outside allowed directory: /etc not within /home/alice" /\
    file_msg = "File path outside allowed directory: /etc" /\
    Security.validate_directory_path Examples.env_alice Examples.fs_minimal
      Examples.validator_alice "/etc" = Raise (PathTraversalError dir_msg) /\
    (forall must_exist,
       Security.validate_file_path Examples.env_alice Examples.fs_minimal
         Examples.validator_alice "/etc" must_exist
       = Raise (PathTraversalError file_msg)) /\
    Py.contains "/etc" dir_msg = true /\
    Py.contains "/home/alice" dir_msg = true /\
    Py.contains "/etc" file_msg = true /\
    Exceptions.create_error_response (PathTraversalError dir_msg)
    = ({| Exceptions.error_code := "UnexpectedError";
          Exceptions.message := dir_msg;
          Exceptions.user_message := "An unexpected error occurred" |}, 500%Z) /\
    Exceptions.create_error_response (PathTraversalError file_msg)
    = ({| Exceptions.error_code := "UnexpectedError";
          Exceptions.message := file_msg;
          Exceptions.user_message := "An unexpected error occurred" |}, 500%Z).
Proof.
  apply (traversal_error_technical_message Examples.env_alice Examples.fs_minimal
           Examples.validator_alice "/home/alice" "/etc" "/etc");
    reflexivity.
Defined.

(** ** What a validated directory path guarantees *)

(** C3. When [validate_directory_path], built with an allowed root, returns
    a path, that path is absolute, exists, is a directory, is readable, lies
    within the allowed root (the containment check answers [True], and the
    components of the root are a prefix of its components), and the number of
    its [parts] does not exceed [max_depth]. *)
Theorem validated_directory_postcondition (env : Env) (fs : FS) (r : string) (mfs md : Z)
  (v : Security.PathValidator) (user_path q : string) :
  cwd_is_absolute env ->
  Py.truthy r = true ->
  Security.PathValidator_init env (Some r) mfs md = Ok v ->
  Security.validate_directory_path env fs v user_path = Ok q ->
  exists root,
    Security.allowed_root v = Some root /\
    PosixPath.isabs q = true /\
    exists_ fs q = true /\
    isdir fs q = true /\
    access_r fs q = Ok true /\
    Security._is_within_allowed_root v q = Ok true /\
    is_prefix (components root) (components q) = true /\
    (Z.of_nat (List.length (PurePosixPath.parts q)) <= Security.max_depth v)%Z.
Proof.
  intros Hcwd Hr Hinit Hval.
  destruct (init_allowed_root env r mfs md v Hr Hinit) as (root & Hroot & Habs).
  assert (Hcr : canonical root) by exact (abspath_canonical env r root Hcwd Habs).
  exists root. split; [exact Hroot |].
  unfold Security.validate_directory_path in Hval.
  destruct (Py.truthy user_path); cbn [negb] in Hval; [| discriminate].
  destruct (Security.resolve env user_path) as [q' | e] eqn:Hres; cbn [try_except] in Hval.
  2:{ destruct (_ || _)%bool; discriminate. }
  cbn [bind] in Hval.
  destruct (Security._check_path_traversal user_path q') as [[] | e]; cbn [bind] in Hval;
    [| discriminate].
  assert (Hcq : canonical q') by exact (abspath_canonical env _ q' Hcwd Hres).
  pose proof (is_within_canonical v root q' Hroot Hcr Hcq) as Hw.
  unfold Security.outside_allowed_root in Hval.
  rewrite Hroot, (canonical_truthy root Hcr), Hw in Hval. cbn [negb bind] in Hval.
  destruct (negb (Py.startswith root "//") && is_prefix (components root) (components q'))%bool
    eqn:Hin; cbn [negb] in Hval; [| discriminate].
  destruct (exists_ fs q') eqn:Hex; cbn [negb] in Hval; [| discriminate].
  destruct (isdir fs q') eqn:Hdir; cbn [negb] in Hval; [| discriminate].
  destruct (access_r fs q') as [[|] | e] eqn:Hacc; cbn [bind negb] in Hval;
    try discriminate.
  destruct (Security.max_depth v <? _)%Z eqn:Hdepth; [discriminate |].
  injection Hval as <-.
  apply andb_true_iff in Hin as [_ Hpre]. apply Z.ltb_ge in Hdepth.
  repeat split; try assumption.
  now apply canonical_isabs.
Qed.

Lemma validated_directory_postcondition_witness :
  exists root,
    Security.allowed_root Examples.validator_alice = Some root /\
    PosixPath.isabs "/home/alice/scenarios/Default" = true /\
    exists_ Examples.fs_minimal "/home/alice/scenarios/Default" = true /\
    isdir Examples.fs_minimal "/home/alice/scenarios/Default" = true /\
    access_r Examples.fs_minimal "/home/alice/scenarios/Default" = Ok true /\
    Security._is_within_allowed_root Examples.validator_alice
      "/home/alice/scenarios/Default" = Ok true /\
    is_prefix (components root) (components "/home/alice/scenarios/Default") = true /\
    (Z.of_nat (List.length (PurePosixPath.parts "/home/alice/scenarios/Default"))
     <= Security.max_depth Examples.validator_alice)%Z.
Proof.
  apply (validated_directory_postcondition Examples.env_alice Examples.fs_minimal
           "/home/alice" (50 * 1024 * 1024) 20 Examples.validator_alice
           "scenarios/Default" "/home/alice/scenarios/Default"
           cwd_is_absolute_alice eq_refl eq_refl eq_refl).
Defined.

(** ** The sanitizer *)

(** One round of replacing double slashes never lengthens the string. *)
Lemma replace_dslash_length (s : string) :
  String.length (Py.replace_from "//" "/" 0 s) <= String.length s /\
  String.length (Py.replace_from "//" "/" 1 s) <= String.length s.
Proof.
  induction s as [|c s [IH0 IH1]]; [simpl; lia |].
  split.
  - cbn [Py.replace_from]. destruct (Py.startswith (String c s) "//").
    + cbn [String.length Nat.sub append]. lia.
    + cbn [String.length]. lia.
  - cbn [Py.replace_from String.length]. lia.
Qed.

(** A round that finds a double slash shortens the string. *)
Lemma replace_dslash_shorter (s : string) :
  Py.contains "//" s = true ->
  String.length (Py.replace "//" "/" s) < String.length s.
Proof.
  unfold Py.replace. induction s as [|c s IH]; [discriminate |].
  intros H. cbn [Py.contains] in H. cbn [Py.replace_from].
  destruct (Py.startswith (String c s) "//") eqn:Hs.
  - cbn [String.length Nat.sub append].
    destruct s as [|d s]; [simpl in Hs; now rewrite andb_false_r in Hs |].
    cbn [Py.replace_from String.length].
    destruct (replace_dslash_length s) as [H0 _]. lia.
  - cbn [orb] in H. cbn [String.length]. apply IH in H. lia.
Qed.

(** The length of the string is fuel enough: the loop of the sanitizer ends
    with no double slash left. *)
Lemma collapse_slashes_done (fuel : nat) (s : string) :
  String.length s <= fuel ->
  Py.contains "//" (Security.collapse_slashes fuel s) = false.
Proof.
  revert s. induction fuel as [|f IH]; intros s Hlen.
  - destruct s; [reflexivity | simpl in Hlen; lia].
  - cbn [Security.collapse_slashes].
    destruct (Py.contains "//" s) eqn:Hc; [| exact Hc].
    apply IH. pose proof (replace_dslash_shorter s Hc). lia.
Qed.

Lemma contains_prefix (sub a b : string) :
  Py.contains sub a = true -> Py.contains sub (a ++ b) = true.
Proof.
  intros H. apply contains_spec in H as (x & y & ->).
  apply contains_spec. exists x, (y ++ b). now rewrite !append_assoc.
Qed.

Lemma rstrip_prefix (ch : ascii) (s : string) : exists t, s = Py.rstrip ch s ++ t.
Proof.
  induction s as [|c s [t IH]]; [now exists "" |].
  cbn [Py.rstrip]. destruct (Py.rstrip ch s) as [|d r].
  - destruct (Ascii.eqb c ch); [now exists (String c s) |].
    exists t. cbn [append] in *. now rewrite <- IH.
  - exists t. cbn [append] in *. now rewrite <- IH.
Qed.

Lemma rstrip_not_endswith (ch : ascii) (s : string) :
  Py.endswith (Py.rstrip ch s) (String ch "") = false.
Proof.
  induction s as [|c s IH]; [reflexivity |].
  cbn [Py.rstrip]. destruct (Py.rstrip ch s) as [|d r].
  - destruct (Ascii.eqb c ch) eqn:Hc; [reflexivity |].
    cbn [Py.endswith String.eqb]. rewrite Hc. reflexivity.
  - cbn [Py.endswith String.eqb] in *.
    destruct (Ascii.eqb c ch); [| exact IH]. exact IH.
Qed.

Lemma all_printable_app (a b : string) :
  all_printable (a ++ b) = all_printable a && all_printable b.
Proof.
  induction a as [|c a IH]; [reflexivity |].
  cbn [append all_printable]. now rewrite IH, andb_assoc.
Qed.

Lemma drop_control_chars_printable (s : string) :
  all_printable (Security.drop_control_chars s) = true.
Proof.
  induction s as [|c s IH]; [reflexivity |].
  cbn [Security.drop_control_chars].
  destruct (32 <=? Py.ord c)%N eqn:Hc; [| exact IH].
  cbn [all_printable]. now rewrite Hc, IH.
Qed.

Lemma replace_dslash_printable (s : string) (skip : nat) :
  all_printable s = true -> all_printable (Py.replace_from "//" "/" skip s) = true.
Proof.
  revert skip. induction s as [|c s IH]; intros skip H; [reflexivity |].
  cbn [all_printable] in H. apply andb_true_iff in H as [Hc Hs].
  cbn [Py.replace_from]. destruct skip as [|k]; [| now apply IH].
  destruct (Py.startswith (String c s) "//").
  - cbn [append all_printable]. rewrite IH by exact Hs. reflexivity.
  - cbn [all_printable]. now rewrite Hc, IH.
Qed.

Lemma collapse_slashes_printable (fuel : nat) (s : string) :
  all_printable s = true -> all_printable (Security.collapse_slashes fuel s) = true.
Proof.
  revert s. induction fuel as [|f IH]; intros s H; [exact H |].
  cbn [Security.collapse_slashes]. destruct (Py.contains "//" s); [| exact H].
  apply IH. now apply replace_dslash_printable.
Qed.

Lemma sanitize_path_string_shape (path : string) :
  all_printable (Security._sanitize_path_string path) = true /\
  Py.contains "//" (Security._sanitize_path_string path) = false /\
  (Security._sanitize_path_string path =? "/")
  = Py.endswith (Security._sanitize_path_string path) "/".
Proof.
  unfold Security._sanitize_path_string.
  set (s0 := Security.drop_control_chars path).
  set (s := Security.collapse_slashes (String.length s0) s0).
  assert (Hp : all_printable s = true)
    by apply collapse_slashes_printable, drop_control_chars_printable.
  assert (Hd : Py.contains "//" s = false) by now apply collapse_slashes_done.
  destruct ((1 <? String.length s)%nat && Py.endswith s "/")%bool eqn:Hcase.
  - destruct (rstrip_prefix "/" s) as [t Ht].
    split; [| split].
    + rewrite Ht, all_printable_app in Hp. now apply andb_true_iff in Hp as [Hp _].
    + destruct (Py.contains "//" (Py.rstrip "/" s)) eqn:Hc; [| reflexivity].
      apply (contains_prefix _ _ t) in Hc. rewrite <- Ht in Hc. congruence.
    + rewrite rstrip_not_endswith. apply String.eqb_neq. intros E.
      pose proof (rstrip_not_endswith "/" s) as Hn. rewrite E in Hn. discriminate.
  - split; [exact Hp |]. split; [exact Hd |].
    destruct (Py.endswith s "/") eqn:He.
    + rewrite andb_true_r in Hcase. apply Nat.ltb_ge in Hcase.
      destruct s as [|c [|d s']]; [discriminate | | simpl in Hcase; lia].
      cbn [Py.endswith String.eqb] in He. rewrite orb_false_r in He.
      cbn [String.eqb]. exact He.
    + apply String.eqb_neq. intros E. rewrite E in He. discriminate.
Qed.

(** What [_sanitize_path_string] returns holds no control character and no
    double slash, and ends in a slash only when it is the root [/]. *)
Theorem sanitize_path_string_postcondition (path : string) :
  all_printable (Security._sanitize_path_string path) = true /\
  Py.contains "//" (Security._sanitize_path_string path) = false /\
  (Security._sanitize_path_string path =? "/")
  = Py.endswith (Security._sanitize_path_string path) "/".
Proof. exact (sanitize_path_string_shape path). Qed.

(** ** The loop of [splitext] *)

(** More fuel than the distance to the last dot changes nothing. *)
Lemma splitext_loop_fuel (p : string) (dotIndex : nat) (fuel extra filenameIndex : nat) :
  dotIndex - filenameIndex <= fuel ->
  PosixPath.splitext_loop (fuel + extra) p filenameIndex dotIndex
  = PosixPath.splitext_loop fuel p filenameIndex dotIndex.
Proof.
  revert filenameIndex. induction fuel as [|f IH]; intros i Hle.
  - cbn [Nat.add PosixPath.splitext_loop].
    destruct extra as [|e]; [reflexivity |]. cbn [PosixPath.splitext_loop].
    assert (Hi : (i <? dotIndex)%nat = false) by (apply Nat.ltb_ge; lia).
    now rewrite Hi.
  - cbn [Nat.add PosixPath.splitext_loop].
    destruct (i <? dotIndex)%nat eqn:Hi; [| reflexivity].
    destruct (negb _); [reflexivity |].
    apply IH. apply Nat.ltb_lt in Hi. lia.
Qed.

(** ** The scenario detector, characterised *)

(** [is_valid_scenario] answers [True] for a path exactly when the path is
    not empty, names an existing readable directory, every required file
    exists in it, is readable and within its size limit, and the first
    kilobyte of [gameoptions.yaml] can be read and is not blank. *)
Theorem is_valid_scenario_characterised (L : Loader.ScenarioLoader) (fs : FS) (d : string) :
  Loader.is_valid_scenario L fs (PyStr d) = Ok true <->
  Py.truthy d = true /\
  exists_ fs d = true /\ isdir fs d = true /\ access_r fs d = Ok true /\
  (forall f, In f (Loader.required_files L) -> file_accepted L fs d f) /\
  exists content,
    read_text fs (PosixPath.join d "gameoptions.yaml") (Some 1024%nat) = Ok content /\
    Py.truthy (Py.strip content) = true.
Proof.
  split.
  - intros Hv. split; [| now apply is_valid_scenario_true_inv].
    destruct (Py.truthy d) eqn:Hd; [reflexivity |].
    rewrite is_valid_scenario_str in Hv.
    unfold try_except, Loader.is_valid_scenario_body in Hv.
    cbn [Loader.truth bind] in Hv. rewrite Hd in Hv. discriminate.
  - intros (Hd & Hex & Hdir & Hacc & Hall & content & Hread & Hs).
    now apply (is_valid_scenario_true_intro L fs d content).
Qed.

Lemma load_scenario_entries_are_yaml_witness :
  exists doc,
    Loader.load_scenario Examples.env_alice Loader.default_loader
      Examples.fs_corrupted_solar "/home/alice/scenarios/Default" = Ok doc /\
    forallb (fun kv => is_yaml_entry (snd kv)) (Loader.loaded_files doc) = true.
Proof.
  eexists. split; [vm_compute; reflexivity |].
  apply (load_scenario_entries_are_yaml Examples.env_alice Loader.default_loader
           Examples.fs_corrupted_solar "/home/alice/scenarios/Default").
  vm_compute. reflexivity.
Defined.

(** ** The containment check never raises *)

Lemma commonpath_pair_cases (a b : string) :
  (exists s, PosixPath.commonpath [a; b] = Ok s) \/
  (exists m, PosixPath.commonpath [a; b] = Raise (ValueError m)).
Proof.
  unfold PosixPath.commonpath. cbn [forallb map].
  destruct (Bool.eqb (PosixPath.isabs b) (PosixPath.isabs a) && true)%bool.
  - left. rewrite common_loop_min_max. cbn [bind]. eexists. reflexivity.
  - right. eexists. reflexivity.
Qed.

Lemma is_within_allowed_root_returns (v : Security.PathValidator) (path : string) :
  exists b, Security._is_within_allowed_root v path = Ok b.
Proof.
  unfold Security._is_within_allowed_root.
  destruct (Security.allowed_root v) as [root |]; [| now exists true].
  destruct (negb (Py.truthy root)); [now exists true |].
  destruct (commonpath_pair_cases root path) as [[s ->] | [m ->]];
    cbn [bind try_except is_ValueError orb]; eexists; reflexivity.
Qed.

(** The index of the loop of [commonpath] never leaves the longer list, so
    [_is_within_allowed_root] always answers; it answers [False] when one of
    the root and the path is absolute and the other is not. *)
Theorem is_within_allowed_root_total (v : Security.PathValidator) (path : string) :
  exists b,
    Security._is_within_allowed_root v path = Ok b /\
    forall root,
      Security.allowed_root v = Some root -> Py.truthy root = true ->
      PosixPath.isabs root = negb (PosixPath.isabs path) -> b = false.
Proof.
  unfold Security._is_within_allowed_root.
  destruct (Security.allowed_root v) as [root |].
  2:{ exists true. split; [reflexivity |]. intros root H. discriminate. }
  destruct (Py.truthy root) eqn:Ht; cbn [negb].
  2:{ exists true. split; [reflexivity |]. intros r H Hr. injection H as <-. congruence. }
  unfold PosixPath.commonpath. cbn [forallb map].
  destruct (Bool.eqb (PosixPath.isabs path) (PosixPath.isabs root) && true)%bool eqn:Habs.
  - rewrite common_loop_min_max. cbn [bind try_except]. eexists. split; [reflexivity |].
    intros r H _ Hdiff. injection H as <-. rewrite Hdiff in Habs.
    destruct (PosixPath.isabs path); discriminate.
  - cbn [bind try_except is_ValueError orb]. exists false. split; reflexivity.
Qed.

(** ** The errors of [validate_directory_path] *)

Lemma resolve_error (env : Env) (p : string) (e : exn) :
  Security.resolve env p = Raise e -> getcwd env = Raise e.
Proof.
  unfold Security.resolve, PosixPath.abspath.
  destruct (negb _); [| discriminate].
  destruct (getcwd env); cbn [bind]; [discriminate | auto].
Qed.

Lemma validate_directory_path_raises (env : Env) (fs : FS)
  (v : Security.PathValidator) (user_path : string) (e : exn) :
  getcwd_raises_OSError env ->
  access_never_raises fs ->
  Security.validate_directory_path env fs v user_path = Raise e ->
  documented_directory_error e = true.
Proof.
  intros Hcwd Hacc. unfold Security.validate_directory_path.
  destruct (Py.truthy user_path); cbn [negb]; [| intros H; injection H as <-; reflexivity].
  destruct (Security.resolve env user_path) as [q | e0] eqn:Hres; cbn [try_except].
  2:{ rewrite (Hcwd e0 (resolve_error env user_path e0 Hres)). cbn [orb bind].
      intros H. injection H as <-. reflexivity. }
  cbn [bind].
  destruct (check_path_traversal_cases user_path q) as [-> | [msg ->]]; cbn [bind].
  2:{ intros H. injection H as <-. reflexivity. }
  unfold Security.outside_allowed_root.
  destruct (is_within_allowed_root_returns v q) as (w & Hw).
  assert (Hout : exists o,
            match Security.allowed_root v with
            | Some root =>
                if negb (Py.truthy root) then Ok false
                else w0 <- Security._is_within_allowed_root v q ;; Ok (negb w0)
            | None => Ok false
            end = Ok o).
  { destruct (Security.allowed_root v) as [root |]; [| now exists false].
    destruct (negb (Py.truthy root)); [now exists false |].
    rewrite Hw. cbn [bind]. now eexists. }
  destruct Hout as [o ->]. cbn [bind].
  destruct o; [intros H; injection H as <-; reflexivity |].
  destruct (exists_ fs q); cbn [negb]; [| intros H; injection H as <-; reflexivity].
  destruct (isdir fs q); cbn [negb]; [| intros H; injection H as <-; reflexivity].
  destruct (Hacc q) as [r ->]. cbn [bind].
  destruct r; cbn [negb]; [| intros H; injection H as <-; reflexivity].
  destruct (_ <? _)%Z; [intros H; injection H as <-; reflexivity | discriminate].
Qed.

(** Provided [os.getcwd] fails with [OSError] only and [os.access] does not
    raise, every exception that leaves [validate_directory_path] is one of
    those its docstring lists: [ValueError], [PathTraversalError],
    [FileNotFoundError] or [PermissionError]. *)
Theorem validate_directory_path_documented_errors (env : Env) (fs : FS)
  (v : Security.PathValidator) (user_path : string) (e : exn) :
  getcwd_raises_OSError env ->
  access_never_raises fs ->
  Security.validate_directory_path env fs v user_path = Raise e ->
  documented_directory_error e = true.
Proof. exact (validate_directory_path_raises env fs v user_path e). Qed.

Lemma getcwd_raises_OSError_alice : getcwd_raises_OSError Examples.env_alice.
Proof. intros e H. discriminate. Defined.

Lemma access_never_raises_minimal : access_never_raises Examples.fs_minimal.
Proof. intros p. eexists. reflexivity. Defined.

Lemma validate_directory_path_documented_errors_witness :
  documented_directory_error
    (FileNotFoundError "Directory does not exist: /home/alice/missing") = true.
Proof.
  exact (validate_directory_path_documented_errors Examples.env_alice Examples.fs_minimal
           Examples.validator_alice "missing"
           (FileNotFoundError "Directory does not exist: /home/alice/missing")
           getcwd_raises_OSError_alice access_never_raises_minimal eq_refl).
Defined.

(** None of the errors of the validator is an [EmpyrionEditorError]: under
    the same provisos, whatever makes [validate_directory_path] fail reaches
    the client, through [create_error_response], with status 500, the error
    code ['UnexpectedError'], the text of the exception as [message] and the
    generic [user_message]. *)
Theorem validate_directory_path_error_response (env : Env) (fs : FS)
  (v : Security.PathValidator) (user_path : string) (e : exn) :
  getcwd_raises_OSError env ->
  access_never_raises fs ->
  Security.validate_directory_path env fs v user_path = Raise e ->
  Exceptions.create_error_response e
  = ({| Exceptions.error_code := "UnexpectedError";
        Exceptions.message := exn_str e;
        Exceptions.user_message := "An unexpected error occurred" |}, 500%Z).
Proof.
  intros Hcwd Hacc H.
  pose proof (validate_directory_path_raises env fs v user_path e Hcwd Hacc H) as Hdoc.
  destruct e; try discriminate; reflexivity.
Qed.

Lemma validate_directory_path_error_response_witness :
  Exceptions.create_error_response
    (PathTraversalError "Path outside allowed directory: /etc not within /home/alice")
  = ({| Exceptions.error_code := "UnexpectedError";
        Exceptions.message := "Path outside allowed directory: /etc not within /home/alice";
        Exceptions.user_message := "An unexpected error occurred" |}, 500%Z).
Proof.
  exact (validate_directory_path_error_response Examples.env_alice Examples.fs_minimal
           Examples.validator_alice "/etc"
           (PathTraversalError "Path outside allowed directory: /etc not within /home/alice")
           getcwd_raises_OSError_alice access_never_raises_minimal eq_refl).
Defined.

(** ** The sanitizer is idempotent *)

Lemma drop_control_chars_id (s : string) :
  all_printable s = true -> Security.drop_control_chars s = s.
Proof.
  induction s as [|c s IH]; [reflexivity |].
  cbn [all_printable Security.drop_control_chars]. intros H.
  apply andb_true_iff in H as [Hc Hs]. now rewrite Hc, IH.
Qed.

Lemma collapse_slashes_id (fuel : nat) (s : string) :
  Py.contains "//" s = false -> Security.collapse_slashes fuel s = s.
Proof. intros H. destruct fuel; [reflexivity |]. cbn [Security.collapse_slashes]. now rewrite H. Qed.

(** Sanitizing twice is the same as sanitizing once. *)
Theorem sanitize_path_string_idempotent (path : string) :
  Security._sanitize_path_string (Security._sanitize_path_string path)
  = Security._sanitize_path_string path.
Proof.
  destruct (sanitize_path_string_shape path) as (Hp & Hd & Hroot).
  set (r := Security._sanitize_path_string path) in *.
  unfold Security._sanitize_path_string at 1.
  rewrite (drop_control_chars_id r Hp), (collapse_slashes_id _ r Hd).
  destruct (Py.endswith r "/") eqn:He; [| now rewrite andb_false_r].
  apply String.eqb_eq in Hroot. rewrite Hroot. reflexivity.
Qed.

(** ** Inputs that use the home shortcut *)

Lemma tilde_component (p : string) :
  p = "~" \/ Py.startswith p "~/" = true -> In "~" (Py.split "/" p).
Proof.
  intros [-> | H]; [now left |].
  apply startswith_spec in H as [t ->].
  change ("~/" ++ t) with ("~" ++ String "/" t).
  rewrite split_app_sep by reflexivity. now left.
Qed.

Lemma resolve_with_cwd (env : Env) (cwd p : string) :
  getcwd env = Ok cwd -> exists q, Security.resolve env p = Ok q.
Proof.
  intros Hcwd. unfold Security.resolve, PosixPath.abspath. rewrite Hcwd.
  destruct (negb _); eexists; reflexivity.
Qed.

(** An input that is the tilde or starts with tilde slash is rejected by both
    validators with [PathTraversalError], because the tilde is one of the
    dangerous components. *)
Theorem home_shortcut_rejected (env : Env) (fs : FS) (v : Security.PathValidator)
  (cwd user_path : string) :
  getcwd env = Ok cwd ->
  user_path = "~" \/ Py.startswith user_path "~/" = true ->
  (exists msg,
     Security.validate_directory_path env fs v user_path
     = Raise (PathTraversalError msg)) /\
  (forall must_exist, exists msg,
     Security.validate_file_path env fs v user_path must_exist
     = Raise (PathTraversalError msg)).
Proof.
  intros Hcwd H.
  assert (Hne : Py.truthy user_path = true).
  { destruct H as [-> | H]; [reflexivity |]. destruct user_path; [discriminate | reflexivity]. }
  destruct (resolve_with_cwd env cwd user_path Hcwd) as [q Hres].
  destruct (check_path_traversal_raises user_path q) as [msg Hmsg].
  { right. right. right. left. now apply tilde_component. }
  split.
  - exists msg. unfold Security.validate_directory_path.
    rewrite Hne, Hres. cbn [negb try_except bind]. now rewrite Hmsg.
  - intros must_exist. exists msg. unfold Security.validate_file_path.
    rewrite Hne, Hres. cbn [negb bind]. now rewrite Hmsg.
Qed.

Lemma home_shortcut_rejected_witness :
  (exists msg,
     Security.validate_directory_path Examples.env_alice Examples.fs_minimal
       Examples.validator_alice "~/scenarios" = Raise (PathTraversalError msg)) /\
  (forall must_exist, exists msg,
     Security.validate_file_path Examples.env_alice Examples.fs_minimal
       Examples.validator_alice "~/scenarios" must_exist
     = Raise (PathTraversalError msg)).
Proof.
  apply (home_shortcut_rejected Examples.env_alice Examples.fs_minimal
           Examples.validator_alice "/home/alice" "~/scenarios");
    [reflexivity | right; reflexivity].
Defined.

(** ** The depth of a validated directory *)

Lemma lstrip_id (ch : ascii) (s : string) :
  Py.startswith s (String ch "") = false -> Py.lstrip ch s = s.
Proof.
  destruct s as [|c s]; [reflexivity |].
  rewrite startswith_char. intros H. cbn [Py.lstrip]. now rewrite Ascii.eqb_sym, H.
Qed.

Lemma parsed_components (rel : string) :
  (if Py.contains "/" rel
   then filter (fun x => Py.truthy x && negb (x =? ".")) (Py.split "/" rel)
   else if Py.truthy rel && negb (rel =? ".") then [rel] else [])
  = components rel.
Proof.
  unfold components, PosixPath.drop_empty_and_dot.
  destruct (Py.contains "/" rel) eqn:Hc; [reflexivity |].
  rewrite (split_without_sep "/" rel Hc). cbn [filter].
  now destruct (Py.truthy rel && negb (rel =? "."))%bool.
Qed.

(** The [parts] of a canonical path: its leading slashes, then its
    components. *)
Lemma parts_canonical (n : nat) (comps : list string) :
  n = 1 \/ n = 2 -> forallb is_component comps = true ->
  PurePosixPath.parts (PosixPath.slashes n ++ Py.join "/" comps)
  = PosixPath.slashes n :: comps.
Proof.
  intros Hn Hcomps.
  pose proof (join_not_slash_start comps Hcomps) as Hj.
  unfold PurePosixPath.parts, PurePosixPath.splitroot.
  destruct Hn as [-> | ->]; cbn [PosixPath.slashes append Py.truthy String.eqb negb];
    rewrite startswith_char, Ascii.eqb_refl; cbn [Py.lstrip]; rewrite ?Ascii.eqb_refl.
  - rewrite (lstrip_id "/" _ Hj). cbn [String.length].
    replace (S (String.length (Py.join "/" comps)) - String.length (Py.join "/" comps))
      with 1 by lia.
    cbn [Nat.eqb]. rewrite parsed_components, (components_of_join comps Hcomps).
    reflexivity.
  - cbn [Py.lstrip]. rewrite ?Ascii.eqb_refl, (lstrip_id "/" _ Hj). cbn [String.length].
    replace (S (S (String.length (Py.join "/" comps))) - String.length (Py.join "/" comps))
      with 2 by lia.
    cbn [Nat.eqb]. rewrite parsed_components, (components_of_join comps Hcomps).
    reflexivity.
Qed.

(** Everything [validate_directory_path] has checked when it returns. *)
Lemma validate_directory_path_Ok_inv (env : Env) (fs : FS) (v : Security.PathValidator)
  (user_path q : string) :
  Security.validate_directory_path env fs v user_path = Ok q ->
  Py.truthy user_path = true /\
  Security.resolve env user_path = Ok q /\
  Security._check_path_traversal user_path q = Ok tt /\
  Security.outside_allowed_root v q = Ok false /\
  exists_ fs q = true /\ isdir fs q = true /\ access_r fs q = Ok true /\
  (Z.of_nat (List.length (PurePosixPath.parts q)) <= Security.max_depth v)%Z.
Proof.
  unfold Security.validate_directory_path. intros Hval.
  destruct (Py.truthy user_path); cbn [negb] in Hval; [| discriminate].
  destruct (Security.resolve env user_path) as [q' | e]; cbn [try_except] in Hval.
  2:{ destruct (_ || _)%bool; discriminate. }
  cbn [bind] in Hval.
  destruct (Security._check_path_traversal user_path q') as [[] | e] eqn:Hlex;
    cbn [bind] in Hval; [| discriminate].
  destruct (Security.outside_allowed_root v q') as [[|] | e] eqn:Hout; cbn [bind] in Hval;
    try discriminate.
  destruct (exists_ fs q') eqn:Hex; cbn [negb] in Hval; [| discriminate].
  destruct (isdir fs q') eqn:Hdir; cbn [negb] in Hval; [| discriminate].
  destruct (access_r fs q') as [[|] | e] eqn:Hacc; cbn [bind negb] in Hval;
    try discriminate.
  destruct (Security.max_depth v <? _)%Z eqn:Hdepth; [discriminate |].
  injection Hval as <-. apply Z.ltb_ge in Hdepth.
  split; [reflexivity |]. split; [reflexivity |]. split; [exact Hlex |].
  split; [exact Hout |]. split; [exact Hex |]. split; [exact Hdir |].
  split; [exact Hacc | exact Hdepth].
Qed.

(** The depth limit counts the root: a directory that
    [validate_directory_path] returns has fewer than [max_depth] components
    below the root of the file system. *)
Theorem validated_directory_depth (env : Env) (fs : FS) (v : Security.PathValidator)
  (user_path q : string) :
  cwd_is_absolute env ->
  Security.validate_directory_path env fs v user_path = Ok q ->
  (Z.of_nat (List.length (components q)) < Security.max_depth v)%Z.
Proof.
  intros Hcwd Hval.
  apply validate_directory_path_Ok_inv in Hval as (_ & Hres & _ & _ & _ & _ & _ & Hdepth).
  destruct (abspath_canonical env _ q Hcwd Hres) as (n & comps & Hn & Hcomps & ->).
  rewrite (parts_canonical n comps Hn Hcomps) in Hdepth.
  rewrite (components_canonical n comps Hn Hcomps).
  cbn [List.length] in Hdepth. lia.
Qed.

Lemma validated_directory_depth_witness :
  (Z.of_nat (List.length (components "/home/alice/scenarios/Default"))
   < Security.max_depth Examples.validator_alice)%Z.
Proof.
  exact (validated_directory_depth Examples.env_alice Examples.fs_minimal
           Examples.validator_alice "scenarios/Default" "/home/alice/scenarios/Default"
           cwd_is_absolute_alice eq_refl).
Defined.

(** ** File paths *)

(** The size check of [validate_file_path]. *)
Lemma file_size_check_Ok_inv (fs : FS) (v : Security.PathValidator) (q : string) (u : unit) :
  try_except
    (file_size <- getsize fs q ;;
     if (Security.max_file_size v <? file_size)%Z
     then Raise (FileSizeError ("File too large: " ++ str_of_Z file_size ++ " bytes (max: "
                                ++ str_of_Z (Security.max_file_size v) ++ ")"))
     else Ok tt)
    (fun e => if is_OSError e
              then Raise (PermissionError ("Cannot access file: " ++ q ++ " - " ++ exn_str e))
              else Raise e) = Ok u ->
  exists n, getsize fs q = Ok n /\ (n <= Security.max_file_size v)%Z.
Proof.
  destruct (getsize fs q) as [n | e]; cbn [bind try_except].
  - destruct (_ <? n)%Z eqn:Hn; cbn [try_except is_OSError]; [discriminate |].
    intros _. exists n. split; [reflexivity | now apply Z.ltb_ge].
  - destruct (is_OSError e); discriminate.
Qed.

(** Everything [validate_file_path] has checked when it returns. *)
Lemma validate_file_path_Ok_inv (env : Env) (fs : FS) (v : Security.PathValidator)
  (user_path q : string) (must_exist : bool) :
  Security.validate_file_path env fs v user_path must_exist = Ok q ->
  Py.truthy user_path = true /\
  Security.resolve env user_path = Ok q /\
  Security._check_path_traversal user_path q = Ok tt /\
  Security.outside_allowed_root v q = Ok false /\
  Py.mem (Py.lower (snd (PosixPath.splitext q))) Security.BLOCKED_EXTENSIONS = false /\
  (must_exist = true ->
   exists_ fs q = true /\ isfile fs q = true /\
   exists n, getsize fs q = Ok n /\ (n <= Security.max_file_size v)%Z).
Proof.
  unfold Security.validate_file_path. intros Hval.
  destruct (Py.truthy user_path); cbn [negb] in Hval; [| discriminate].
  destruct (Security.resolve env user_path) as [q' | e]; cbn [bind] in Hval;
    [| discriminate].
  destruct (Security._check_path_traversal user_path q') as [[] | e] eqn:Hlex;
    cbn [bind] in Hval; [| discriminate].
  destruct (Security.outside_allowed_root v q') as [[|] | e] eqn:Hout; cbn [bind] in Hval;
    try discriminate.
  destruct (Py.mem _ Security.BLOCKED_EXTENSIONS) eqn:Hext; [discriminate |].
  destruct must_exist.
  - destruct (exists_ fs q') eqn:Hex; cbn [negb] in Hval; [| discriminate].
    destruct (isfile fs q') eqn:Hfile; cbn [negb] in Hval; [| discriminate].
    apply bind_Ok_inv in Hval as (u & Hsize & Hq). injection Hq as <-.
    apply file_size_check_Ok_inv in Hsize.
    split; [reflexivity |]. split; [reflexivity |]. split; [exact Hlex |].
    split; [exact Hout |]. split; [exact Hext |]. intros _. auto.
  - injection Hval as <-.
    split; [reflexivity |]. split; [reflexivity |]. split; [exact Hlex |].
    split; [exact Hout |]. split; [exact Hext |]. intros H. discriminate.
Qed.

Lemma outside_false_within (v : Security.PathValidator) (root q : string) :
  Security.allowed_root v = Some root -> canonical root -> canonical q ->
  Security.outside_allowed_root v q = Ok false ->
  is_prefix (components root) (components q) = true.
Proof.
  intros Hroot Hcr Hcq. unfold Security.outside_allowed_root.
  rewrite Hroot, (canonical_truthy root Hcr), (is_within_canonical v root q Hroot Hcr Hcq).
  cbn [negb bind]. intros H. injection H as H. apply negb_false_iff in H.
  now apply andb_true_iff in H as [_ H].
Qed.

(** What a validated file path guarantees. When [validate_file_path], built
    with an allowed root, returns a path, that path is absolute, lies within
    the root component by component, and its lower-cased extension is not a
    blocked one; when the file had to exist, it exists, is a regular file and
    its size does not exceed [max_file_size]. *)
Theorem validated_file_postcondition (env : Env) (fs : FS) (r : string) (mfs md : Z)
  (v : Security.PathValidator) (user_path q : string) (must_exist : bool) :
  cwd_is_absolute env ->
  Py.truthy r = true ->
  Security.PathValidator_init env (Some r) mfs md = Ok v ->
  Security.validate_file_path env fs v user_path must_exist = Ok q ->
  exists root,
    Security.allowed_root v = Some root /\
    PosixPath.isabs q = true /\
    is_prefix (components root) (components q) = true /\
    Py.mem (Py.lower (snd (PosixPath.splitext q))) Security.BLOCKED_EXTENSIONS = false /\
    (must_exist = true ->
     exists_ fs q = true /\ isfile fs q = true /\
     exists n, getsize fs q = Ok n /\ (n <= Security.max_file_size v)%Z).
Proof.
  intros Hcwd Hr Hinit Hval.
  destruct (init_allowed_root env r mfs md v Hr Hinit) as (root & Hroot & Habs).
  apply validate_file_path_Ok_inv in Hval as (_ & Hres & _ & Hout & Hext & Hexist).
  assert (Hcr : canonical root) by exact (abspath_canonical env r root Hcwd Habs).
  assert (Hcq : canonical q) by exact (abspath_canonical env _ q Hcwd Hres).
  exists root. split; [exact Hroot |]. split; [now apply canonical_isabs |].
  split; [exact (outside_false_within v root q Hroot Hcr Hcq Hout) |].
  split; [exact Hext | exact Hexist].
Qed.

Lemma validated_file_postcondition_witness :
  exists root,
    Security.allowed_root Examples.validator_alice = Some root /\
    PosixPath.isabs "/home/alice/scenarios/Default/description.txt" = true /\
    is_prefix (components root)
      (components "/home/alice/scenarios/Default/description.txt") = true /\
    Py.mem (Py.lower (snd (PosixPath.splitext
                             "/home/alice/scenarios/Default/description.txt")))
      Security.BLOCKED_EXTENSIONS = false /\
    (true = true ->
     exists_ Examples.fs_minimal "/home/alice/scenarios/Default/description.txt" = true /\
     isfile Examples.fs_minimal "/home/alice/scenarios/Default/description.txt" = true /\
     exists n,
       getsize Examples.fs_minimal "/home/alice/scenarios/Default/description.txt" = Ok n /\
       (n <= Security.max_file_size Examples.validator_alice)%Z).
Proof.
  exact (validated_file_postcondition Examples.env_alice Examples.fs_minimal
           "/home/alice" (50 * 1024 * 1024) 20 Examples.validator_alice
           "scenarios/Default/description.txt"
           "/home/alice/scenarios/Default/description.txt" true
           cwd_is_absolute_alice eq_refl eq_refl eq_refl).
Defined.

(** [validate_file_path] rejects with [PathTraversalError], whether or not
    the file must exist, every input that resolves and contains dot dot
    followed by a slash or a backslash, or has a slash-separated component
    equal to dot dot, the tilde or the dollar sign, or resolves to a path
    whose components do not extend those of the allowed root. *)
Theorem file_traversal_rejected (env : Env) (fs : FS) (r : string) (mfs md : Z)
  (v : Security.PathValidator) (user_path q : string) (must_exist : bool) :
  cwd_is_absolute env ->
  Py.truthy r = true ->
  Security.PathValidator_init env (Some r) mfs md = Ok v ->
  Py.truthy user_path = true ->
  Security.resolve env user_path = Ok q ->
  exists root,
    Security.allowed_root v = Some root /\
    ((Py.contains "../" user_path = true \/
      Py.contains "..\" user_path = true \/
      In ".." (Py.split "/" user_path) \/
      In "~" (Py.split "/" user_path) \/
      In "$" (Py.split "/" user_path)) \/
     is_prefix (components root) (components q) = false ->
     exists msg,
       Security.validate_file_path env fs v user_path must_exist
       = Raise (PathTraversalError msg)).
Proof.
  intros Hcwd Hr Hinit Hne Hres.
  destruct (init_allowed_root env r mfs md v Hr Hinit) as (root & Hroot & Habs).
  assert (Hcr : canonical root) by exact (abspath_canonical env r root Hcwd Habs).
  assert (Hcq : canonical q) by exact (abspath_canonical env _ q Hcwd Hres).
  exists root. split; [exact Hroot |]. intros H.
  unfold Security.validate_file_path. rewrite Hne, Hres. cbn [negb bind].
  destruct H as [Hlex | Hout].
  - destruct (check_path_traversal_raises user_path q Hlex) as [msg ->].
    now exists msg.
  - destruct (check_path_traversal_cases user_path q) as [-> | [msg ->]];
      [| now exists msg].
    cbn [bind]. unfold Security.outside_allowed_root.
    rewrite Hroot, (canonical_truthy root Hcr),
      (is_within_canonical v root q Hroot Hcr Hcq), Hout, andb_false_r.
    cbn [negb bind]. eexists. reflexivity.
Qed.

Lemma file_traversal_rejected_witness :
  exists root,
    Security.allowed_root Examples.validator_alice = Some root /\
    ((Py.contains "../" "/etc/passwd" = true \/
      Py.contains "..\" "/etc/passwd" = true \/
      In ".." (Py.split "/" "/etc/passwd") \/
      In "~" (Py.split "/" "/etc/passwd") \/
      In "$" (Py.split "/" "/etc/passwd")) \/
     is_prefix (components root) (components "/etc/passwd") = false ->
     exists msg,
       Security.validate_file_path Examples.env_alice Examples.fs_minimal
         Examples.validator_alice "/etc/passwd" false
       = Raise (PathTraversalError msg)).
Proof.
  exact (file_traversal_rejected Examples.env_alice Examples.fs_minimal
           "/home/alice" (50 * 1024 * 1024) 20 Examples.validator_alice
           "/etc/passwd" "/etc/passwd" false
           cwd_is_absolute_alice eq_refl eq_refl eq_refl eq_refl).
Defined.

(** Asking that the file exist only adds checks: a path accepted with
    [must_exist=True] is accepted, with the same result, with
    [must_exist=False]. Conversely, when a path is accepted without the
    existence checks and names an existing regular file, the call with
    [must_exist=True] fails with [FileSizeError] if the file is larger than
    [max_file_size], with [PermissionError] if its size cannot be read because
    of an [OSError], and returns the same path if its size is within the
    limit. *)
Theorem must_exist_adds_checks (env : Env) (fs : FS) (v : Security.PathValidator)
  (user_path q : string) :
  (Security.validate_file_path env fs v user_path true = Ok q ->
   Security.validate_file_path env fs v user_path false = Ok q) /\
  (Security.validate_file_path env fs v user_path false = Ok q ->
   exists_ fs q = true -> isfile fs q = true ->
   (forall n, getsize fs q = Ok n -> (Security.max_file_size v < n)%Z ->
      exists msg,
        Security.validate_file_path env fs v user_path true = Raise (FileSizeError msg)) /\
   (forall e, getsize fs q = Raise e -> is_OSError e = true ->
      exists msg,
        Security.validate_file_path env fs v user_path true
        = Raise (PermissionError msg)) /\
   (forall n, getsize fs q = Ok n -> (n <= Security.max_file_size v)%Z ->
      Security.validate_file_path env fs v user_path true = Ok q)).
Proof.
  split.
  - intros H.
    apply validate_file_path_Ok_inv in H as (Hne & Hres & Hlex & Hout & Hext & _).
    unfold Security.validate_file_path.
    rewrite Hne, Hres. cbn [negb bind]. rewrite Hlex. cbn [bind].
    rewrite Hout. cbn [bind]. now rewrite Hext.
  - intros H Hex Hfile.
    apply validate_file_path_Ok_inv in H as (Hne & Hres & Hlex & Hout & Hext & _).
    assert (Hrun : forall me, Security.validate_file_path env fs v user_path me =
              if me then
                _ <- try_except
                       (file_size <- getsize fs q ;;
                        if (Security.max_file_size v <? file_size)%Z
                        then Raise (FileSizeError
                                      ("File too large: " ++ str_of_Z file_size
                                       ++ " bytes (max: "
                                       ++ str_of_Z (Security.max_file_size v) ++ ")"))
                        else Ok tt)
                       (fun e => if is_OSError e
                                 then Raise (PermissionError
                                               ("Cannot access file: " ++ q ++ " - "
                                                ++ exn_str e))
                                 else Raise e) ;;
                Ok q
              else Ok q).
    { intros me. unfold Security.validate_file_path.
      rewrite Hne, Hres. cbn [negb bind]. rewrite Hlex. cbn [bind].
      rewrite Hout. cbn [bind]. rewrite Hext, Hex, Hfile. reflexivity. }
    rewrite (Hrun true). split; [| split].
    + intros n Hn Hbig. rewrite Hn. cbn [bind].
      apply Z.ltb_lt in Hbig. rewrite Hbig. cbn [try_except is_OSError bind].
      eexists. reflexivity.
    + intros e He Hos. rewrite He. cbn [bind try_except]. rewrite Hos. cbn [bind].
      eexists. reflexivity.
    + intros n Hn Hle. rewrite Hn. cbn [bind].
      apply Z.ltb_ge in Hle. rewrite Hle. reflexivity.
Qed.

Lemma must_exist_adds_checks_witness :
  Security.validate_file_path Examples.env_alice Examples.fs_minimal
    Examples.validator_alice "scenarios/Default/description.txt" false
  = Ok "/home/alice/scenarios/Default/description.txt" /\
  Security.validate_file_path Examples.env_alice Examples.fs_minimal
    Examples.validator_alice "scenarios/Default/description.txt" true
  = Ok "/home/alice/scenarios/Default/description.txt".
Proof.
  split; [reflexivity |].
  destruct (getsize Examples.fs_minimal "/home/alice/scenarios/Default/description.txt")
    as [n | e] eqn:Hn; [| discriminate].
  refine (proj2 (proj2 (proj2 (must_exist_adds_checks Examples.env_alice Examples.fs_minimal
            Examples.validator_alice "scenarios/Default/description.txt"
            "/home/alice/scenarios/Default/description.txt") eq_refl eq_refl eq_refl))
          n Hn _).
  injection Hn as <-. vm_compute. discriminate.
Defined.

(** ** More about the preview *)

Lemma read_description_image (fs : FS) (d : string) (p : Loader.preview) :
  Loader.path (Loader.read_description fs d p) = Loader.path p /\
  Loader.preview_image (Loader.read_description fs d p) = Loader.preview_image p.
Proof.
  unfold Loader.read_description.
  destruct (exists_ fs _); [| auto]. destruct (read_text fs _ None); simpl; auto.
Qed.

(** The preview image of a valid scenario: [preview.jpg] when it exists,
    whether or not [preview.png] does; else [preview.png] when it exists;
    else none. The path of the preview is the path given. *)
Theorem preview_image_priority (L : Loader.ScenarioLoader) (fs : FS) (d : string) :
  Loader.is_valid_scenario L fs (PyStr d) = Ok true ->
  exists pv,
    Loader.get_scenario_preview L fs d = Ok pv /\
    Loader.path pv = d /\
    Loader.preview_image pv =
      if exists_ fs (PosixPath.join d "preview.jpg") then Some "preview.jpg"
      else if exists_ fs (PosixPath.join d "preview.png") then Some "preview.png"
      else None.
Proof.
  intros Hv. unfold Loader.get_scenario_preview. rewrite Hv. cbn [bind negb].
  eexists. split; [reflexivity |]. cbv zeta.
  set (p0 := {| Loader.name := PosixPath.basename d; Loader.path := d;
                Loader.description := ""; Loader.preview_image := None;
                Loader.game_mode := "Unknown"; Loader.multiplayer_ready := false |}).
  set (p1 := Loader.read_description fs d p0).
  set (p2 := Loader.find_preview_image fs d ["jpg"; "png"] p1).
  destruct (read_game_options_identity fs d p2) as (_ & Hp & _ & Hi).
  destruct (read_description_image fs d p0) as (Hp1 & Hi1). fold p1 in Hp1, Hi1.
  rewrite Hp, Hi. subst p2. cbn [Loader.find_preview_image append].
  destruct (exists_ fs (PosixPath.join d "preview.jpg")).
  - split; [exact Hp1 | reflexivity].
  - destruct (exists_ fs (PosixPath.join d "preview.png")).
    + split; [exact Hp1 | reflexivity].
    + split; [exact Hp1 | exact Hi1].
Qed.

Lemma preview_image_priority_witness :
  exists pv,
    Loader.get_scenario_preview Loader.default_loader Examples.fs_full
      "/home/alice/scenarios/Default" = Ok pv /\
    Loader.path pv = "/home/alice/scenarios/Default" /\
    Loader.preview_image pv = Some "preview.jpg".
Proof.
  exact (preview_image_priority Loader.default_loader Examples.fs_full
           "/home/alice/scenarios/Default" eq_refl).
Defined.

Lemma apply_option_set_consistent (o : yaml) (p : Loader.preview) :
  mode_consistent p -> mode_consistent (fst (Loader.apply_option_set o p)).
Proof.
  intros Hp. unfold Loader.apply_option_set.
  unfold Loader.se_bind, Loader.se_lift, Loader.se_modify, Loader.se_ret.
  destruct (PyYaml.contains "ValidFor" o) as [[|] | e]; cbn [fst]; try exact Hp.
  destruct (PyYaml.getitem o "ValidFor") as [v | e]; cbn [fst]; try exact Hp.
  assert (Hcases : (exists mp sp cr,
                      PyYaml.contains "MP" v = Ok mp /\ PyYaml.contains "SP" v = Ok sp /\
                      PyYaml.contains "Creative" v = Ok cr) \/
                   (exists e, PyYaml.contains "MP" v = Raise e)).
  { destruct v; cbn [PyYaml.contains]; try (right; eexists; reflexivity);
      left; do 3 eexists; repeat split. }
  destruct Hcases as [(mp & sp & cr & -> & -> & ->) | (e & ->)]; [| exact Hp].
  unfold mode_consistent in *.
  destruct mp, sp, cr; cbn; intuition auto.
Qed.

Lemma for_each_option_set_consistent (l : list yaml) (p : Loader.preview) :
  mode_consistent p -> mode_consistent (fst (Loader.for_each_option_set l p)).
Proof.
  revert p. induction l as [|o l IH]; intros p Hp; [exact Hp |].
  cbn [Loader.for_each_option_set]. unfold Loader.se_bind.
  pose proof (apply_option_set_consistent o p Hp) as H1.
  destruct (Loader.apply_option_set o p) as [p' [[] | e]]; cbn [fst] in *.
  - now apply IH.
  - exact H1.
Qed.

Lemma read_game_options_consistent (fs : FS) (d : string) (p : Loader.preview) :
  mode_consistent p -> mode_consistent (fst (Loader.read_game_options fs d p)).
Proof.
  intros Hp. unfold Loader.read_game_options.
  destruct (PyYaml.truthy _); [| exact Hp].
  unfold Loader.se_bind, Loader.se_lift, Loader.se_ret.
  destruct (PyYaml.contains "Options" _) as [[|] | e]; cbn [fst]; try exact Hp.
  destruct (PyYaml.getitem _ "Options") as [v | e]; cbn [fst]; try exact Hp.
  destruct (PyYaml.iterate v) as [l | e]; cbn [fst]; try exact Hp.
  now apply for_each_option_set_consistent.
Qed.

(** Whatever [gameoptions.yaml] holds, and wherever the scan of its option
    groups stops, the preview that [get_scenario_preview] returns carries one
    of the three game modes, ['Unknown'] only together with
    [multiplayer_ready = False] and ['Multiplayer'] only together with
    [multiplayer_ready = True]. *)
Theorem preview_mode_consistent (L : Loader.ScenarioLoader) (fs : FS) (d : string)
  (pv : Loader.preview) :
  Loader.get_scenario_preview L fs d = Ok pv -> mode_consistent pv.
Proof.
  unfold Loader.get_scenario_preview. intros H.
  apply bind_Ok_inv in H as (valid & _ & H).
  destruct (negb valid); [discriminate |]. injection H as <-. cbv zeta.
  apply read_game_options_consistent.
  set (p0 := {| Loader.name := PosixPath.basename d; Loader.path := d;
                Loader.description := ""; Loader.preview_image := None;
                Loader.game_mode := "Unknown"; Loader.multiplayer_ready := false |}).
  destruct (find_preview_image_modes fs d ["jpg"; "png"] (Loader.read_description fs d p0))
    as [A1 A2].
  destruct (read_description_modes fs d p0) as [B1 B2].
  rewrite B1 in A1. rewrite B2 in A2. left. split; [exact A1 | exact A2].
Qed.

Lemma preview_mode_consistent_witness :
  mode_consistent
    {| Loader.name := "Default"; Loader.path := "/home/alice/scenarios/Default";
       Loader.description := "A quiet starter system"; Loader.preview_image := None;
       Loader.game_mode := "Multiplayer"; Loader.multiplayer_ready := true |}.
Proof.
  exact (preview_mode_consistent Loader.default_loader Examples.fs_minimal
           "/home/alice/scenarios/Default" _ eq_refl).
Defined.

(** When [gameoptions.yaml] cannot be parsed, parses to an empty document, or
    parses to a mapping without an [Options] key, the preview of a valid
    scenario keeps the defaults: game mode ['Unknown'], not multiplayer
    ready. *)
Theorem preview_defaults_without_options (L : Loader.ScenarioLoader) (fs : FS) (d : string) :
  Loader.is_valid_scenario L fs (PyStr d) = Ok true ->
  (exists e, safe_load fs (PosixPath.join d "gameoptions.yaml") = Raise e) \/
  (exists doc, safe_load fs (PosixPath.join d "gameoptions.yaml") = Ok doc /\
               (PyYaml.truthy doc = false \/ PyYaml.contains "Options" doc = Ok false)) ->
  exists pv,
    Loader.get_scenario_preview L fs d = Ok pv /\
    Loader.game_mode pv = "Unknown" /\ Loader.multiplayer_ready pv = false.
Proof.
  intros Hv Hdoc. unfold Loader.get_scenario_preview. rewrite Hv. cbn [bind negb].
  eexists. split; [reflexivity |]. cbv zeta.
  set (p0 := {| Loader.name := PosixPath.basename d; Loader.path := d;
                Loader.description := ""; Loader.preview_image := None;
                Loader.game_mode := "Unknown"; Loader.multiplayer_ready := false |}).
  set (p2 := Loader.find_preview_image fs d ["jpg"; "png"] (Loader.read_description fs d p0)).
  assert (Hrun : fst (Loader.read_game_options fs d p2) = p2).
  { unfold Loader.read_game_options, Loader._load_yaml_file.
    destruct Hdoc as [(e & ->) | (doc & -> & [Hf | Hno])].
    - reflexivity.
    - now rewrite Hf.
    - destruct (PyYaml.truthy doc); [| reflexivity].
      unfold Loader.se_bind, Loader.se_lift. now rewrite Hno. }
  rewrite Hrun. subst p2.
  destruct (find_preview_image_modes fs d ["jpg"; "png"] (Loader.read_description fs d p0))
    as [A1 A2].
  destruct (read_description_modes fs d p0) as [B1 B2].
  rewrite A1, A2, B1, B2. split; reflexivity.
Qed.

Lemma preview_defaults_without_options_witness :
  exists pv,
    Loader.get_scenario_preview Loader.default_loader Examples.fs_unparsable_options
      "/home/alice/scenarios/Default" = Ok pv /\
    Loader.game_mode pv = "Unknown" /\ Loader.multiplayer_ready pv = false.
Proof.
  apply (preview_defaults_without_options Loader.default_loader
           Examples.fs_unparsable_options "/home/alice/scenarios/Default" eq_refl).
  left. eexists. reflexivity.
Defined.

(** ** Loading a scenario *)

(** [get_scenario_preview] and [load_scenario] succeed exactly on the
    directories [is_valid_scenario] accepts, and the only exception that
    leaves them is the [ValueError] naming the directory; the metadata of a
    loaded scenario is the preview [get_scenario_preview] returns, and its
    structure what [_analyze_scenario_structure] returns. *)
Theorem scenario_loading_outcome (env : Env) (L : Loader.ScenarioLoader) (fs : FS)
  (d : string) :
  (Loader.is_valid_scenario L fs (PyStr d) = Ok true /\
   exists pv doc,
     Loader.get_scenario_preview L fs d = Ok pv /\
     Loader.load_scenario env L fs d = Ok doc /\
     Loader.metadata doc = pv /\
     Loader.scenario_structure doc = Loader._analyze_scenario_structure env fs d) \/
  (Loader.is_valid_scenario L fs (PyStr d) = Ok false /\
   Loader.get_scenario_preview L fs d
   = Raise (ValueError ("Invalid scenario directory: " ++ d)) /\
   Loader.load_scenario env L fs d
   = Raise (ValueError ("Invalid scenario directory: " ++ d))).
Proof.
  destruct (is_valid_scenario_str_returns L fs d) as [[|] Hv].
  - left. split; [exact Hv |].
    destruct (get_scenario_preview_of_valid L fs d Hv) as (pv & Hpv & _).
    exists pv. eexists. split; [exact Hpv |].
    unfold Loader.load_scenario. rewrite Hv. cbn [bind negb]. rewrite Hpv. cbn [bind].
    split; [reflexivity |]. split; reflexivity.
  - right. split; [exact Hv |].
    unfold Loader.load_scenario, Loader.get_scenario_preview. rewrite Hv.
    split; reflexivity.
Qed.

Lemma load_scenario_Ok_inv (env : Env) (L : Loader.ScenarioLoader) (fs : FS) (d : string)
  (doc : Loader.scenario_data) :
  Loader.load_scenario env L fs d = Ok doc ->
  Loader.is_valid_scenario L fs (PyStr d) = Ok true /\
  Loader.loaded_files doc
  = fold_left (Loader.load_config_file fs d) Loader.config_files [].
Proof.
  unfold Loader.load_scenario. intros H.
  apply bind_Ok_inv in H as (valid & Hv & H).
  destruct valid; cbn [negb] in H; [| discriminate].
  apply bind_Ok_inv in H as (m & _ & H). injection H as <-.
  split; [exact Hv | reflexivity].
Qed.

(** The [files] mapping of a loaded scenario. Its keys are the display names
    of the configuration files that exist in the directory, in the order of
    [config_files]; the entry of each has type ['yaml'], carries the relative
    path of the file and, as content, what [_load_yaml_file] returns for it.
    With the loader's own list of required files, the ['Game Options'] entry
    is always there. *)
Theorem load_scenario_files (env : Env) (max_size : Z) (fs : FS) (d : string)
  (doc : Loader.scenario_data) :
  Loader.load_scenario env (Loader.ScenarioLoader_init max_size) fs d = Ok doc ->
  map fst (Loader.loaded_files doc)
  = map snd (filter (fun item => exists_ fs (PosixPath.join d (fst item)))
               Loader.config_files) /\
  (forall file_path file_name,
     In (file_path, file_name) Loader.config_files ->
     Loader.dict_lookup (Loader.loaded_files doc) file_name
     = if exists_ fs (PosixPath.join d file_path)
       then Some (Loader.YamlEntry file_path
                    (Loader._load_yaml_file fs (PosixPath.join d file_path)))
       else None) /\
  Loader.dict_lookup (Loader.loaded_files doc) "Game Options"
  = Some (Loader.YamlEntry "gameoptions.yaml"
            (Loader._load_yaml_file fs (PosixPath.join d "gameoptions.yaml"))).
Proof.
  intros H. apply load_scenario_Ok_inv in H as (Hv & ->).
  apply is_valid_scenario_true_inv in Hv as (_ & _ & _ & Hall & _).
  destruct (Hall "gameoptions.yaml" (or_introl eq_refl)) as (Hgo & _).
  unfold Loader.config_files. cbn [fold_left filter fst snd].
  unfold Loader.load_config_file. rewrite Hgo.
  split; [| split].
  - destruct (exists_ fs (PosixPath.join d "SolarSystemConfig.yaml"));
      destruct (exists_ fs (PosixPath.join d "RandomPresets/SolarSystemConfig.yaml"));
      reflexivity.
  - intros file_path file_name [E | [E | [E | []]]]; injection E as <- <-;
      try rewrite Hgo;
      destruct (exists_ fs (PosixPath.join d "SolarSystemConfig.yaml"));
      destruct (exists_ fs (PosixPath.join d "RandomPresets/SolarSystemConfig.yaml"));
      reflexivity.
  - destruct (exists_ fs (PosixPath.join d "SolarSystemConfig.yaml"));
      destruct (exists_ fs (PosixPath.join d "RandomPresets/SolarSystemConfig.yaml"));
      reflexivity.
Qed.

Lemma load_scenario_files_witness :
  exists doc,
    Loader.load_scenario Examples.env_alice Loader.default_loader
      Examples.fs_corrupted_solar "/home/alice/scenarios/Default" = Ok doc /\
    map fst (Loader.loaded_files doc) = ["Game Options"; "Solar System Config"].
Proof.
  eexists. split; [vm_compute; reflexivity |].
  exact (proj1 (load_scenario_files Examples.env_alice (10 * 1024 * 1024)
                  Examples.fs_corrupted_solar "/home/alice/scenarios/Default" _ eq_refl)).
Defined.

(** ** The structure of a scenario directory *)

Lemma relpath_self (env : Env) (d a : string) :
  Py.truthy d = true -> PosixPath.abspath env d = Ok a -> Loader.relpath env d d = Ok ".".
Proof.
  intros Hd Ha. unfold Loader.relpath. rewrite Hd, Ha. cbn [negb bind].
  rewrite common_loop_min_max, lcp_refl. cbn [bind].
  rewrite Nat.sub_diag, skipn_all. reflexivity.
Qed.

Lemma analyze_step_grows (env : Env) (d : string) (st st' : Loader.structure)
  (entry : string * list string * list string) :
  Loader.analyze_step env d st entry = Ok st' -> structure_grows [entry] st st'.
Proof.
  destruct entry as [[root dirs] fnames]. unfold Loader.analyze_step.
  destruct (Loader.relpath env root d) as [rel | e]; cbn [bind]; [| discriminate].
  set (st1 := if rel =? "." then _ else _).
  assert (Hflags : Loader.has_content st1 = Loader.has_content st /\
                   Loader.has_custom_configs st1 = Loader.has_custom_configs st).
  { subst st1. destruct (rel =? "."); split; reflexivity. }
  assert (Hfiles : exists more,
            Loader.files st1 = (Loader.files st ++ more)%list /\
            forall f, In f more ->
              exists root0 dirs0 fnames0,
                In (root0, dirs0, fnames0) [(root, dirs, fnames)] /\ In f fnames0).
  { subst st1. destruct (rel =? ".").
    - exists fnames. split; [reflexivity |]. intros f Hf.
      exists root, dirs, fnames. split; [now left | exact Hf].
    - exists []. split; [cbn [Loader.files]; now rewrite app_nil_r | intros f []]. }
  assert (Hdirs : exists more,
            Loader.directories st1 = (Loader.directories st ++ more)%list /\
            Py.mem "." more = false /\
            List.length more <= List.length [(root, dirs, fnames)]).
  { subst st1. destruct (rel =? ".") eqn:Hrel.
    - exists []. split; [cbn [Loader.directories]; now rewrite app_nil_r |].
      split; [reflexivity | cbn; lia].
    - exists [rel]. split; [reflexivity |]. split; [| cbn; lia].
      unfold Py.mem. cbn [existsb]. now rewrite String.eqb_sym, Hrel. }
  destruct Hflags as [Hcontent Hcustom].
  clearbody st1.
  destruct (Py.contains "Playfields" rel);
    [| destruct (Py.contains "Prefabs" rel);
       [| destruct (Py.contains "Content" rel)]];
    intros H; injection H as <-; unfold structure_grows;
    cbn [Loader.has_content Loader.has_custom_configs Loader.files Loader.directories];
    rewrite ?Hcontent, ?Hcustom;
    (split; [| split; [| split; [exact Hfiles | exact Hdirs]]]); auto.
Qed.

Lemma structure_grows_trans (e : string * list string * list string)
  (rest : list (string * list string * list string)) (st0 st1 st2 : Loader.structure) :
  structure_grows [e] st0 st1 -> structure_grows rest st1 st2 ->
  structure_grows (e :: rest) st0 st2.
Proof.
  intros (C1 & K1 & (mf1 & F1 & S1) & (md1 & D1 & N1 & L1))
         (C2 & K2 & (mf2 & F2 & S2) & (md2 & D2 & N2 & L2)).
  split; [| split; [| split]].
  - intros H. destruct (C2 H) as [H1 | H2]; [| now right].
    destruct (C1 H1) as [H0 | H0]; [now left | right; now apply K2].
  - intros H. now apply K2, K1.
  - exists (mf1 ++ mf2)%list. split; [now rewrite F2, F1, app_assoc |].
    intros f Hf. apply in_app_or in Hf as [Hf | Hf].
    + destruct (S1 f Hf) as (r & ds & fs0 & [Hin | []] & Hf0).
      exists r, ds, fs0. split; [now left | exact Hf0].
    + destruct (S2 f Hf) as (r & ds & fs0 & Hin & Hf0).
      exists r, ds, fs0. split; [now right | exact Hf0].
  - exists (md1 ++ md2)%list. split; [now rewrite D2, D1, app_assoc |]. split.
    + unfold Py.mem in *. rewrite existsb_app, N1, N2. reflexivity.
    + rewrite length_app. cbn [List.length] in *. lia.
Qed.

Lemma structure_grows_refl (st : Loader.structure) : structure_grows [] st st.
Proof.
  split; [auto |]. split; [auto |]. split.
  - exists []. split; [now rewrite app_nil_r | intros f []].
  - exists []. split; [now rewrite app_nil_r |]. split; [reflexivity | cbn; lia].
Qed.

Lemma structure_grows_weaken (e : string * list string * list string)
  (rest : list (string * list string * list string)) (st : Loader.structure) :
  structure_grows (e :: rest) st st.
Proof.
  split; [auto |]. split; [auto |]. split.
  - exists []. split; [now rewrite app_nil_r | intros f []].
  - exists []. split; [now rewrite app_nil_r |]. split; [reflexivity | cbn; lia].
Qed.

Lemma analyze_loop_grows (env : Env) (d : string)
  (entries : list (string * list string * list string)) (st : Loader.structure) :
  structure_grows entries st (Loader.analyze_loop env d st entries).
Proof.
  revert st. induction entries as [|e entries IH]; intros st.
  - apply structure_grows_refl.
  - cbn [Loader.analyze_loop].
    destruct (Loader.analyze_step env d st e) as [st' | err] eqn:Hstep.
    + eapply structure_grows_trans; [exact (analyze_step_grows env d st st' e Hstep) | apply IH].
    + apply structure_grows_weaken.
Qed.

(** Invariants of [_analyze_scenario_structure], whatever the walk yields and
    wherever it stops: custom configurations are reported only together with
    content; the top directory itself is never listed among the directories;
    there is at most one directory entry per triple walked; and every file
    listed is a file of some triple walked. *)
Theorem structure_invariants (env : Env) (fs : FS) (d : string) :
  (Loader.has_custom_configs (Loader._analyze_scenario_structure env fs d) = true ->
   Loader.has_content (Loader._analyze_scenario_structure env fs d) = true) /\
  Py.mem "." (Loader.directories (Loader._analyze_scenario_structure env fs d)) = false /\
  List.length (Loader.directories (Loader._analyze_scenario_structure env fs d))
  <= List.length (fst (walk fs d)) /\
  (forall f, In f (Loader.files (Loader._analyze_scenario_structure env fs d)) ->
     exists root dirs fnames, In (root, dirs, fnames) (fst (walk fs d)) /\ In f fnames).
Proof.
  unfold Loader._analyze_scenario_structure.
  set (st0 := {| Loader.directories := []; Loader.files := []; Loader.playfields_count := 0;
                 Loader.prefabs_count := 0; Loader.has_content := false;
                 Loader.has_custom_configs := false |}).
  destruct (analyze_loop_grows env d (fst (walk fs d)) st0)
    as (C & _ & (mf & F & S) & (md & D & N & Len)).
  cbn [Loader.files Loader.directories Loader.has_custom_configs st0 app] in *.
  split; [| split; [| split]].
  - intros H. destruct (C H) as [H0 | H0]; [discriminate | exact H0].
  - now rewrite D.
  - now rewrite D.
  - intros f Hf. rewrite F in Hf. now apply S.
Qed.

(** The files of the scenario directory itself come first in the [files] of
    the structure: when the path is not empty and can be made absolute, and
    the walk starts, as [os.walk] does, with the triple of the directory
    itself, the names of that triple open the list. *)
Theorem top_level_files_listed (env : Env) (fs : FS) (d a : string)
  (dirs fnames : list string) (rest : list (string * list string * list string)) :
  Py.truthy d = true ->
  PosixPath.abspath env d = Ok a ->
  fst (walk fs d) = (d, dirs, fnames) :: rest ->
  exists more,
    Loader.files (Loader._analyze_scenario_structure env fs d) = (fnames ++ more)%list.
Proof.
  intros Hd Ha Hwalk. unfold Loader._analyze_scenario_structure. rewrite Hwalk.
  cbn [Loader.analyze_loop]. unfold Loader.analyze_step.
  rewrite (relpath_self env d a Hd Ha). cbn [bind].
  change ("." =? ".") with true. change (Py.contains "Playfields" ".") with false.
  change (Py.contains "Prefabs" ".") with false. change (Py.contains "Content" ".") with false.
  cbv iota.
  match goal with
  | |- context [Loader.analyze_loop env d ?st rest] =>
      destruct (analyze_loop_grows env d rest st) as (_ & _ & (mf & F & _) & _)
  end.
  exists mf. rewrite F. reflexivity.
Qed.

Lemma top_level_files_listed_witness :
  exists more,
    Loader.files (Loader._analyze_scenario_structure Examples.env_alice Examples.fs_full
                    "/home/alice/scenarios/Default")
    = (["gameoptions.yaml"; "description.txt"; "preview.jpg"; "preview.png"] ++ more)%list.
Proof.
  exact (top_level_files_listed Examples.env_alice Examples.fs_full
           "/home/alice/scenarios/Default" "/home/alice/scenarios/Default"
           ["Content"; "Playfields"; "Prefabs"]
           ["gameoptions.yaml"; "description.txt"; "preview.jpg"; "preview.png"]
           _ eq_refl eq_refl eq_refl).
Defined.

(** ** Required parameters and the scenario endpoint *)

(** [require_params] passes exactly when every value is acceptable;
    otherwise it raises the [ValidationError] of the first value it refuses
    (the values before it being acceptable), which [create_error_response]
    turns into a response with status 400, the error code
    ['ValidationError'] and the user message naming the parameter and the
    reason. *)
Theorem require_params_outcome (required_params : list (string * pyval)) :
  (forallb (fun kv => acceptable_param (snd kv)) required_params = true /\
   require_params required_params = Ok tt) \/
  (exists before name v after,
     required_params = (before ++ (name, v) :: after)%list /\
     forallb (fun kv => acceptable_param (snd kv)) before = true /\
     acceptable_param v = false /\
     require_params required_params
     = Raise (new_ValidationError name (fst (refusal_of v)) (snd (refusal_of v))) /\
     Exceptions.create_error_response
       (new_ValidationError name (fst (refusal_of v)) (snd (refusal_of v)))
     = ({| Exceptions.error_code := "ValidationError";
           Exceptions.message :=
             "Validation failed for '" ++ name ++ "' with value '" ++ fst (refusal_of v)
             ++ "': " ++ snd (refusal_of v);
           Exceptions.user_message := "Invalid " ++ name ++ ": " ++ snd (refusal_of v) |},
        400%Z)).
Proof.
  induction required_params as [|[name v] ps IH].
  - left. split; reflexivity.
  - destruct (acceptable_param v) eqn:Hv.
    + assert (Hstep : require_params ((name, v) :: ps) = require_params ps).
      { destruct v; cbn [require_params]; try reflexivity; try discriminate.
        cbn [acceptable_param] in Hv. now rewrite Hv. }
      destruct IH as [[Hall Hok] | (before & n & w & after & -> & Hb & Hw & Hr & Hresp)].
      * left. cbn [forallb snd]. rewrite Hv, Hall, Hstep. split; [reflexivity | exact Hok].
      * right. exists ((name, v) :: before), n, w, after.
        split; [reflexivity |]. split; [cbn [forallb snd]; now rewrite Hv, Hb |].
        split; [exact Hw |]. split; [now rewrite Hstep | exact Hresp].
    + right. exists [], name, v, ps.
      split; [reflexivity |]. split; [reflexivity |]. split; [exact Hv |].
      split; [| reflexivity].
      destruct v; cbn [require_params refusal_of fst snd]; try reflexivity;
        try discriminate.
      cbn [acceptable_param] in Hv. now rewrite Hv.
Qed.

Lemma require_path_Ok_inv (path : option string) (u : unit) :
  require_params [("path", match path with Some s => PyStr s | None => PyNone end)] = Ok u ->
  exists s, path = Some s /\ Py.truthy (Py.strip s) = true.
Proof.
  destruct path as [s |]; cbn [require_params]; [| discriminate].
  destruct (Py.truthy (Py.strip s)) eqn:Hs; cbn [negb]; [| discriminate].
  intros _. now exists s.
Qed.

Lemma get_scenario_preview_path (L : Loader.ScenarioLoader) (fs : FS) (d : string)
  (pv : Loader.preview) :
  Loader.get_scenario_preview L fs d = Ok pv -> Loader.path pv = d.
Proof.
  unfold Loader.get_scenario_preview. intros H.
  apply bind_Ok_inv in H as (valid & _ & H).
  destruct (negb valid); [discriminate |]. injection H as <-. cbv zeta.
  set (p0 := {| Loader.name := PosixPath.basename d; Loader.path := d;
                Loader.description := ""; Loader.preview_image := None;
                Loader.game_mode := "Unknown"; Loader.multiplayer_ready := false |}).
  set (p1 := Loader.read_description fs d p0).
  set (p2 := Loader.find_preview_image fs d ["jpg"; "png"] p1).
  destruct (read_game_options_identity fs d p2) as (_ & Hp & _).
  destruct (read_description_image fs d p0) as (Hp1 & _). fold p1 in Hp1.
  change (Loader.path (fst (Loader.read_game_options fs d p2)) = d).
  rewrite Hp. subst p2. cbn [Loader.find_preview_image].
  destruct (exists_ fs _); [exact Hp1 |].
  destruct (exists_ fs _); exact Hp1.
Qed.

(** A scenario served by the endpoint is always a validated one. Whatever
    [jsonify] does, when [load_scenario] of [app.py], behind a validator built
    with an allowed root, answers with scenario data, the status is 200,
    [jsonify] returned for these data, the request carried
    a path that is not blank, [validate_directory_path] accepted it, the
    validated path is absolute and lies within the allowed root component by
    component, [is_valid_scenario] accepted the validated path, and the data
    are what [ScenarioLoader.load_scenario] returns for it, their metadata
    carrying the validated path. *)
Theorem endpoint_serves_validated_scenarios (env : Env) (fs : FS)
  (jsonify : Loader.scenario_data -> result unit) (r : string) (mfs md : Z)
  (v : Security.PathValidator) (L : Loader.ScenarioLoader) (path : option string)
  (doc : Loader.scenario_data) (code : Z) :
  cwd_is_absolute env ->
  Py.truthy r = true ->
  Security.PathValidator_init env (Some r) mfs md = Ok v ->
  App.load_scenario env fs jsonify v L path = (App.ScenarioJson doc, code) ->
  code = 200%Z /\
  jsonify doc = Ok tt /\
  exists s q root,
    path = Some s /\ Py.truthy (Py.strip s) = true /\
    Security.validate_directory_path env fs v s = Ok q /\
    Security.allowed_root v = Some root /\
    PosixPath.isabs q = true /\
    is_prefix (components root) (components q) = true /\
    Loader.is_valid_scenario L fs (PyStr q) = Ok true /\
    Loader.load_scenario env L fs q = Ok doc /\
    Loader.path (Loader.metadata doc) = q.
Proof.
  intros Hcwd Hr Hinit Hrun.
  unfold App.load_scenario, App.handle_api_errors in Hrun.
  destruct (App.load_scenario_view env fs jsonify v L path) as [doc' | e] eqn:Hview.
  2:{ destruct (Exceptions.create_error_response e). discriminate. }
  injection Hrun as <- <-. split; [reflexivity |].
  unfold App.load_scenario_view in Hview.
  apply bind_Ok_inv in Hview as (u & Hreq & Hview).
  apply require_path_Ok_inv in Hreq as (s & -> & Hs).
  apply bind_Ok_inv in Hview as (q & Hval & Hview).
  apply bind_Ok_inv in Hview as (valid & Hvalid & Hview).
  destruct valid; cbn [negb] in Hview; [| discriminate].
  apply bind_Ok_inv in Hview as (doc0 & Hload & Hview).
  apply bind_Ok_inv in Hview as ([] & Hjson & Hview).
  injection Hview as ->. split; [exact Hjson |].
  destruct (init_allowed_root env r mfs md v Hr Hinit) as (root & Hroot & Habs).
  pose proof (validate_directory_path_Ok_inv env fs v s q Hval)
    as (_ & Hres & _ & Hout & _).
  assert (Hcr : canonical root) by exact (abspath_canonical env r root Hcwd Habs).
  assert (Hcq : canonical q) by exact (abspath_canonical env _ q Hcwd Hres).
  exists s, q, root.
  split; [reflexivity |]. split; [exact Hs |]. split; [exact Hval |].
  split; [exact Hroot |]. split; [now apply canonical_isabs |].
  split; [exact (outside_false_within v root q Hroot Hcr Hcq Hout) |].
  split; [exact Hvalid |]. split; [exact Hload |].
  unfold Loader.load_scenario in Hload. rewrite Hvalid in Hload. cbn [bind negb] in Hload.
  apply bind_Ok_inv in Hload as (m & Hm & Hdoc). injection Hdoc as <-.
  cbn [Loader.metadata]. exact (get_scenario_preview_path L fs q m Hm).
Qed.

Lemma endpoint_serves_validated_scenarios_witness :
  exists doc,
    App.load_scenario Examples.env_alice Examples.fs_minimal (fun _ => Ok tt)
      Examples.validator_alice Loader.default_loader (Some "scenarios/Default")
    = (App.ScenarioJson doc, 200%Z) /\
    exists s q root,
      Some "scenarios/Default" = Some s /\ Py.truthy (Py.strip s) = true /\
      Security.validate_directory_path Examples.env_alice Examples.fs_minimal
        Examples.validator_alice s = Ok q /\
      Security.allowed_root Examples.validator_alice = Some root /\
      PosixPath.isabs q = true /\
      is_prefix (components root) (components q) = true /\
      Loader.is_valid_scenario Loader.default_loader Examples.fs_minimal (PyStr q) = Ok true /\
      Loader.load_scenario Examples.env_alice Loader.default_loader Examples.fs_minimal q
      = Ok doc /\
      Loader.path (Loader.metadata doc) = q.
Proof.
  eexists. split; [vm_compute; reflexivity |].
  refine (proj2 (proj2 (endpoint_serves_validated_scenarios Examples.env_alice
                   Examples.fs_minimal (fun _ => Ok tt)
                   "/home/alice" (50 * 1024 * 1024) 20 Examples.validator_alice
                   Loader.default_loader (Some "scenarios/Default") _ 200%Z
                   cwd_is_absolute_alice eq_refl eq_refl _))).
  vm_compute. reflexivity.
Defined.

(** The statuses of the endpoint. Provided [os.getcwd] fails with [OSError]
    only and [os.access] does not raise: a request without a path, or with a
    blank one, is answered with status 400 and the error code
    ['ValidationError']; a path the validator refuses, with status 500, the
    error code ['UnexpectedError'] and the text of the validator's exception
    as message; a validated directory that is not a scenario, with status 500
    and the error code ['UnexpectedError'] as well, the message being that
    the name [InvalidScenarioError] is not defined, since [app.py] does not
    import the exception it means to raise; a validated scenario is loaded,
    and answered with status 200 and the loaded data when [jsonify] returns
    for them, and with the error response of the exception [jsonify] raises
    otherwise. *)
Theorem endpoint_statuses (env : Env) (fs : FS)
  (jsonify : Loader.scenario_data -> result unit) (v : Security.PathValidator)
  (L : Loader.ScenarioLoader) (path : option string) :
  getcwd_raises_OSError env ->
  access_never_raises fs ->
  match path with
  | None =>
      exists d, App.load_scenario env fs jsonify v L path = (App.ErrorJson d, 400%Z) /\
                Exceptions.error_code d = "ValidationError" /\
                Exceptions.user_message d = "Invalid path: is required"
  | Some s =>
      if negb (Py.truthy (Py.strip s)) then
        exists d, App.load_scenario env fs jsonify v L path = (App.ErrorJson d, 400%Z) /\
                  Exceptions.error_code d = "ValidationError" /\
                  Exceptions.user_message d = "Invalid path: cannot be empty"
      else
        match Security.validate_directory_path env fs v s with
        | Raise e =>
            App.load_scenario env fs jsonify v L path
            = (App.ErrorJson {| Exceptions.error_code := "UnexpectedError";
                                Exceptions.message := exn_str e;
                                Exceptions.user_message := "An unexpected error occurred" |},
               500%Z)
        | Ok q =>
            (Loader.is_valid_scenario L fs (PyStr q) = Ok false /\
             App.load_scenario env fs jsonify v L path
             = (App.ErrorJson
                  {| Exceptions.error_code := "UnexpectedError";
                     Exceptions.message := "name 'InvalidScenarioError' is not defined";
                     Exceptions.user_message := "An unexpected error occurred" |},
                500%Z)) \/
            (Loader.is_valid_scenario L fs (PyStr q) = Ok true /\
             exists doc,
               Loader.load_scenario env L fs q = Ok doc /\
               App.load_scenario env fs jsonify v L path
               = match jsonify doc with
                 | Ok _ => (App.ScenarioJson doc, 200%Z)
                 | Raise e =>
                     (App.ErrorJson (fst (Exceptions.create_error_response e)),
                      snd (Exceptions.create_error_response e))
                 end)
        end
  end.
Proof.
  intros Hcwd Hacc. unfold App.load_scenario, App.load_scenario_view.
  destruct path as [s |].
  2:{ eexists. split; [reflexivity |]. split; reflexivity. }
  cbn [require_params].
  destruct (negb (Py.truthy (Py.strip s))).
  { eexists. split; [reflexivity |]. split; reflexivity. }
  cbn [bind].
  destruct (Security.validate_directory_path env fs v s) as [q | e] eqn:Hval; cbn [bind].
  - destruct (is_valid_scenario_str_returns L fs q) as [[|] Hv]; rewrite Hv;
      cbn [bind negb].
    + right. split; [reflexivity |].
      destruct (get_scenario_preview_of_valid L fs q Hv) as (pv & Hpv & _).
      unfold Loader.load_scenario. rewrite Hv. cbn [bind negb]. rewrite Hpv.
      cbn [bind]. eexists. split; [reflexivity |].
      destruct (jsonify _) as [u | e]; cbn [bind App.handle_api_errors]; [reflexivity |].
      now destruct (Exceptions.create_error_response e).
    + left. split; reflexivity.
  - pose proof (validate_directory_path_raises env fs v s e Hcwd Hacc Hval) as Hdoc.
    destruct e; try discriminate; reflexivity.
Qed.

Lemma endpoint_statuses_witness :
  (Loader.is_valid_scenario Loader.default_loader Examples.fs_minimal (PyStr "/home/alice")
   = Ok false /\
   App.load_scenario Examples.env_alice Examples.fs_minimal (fun _ => Ok tt)
     Examples.validator_alice Loader.default_loader (Some "/home/alice")
   = (App.ErrorJson
        {| Exceptions.error_code := "UnexpectedError";
           Exceptions.message := "name 'InvalidScenarioError' is not defined";
           Exceptions.user_message := "An unexpected error occurred" |},
      500%Z)) \/
  (Loader.is_valid_scenario Loader.default_loader Examples.fs_minimal (PyStr "/home/alice")
   = Ok true /\
   exists doc,
     Loader.load_scenario Examples.env_alice Loader.default_loader Examples.fs_minimal
       "/home/alice" = Ok doc /\
     App.load_scenario Examples.env_alice Examples.fs_minimal (fun _ => Ok tt)
       Examples.validator_alice Loader.default_loader (Some "/home/alice")
     = (App.ScenarioJson doc, 200%Z)).
Proof.
  exact (endpoint_statuses Examples.env_alice Examples.fs_minimal (fun _ => Ok tt)
           Examples.validator_alice Loader.default_loader (Some "/home/alice")
           getcwd_raises_OSError_alice access_never_raises_minimal).
Defined.

(** ** Facts about stripping and filtering strings *)

Lemma string_forall_app (p : ascii -> bool) (a b : string) :
  string_forall p (a ++ b) = string_forall p a && string_forall p b.
Proof.
  induction a as [|c a IH]; [reflexivity |].
  cbn [append string_forall]. now rewrite IH, andb_assoc.
Qed.

Lemma all_printable_forall (s : string) :
  all_printable s = string_forall (fun c => (32 <=? Py.ord c)%N) s.
Proof. induction s as [|c s IH]; [reflexivity |]. cbn. now rewrite IH. Qed.

Lemma string_forall_lstrip_ws (p : ascii -> bool) (s : string) :
  string_forall p s = true -> string_forall p (Py.lstrip_ws s) = true.
Proof.
  induction s as [|c s IH]; [auto |]. intros H. cbn [Py.lstrip_ws].
  destruct (Py.isspace c); [| exact H].
  cbn [string_forall] in H. apply andb_true_iff in H as [_ H]. now apply IH.
Qed.

Lemma string_forall_rstrip_ws (p : ascii -> bool) (s : string) :
  string_forall p s = true -> string_forall p (Py.rstrip_ws s) = true.
Proof.
  induction s as [|c s IH]; [auto |]. intros H.
  cbn [string_forall] in H. apply andb_true_iff in H as [Hc H].
  specialize (IH H). cbn [Py.rstrip_ws].
  destruct (Py.rstrip_ws s) as [|d r].
  - destruct (Py.isspace c); [reflexivity |]. cbn [string_forall]. now rewrite Hc.
  - cbn [string_forall] in *. now rewrite Hc, IH.
Qed.

Lemma string_forall_strip (p : ascii -> bool) (s : string) :
  string_forall p s = true -> string_forall p (Py.strip s) = true.
Proof. intros H. now apply string_forall_rstrip_ws, string_forall_lstrip_ws. Qed.

Lemma string_forall_take (p : ascii -> bool) (n : nat) (s : string) :
  string_forall p s = true -> string_forall p (Py.take n s) = true.
Proof.
  revert s. induction n as [|n IH]; intros [|c s] H; try reflexivity.
  cbn [Py.take string_forall] in *. apply andb_true_iff in H as [Hc H].
  now rewrite Hc, IH.
Qed.

Lemma string_forall_drop_control_chars (p : ascii -> bool) (s : string) :
  string_forall p s = true -> string_forall p (Security.drop_control_chars s) = true.
Proof.
  induction s as [|c s IH]; [auto |]. intros H.
  cbn [string_forall] in H. apply andb_true_iff in H as [Hc H].
  cbn [Security.drop_control_chars]. destruct (32 <=? Py.ord c)%N; [| now apply IH].
  cbn [string_forall]. now rewrite Hc, IH.
Qed.

Lemma length_lstrip_ws (s : string) : String.length (Py.lstrip_ws s) <= String.length s.
Proof.
  induction s as [|c s IH]; [auto |]. cbn [Py.lstrip_ws].
  destruct (Py.isspace c); cbn [String.length]; lia.
Qed.

Lemma length_rstrip_ws (s : string) : String.length (Py.rstrip_ws s) <= String.length s.
Proof.
  induction s as [|c s IH]; [auto |]. cbn [Py.rstrip_ws].
  destruct (Py.rstrip_ws s) as [|d r].
  - destruct (Py.isspace c); cbn [String.length]; lia.
  - cbn [String.length] in *. lia.
Qed.

Lemma length_strip (s : string) : String.length (Py.strip s) <= String.length s.
Proof.
  unfold Py.strip. pose proof (length_rstrip_ws (Py.lstrip_ws s)).
  pose proof (length_lstrip_ws s). lia.
Qed.

Lemma length_take (n : nat) (s : string) : String.length (Py.take n s) <= n.
Proof.
  revert s. induction n as [|n IH]; intros [|c s]; cbn [Py.take String.length]; try lia.
  specialize (IH s). lia.
Qed.

Lemma lstrip_ws_starts (s : string) : starts_nonspace (Py.lstrip_ws s) = true.
Proof.
  induction s as [|c s IH]; [reflexivity |]. cbn [Py.lstrip_ws].
  destruct (Py.isspace c) eqn:Hc; [exact IH |]. cbn [starts_nonspace]. now rewrite Hc.
Qed.

Lemma lstrip_ws_id (s : string) : starts_nonspace s = true -> Py.lstrip_ws s = s.
Proof.
  destruct s as [|c s]; [reflexivity |]. cbn [starts_nonspace Py.lstrip_ws].
  now destruct (Py.isspace c).
Qed.

Lemma rstrip_ws_starts (s : string) :
  starts_nonspace s = true -> starts_nonspace (Py.rstrip_ws s) = true.
Proof.
  destruct s as [|c s]; [reflexivity |]. cbn [starts_nonspace Py.rstrip_ws].
  intros Hc. apply negb_true_iff in Hc. destruct (Py.rstrip_ws s).
  - rewrite Hc. cbn [starts_nonspace]. now rewrite Hc.
  - cbn [starts_nonspace]. now rewrite Hc.
Qed.

Lemma rstrip_ws_idempotent (s : string) : Py.rstrip_ws (Py.rstrip_ws s) = Py.rstrip_ws s.
Proof.
  induction s as [|c s IH]; [reflexivity |]. cbn [Py.rstrip_ws].
  destruct (Py.rstrip_ws s) as [|d r] eqn:Hr.
  - destruct (Py.isspace c) eqn:Hc; [reflexivity |].
    cbn [Py.rstrip_ws]. now rewrite Hc.
  - change (Py.rstrip_ws (String c (String d r))) with
      (match Py.rstrip_ws (String d r) with
       | EmptyString => if Py.isspace c then EmptyString else String c EmptyString
       | x => String c x
       end).
    now rewrite IH.
Qed.

Lemma strip_idempotent (s : string) : Py.strip (Py.strip s) = Py.strip s.
Proof.
  unfold Py.strip.
  rewrite (lstrip_ws_id (Py.rstrip_ws (Py.lstrip_ws s)))
    by apply rstrip_ws_starts, lstrip_ws_starts.
  apply rstrip_ws_idempotent.
Qed.

(** ** File names *)

Lemma drop_dangerous_chars_free (s : string) :
  string_forall (fun c => negb (InputSanitizer.is_dangerous c))
    (InputSanitizer.drop_dangerous_chars s) = true.
Proof.
  induction s as [|c s IH]; [reflexivity |]. cbn [InputSanitizer.drop_dangerous_chars].
  destruct (InputSanitizer.is_dangerous c) eqn:Hc; [exact IH |].
  cbn [string_forall]. now rewrite Hc, IH.
Qed.

Lemma drop_dangerous_chars_id (s : string) :
  string_forall (fun c => negb (InputSanitizer.is_dangerous c)) s = true ->
  InputSanitizer.drop_dangerous_chars s = s.
Proof.
  induction s as [|c s IH]; [reflexivity |]. cbn [string_forall]. intros H.
  apply andb_true_iff in H as [Hc H]. cbn [InputSanitizer.drop_dangerous_chars].
  apply negb_true_iff in Hc. now rewrite Hc, IH.
Qed.

Lemma not_dangerous_not_slash (c : ascii) :
  InputSanitizer.is_dangerous c = false -> Ascii.eqb c "/" = false.
Proof.
  unfold InputSanitizer.is_dangerous, InputSanitizer.dangerous_chars. cbn [existsb].
  intros H. repeat (apply orb_false_iff in H as [? H]). assumption.
Qed.

Lemma free_of_slash (s : string) :
  string_forall (fun c => negb (InputSanitizer.is_dangerous c)) s = true ->
  string_forall (fun c => negb (Ascii.eqb c "/")) s = true.
Proof.
  induction s as [|c s IH]; [reflexivity |]. cbn [string_forall]. intros H.
  apply andb_true_iff in H as [Hc H]. apply negb_true_iff in Hc.
  now rewrite (not_dangerous_not_slash c Hc), IH.
Qed.

Lemma contains_slash_false (s : string) :
  string_forall (fun c => negb (Ascii.eqb c "/")) s = true -> Py.contains "/" s = false.
Proof.
  induction s as [|c s IH]; [reflexivity |]. cbn [string_forall]. intros H.
  apply andb_true_iff in H as [Hc H]. apply negb_true_iff in Hc.
  cbn [Py.contains Py.startswith]. rewrite Ascii.eqb_sym, Hc, (IH H). reflexivity.
Qed.

Lemma every_char_complete (c : ascii) : In c every_char.
Proof.
  unfold every_char. rewrite <- (ascii_nat_embedding c). apply in_map, in_seq.
  pose proof (nat_ascii_bounded c). lia.
Qed.

Lemma code_points_eqb_eq (a b : list N) :
  InputSanitizer.code_points_eqb a b = true <-> a = b.
Proof.
  revert b. induction a as [|x a IH]; intros [|y b]; cbn [InputSanitizer.code_points_eqb];
    try (split; [reflexivity | reflexivity]); try (split; discriminate).
  rewrite andb_true_iff, N.eqb_eq, IH. split; [intros [-> ->]; reflexivity |].
  intros H. injection H as -> ->. auto.
Qed.

Lemma upper_char_of_fold_table :
  forallb (fun k =>
    forallb (fun c =>
      implb (is_capital_or_digit k && Ascii.eqb (ascii_fold_char c) (ascii_fold_char k))
            (InputSanitizer.code_points_eqb (InputSanitizer.upper_char c) [Py.ord k]))
      every_char) every_char = true.
Proof. vm_compute. reflexivity. Qed.

(** A character equal, up to ASCII letter case, to a capital or a digit has
    that capital or digit as its upper case. *)
Lemma upper_char_of_fold (c k : ascii) :
  is_capital_or_digit k = true -> ascii_fold_char c = ascii_fold_char k ->
  InputSanitizer.upper_char c = [Py.ord k].
Proof.
  intros Hk Hf. pose proof upper_char_of_fold_table as T.
  rewrite forallb_forall in T. specialize (T k (every_char_complete k)).
  rewrite forallb_forall in T. specialize (T c (every_char_complete c)).
  rewrite Hk, Hf, Ascii.eqb_refl in T. cbn [andb implb] in T.
  now apply code_points_eqb_eq.
Qed.

Lemma upper_of_fold (s name : string) :
  string_forall is_capital_or_digit name = true ->
  same_upto_ascii_case s name ->
  InputSanitizer.upper s = InputSanitizer.code_points name.
Proof.
  unfold same_upto_ascii_case. revert name.
  induction s as [|c s IH]; intros [|k name] Hn Hf; try reflexivity; try discriminate.
  cbn [string_forall] in Hn. apply andb_true_iff in Hn as [Hk Hn].
  cbn [ascii_fold] in Hf. injection Hf as Hc Hf.
  cbn [InputSanitizer.upper InputSanitizer.code_points].
  now rewrite (upper_char_of_fold c k Hk Hc), (IH name Hn Hf).
Qed.

Lemma reserved_names_capital :
  forallb (string_forall is_capital_or_digit) InputSanitizer.reserved_names = true.
Proof. vm_compute. reflexivity. Qed.

(** A name equal to a reserved one up to ASCII letter case is reserved. *)
Lemma is_reserved_of_fold (s name : string) :
  In name InputSanitizer.reserved_names -> same_upto_ascii_case s name ->
  InputSanitizer.is_reserved s = true.
Proof.
  intros Hin Hf. unfold InputSanitizer.is_reserved. apply existsb_exists.
  exists name. split; [exact Hin |]. apply code_points_eqb_eq.
  apply upper_of_fold; [| exact Hf].
  pose proof reserved_names_capital as T. rewrite forallb_forall in T. now apply T.
Qed.

Lemma sanitize_filename_Ok_inv (filename : string) (max_length : Z) (r : string) :
  InputSanitizer.sanitize_filename filename max_length = Ok r ->
  r = Py.strip (Security.drop_control_chars (InputSanitizer.drop_dangerous_chars filename)) /\
  (Z.of_nat (String.length r) <= max_length)%Z /\
  Py.truthy r = true /\
  InputSanitizer.is_reserved r = false.
Proof.
  unfold InputSanitizer.sanitize_filename.
  destruct (negb (Py.truthy filename)); [discriminate |]. cbv zeta.
  set (s := Py.strip _).
  destruct (max_length <? Z.of_nat (String.length s))%Z eqn:Hlen; [discriminate |].
  destruct (Py.truthy s) eqn:Ht; cbn [negb]; [| discriminate].
  destruct (InputSanitizer.is_reserved s) eqn:Hres; [discriminate |].
  intros H. injection H as <-. apply Z.ltb_ge in Hlen. auto.
Qed.

Lemma sanitized_filename_shape (filename : string) (max_length : Z) (r : string) :
  InputSanitizer.sanitize_filename filename max_length = Ok r ->
  string_forall (fun c => negb (InputSanitizer.is_dangerous c)) r = true /\
  all_printable r = true /\
  Py.strip r = r.
Proof.
  intros H. apply sanitize_filename_Ok_inv in H as (-> & _).
  split; [| split].
  - apply string_forall_strip, string_forall_drop_control_chars, drop_dangerous_chars_free.
  - rewrite all_printable_forall. apply string_forall_strip.
    rewrite <- all_printable_forall. apply drop_control_chars_printable.
  - apply strip_idempotent.
Qed.

(** What [sanitize_filename] returns is not empty, not longer than
    [max_length], free of the dangerous characters (of the slash and the
    backslash in particular) and of control characters, without white space
    at either end, and differs from every reserved device name whatever the
    case of its ASCII letters. *)
Theorem sanitize_filename_postcondition (filename : string) (max_length : Z) (r : string) :
  InputSanitizer.sanitize_filename filename max_length = Ok r ->
  Py.truthy r = true /\
  (Z.of_nat (String.length r) <= max_length)%Z /\
  string_forall (fun c => negb (InputSanitizer.is_dangerous c)) r = true /\
  Py.contains "/" r = false /\
  all_printable r = true /\
  Py.strip r = r /\
  forall name, In name InputSanitizer.reserved_names -> ~ same_upto_ascii_case r name.
Proof.
  intros H.
  destruct (sanitized_filename_shape filename max_length r H) as (Hfree & Hprint & Hstrip).
  apply sanitize_filename_Ok_inv in H as (_ & Hlen & Ht & Hres).
  split; [exact Ht |]. split; [exact Hlen |]. split; [exact Hfree |].
  split; [now apply contains_slash_false, free_of_slash |].
  split; [exact Hprint |]. split; [exact Hstrip |].
  intros name Hin Hf. rewrite (is_reserved_of_fold r name Hin Hf) in Hres. discriminate.
Qed.

Lemma sanitize_filename_postcondition_witness :
  Py.truthy "myfile.txt" = true /\
  (Z.of_nat (String.length "myfile.txt") <= 255)%Z /\
  string_forall (fun c => negb (InputSanitizer.is_dangerous c)) "myfile.txt" = true /\
  Py.contains "/" "myfile.txt" = false /\
  all_printable "myfile.txt" = true /\
  Py.strip "myfile.txt" = "myfile.txt" /\
  forall name, In name InputSanitizer.reserved_names ->
               ~ same_upto_ascii_case "myfile.txt" name.
Proof.
  exact (sanitize_filename_postcondition "  my<fi/le>.txt  " 255 "myfile.txt" eq_refl).
Defined.

(** A sanitized file name is a fixed point of [sanitize_filename]. *)
Theorem sanitize_filename_idempotent (filename : string) (max_length : Z) (r : string) :
  InputSanitizer.sanitize_filename filename max_length = Ok r ->
  InputSanitizer.sanitize_filename r max_length = Ok r.
Proof.
  intros H.
  destruct (sanitized_filename_shape filename max_length r H) as (Hfree & Hprint & Hstrip).
  apply sanitize_filename_Ok_inv in H as (_ & Hlen & Ht & Hres).
  unfold InputSanitizer.sanitize_filename. rewrite Ht. cbn [negb]. cbv zeta.
  rewrite (drop_dangerous_chars_id r Hfree), (drop_control_chars_id r Hprint), Hstrip.
  apply Z.ltb_ge in Hlen. now rewrite Hlen, Ht, Hres.
Qed.

Lemma sanitize_filename_idempotent_witness :
  InputSanitizer.sanitize_filename "myfile.txt" 255 = Ok "myfile.txt".
Proof.
  exact (sanitize_filename_idempotent "  my<fi/le>.txt  " 255 "myfile.txt" eq_refl).
Defined.

(** ** Search terms *)

(** For a length limit that is not negative, what [sanitize_search_term]
    returns holds no control character, is not longer than the limit, has no
    white space at either end, and is a fixed point of the function. *)
Theorem sanitize_search_term_postcondition (search_term : string) (max_length : Z) :
  (0 <= max_length)%Z ->
  all_printable (InputSanitizer.sanitize_search_term search_term max_length) = true /\
  (Z.of_nat (String.length (InputSanitizer.sanitize_search_term search_term max_length))
   <= max_length)%Z /\
  Py.strip (InputSanitizer.sanitize_search_term search_term max_length)
  = InputSanitizer.sanitize_search_term search_term max_length /\
  InputSanitizer.sanitize_search_term
    (InputSanitizer.sanitize_search_term search_term max_length) max_length
  = InputSanitizer.sanitize_search_term search_term max_length.
Proof.
  intros Hn.
  assert (Hshape :
    all_printable (InputSanitizer.sanitize_search_term search_term max_length) = true /\
    (Z.of_nat (String.length (InputSanitizer.sanitize_search_term search_term max_length))
     <= max_length)%Z /\
    Py.strip (InputSanitizer.sanitize_search_term search_term max_length)
    = InputSanitizer.sanitize_search_term search_term max_length).
  { unfold InputSanitizer.sanitize_search_term.
    destruct (negb (Py.truthy search_term)).
    { split; [reflexivity |]. split; [exact Hn | reflexivity]. }
    cbv zeta. set (d := Security.drop_control_chars search_term).
    assert (Hd : all_printable d = true) by apply drop_control_chars_printable.
    set (x := if (max_length <? Z.of_nat (String.length d))%Z
              then InputSanitizer.slice_to max_length d else d).
    assert (Hx : all_printable x = true /\ (Z.of_nat (String.length x) <= max_length)%Z).
    { subst x. destruct (max_length <? Z.of_nat (String.length d))%Z eqn:Hlen.
      - unfold InputSanitizer.slice_to.
        assert (H0 : (0 <=? max_length)%Z = true) by now apply Z.leb_le.
        rewrite H0. split.
        + rewrite all_printable_forall. apply string_forall_take.
          now rewrite <- all_printable_forall.
        + pose proof (length_take (Z.to_nat max_length) d). lia.
      - apply Z.ltb_ge in Hlen. now split. }
    destruct Hx as [Hxp Hxl].
    split; [| split].
    - rewrite all_printable_forall. apply string_forall_strip.
      now rewrite <- all_printable_forall.
    - pose proof (length_strip x). lia.
    - apply strip_idempotent. }
  destruct Hshape as (Hp & Hl & Hs).
  split; [exact Hp |]. split; [exact Hl |]. split; [exact Hs |].
  set (r := InputSanitizer.sanitize_search_term search_term max_length) in *.
  unfold InputSanitizer.sanitize_search_term at 1.
  destruct (Py.truthy r) eqn:Ht; cbn [negb].
  - cbv zeta. rewrite (drop_control_chars_id r Hp).
    apply Z.ltb_ge in Hl. rewrite Hl. exact Hs.
  - apply truthy_false_iff in Ht. now rewrite Ht.
Qed.

Lemma sanitize_search_term_postcondition_witness :
  all_printable "hello" = true /\
  (Z.of_nat (String.length "hello") <= 7)%Z /\
  Py.strip "hello" = "hello" /\
  InputSanitizer.sanitize_search_term "hello" 7 = "hello".
Proof.
  apply (sanitize_search_term_postcondition "  hello world  " 7). lia.
Defined.

(** ** Temporary paths *)

Lemma rfind_from_absent (ch : ascii) (i : nat) (s : string) :
  string_forall (fun c => negb (Ascii.eqb c ch)) s = true ->
  Py.rfind_from ch i s = (-1)%Z.
Proof.
  revert i. induction s as [|c s IH]; intros i H; [reflexivity |].
  cbn [string_forall] in H. apply andb_true_iff in H as [Hc H].
  apply negb_true_iff in Hc. cbn [Py.rfind_from]. rewrite (IH (S i) H). cbv zeta.
  now rewrite Hc.
Qed.

Lemma rfind_from_last (ch : ascii) (i : nat) (a x : string) :
  string_forall (fun c => negb (Ascii.eqb c ch)) x = true ->
  Py.rfind_from ch i (a ++ String ch x) = Z.of_nat (i + String.length a).
Proof.
  intros Hx. revert i. induction a as [|c a IH]; intros i.
  - cbn [append Py.rfind_from String.length]. rewrite (rfind_from_absent ch (S i) x Hx).
    cbv zeta. rewrite Ascii.eqb_refl. cbn. f_equal. lia.
  - cbn [append Py.rfind_from String.length]. rewrite (IH (S i)). cbv zeta.
    assert (H0 : (0 <=? Z.of_nat (S i + String.length a))%Z = true)
      by (apply Z.leb_le; lia).
    rewrite H0. f_equal. lia.
Qed.

Lemma drop_app_length (a b : string) : Py.drop (String.length a) (a ++ b) = b.
Proof.
  induction a as [|c a IH]; [now destruct b |]. cbn [String.length append Py.drop]. exact IH.
Qed.

Lemma basename_plain (x : string) :
  string_forall (fun c => negb (Ascii.eqb c "/")) x = true -> PosixPath.basename x = x.
Proof.
  intros H. unfold PosixPath.basename, Py.rfind. rewrite (rfind_from_absent "/" 0 x H).
  now destruct x.
Qed.

Lemma basename_after_slash (a x : string) :
  string_forall (fun c => negb (Ascii.eqb c "/")) x = true ->
  PosixPath.basename (a ++ String "/" x) = x.
Proof.
  intros H. unfold PosixPath.basename, Py.rfind. rewrite (rfind_from_last "/" 0 a x H).
  replace (Z.to_nat (Z.of_nat (0 + String.length a) + 1)) with (S (String.length a)) by lia.
  clear H. induction a as [|c a IH]; [now destruct x |].
  cbn [String.length append Py.drop]. exact IH.
Qed.

Lemma endswith_inv (s p : string) : Py.endswith s p = true -> exists a, s = a ++ p.
Proof.
  induction s as [|c s IH]; cbn [Py.endswith]; intros H.
  - rewrite orb_false_r in H. apply String.eqb_eq in H. now exists "".
  - apply orb_true_iff in H as [H | H].
    + apply String.eqb_eq in H. now exists "".
    + destruct (IH H) as [a ->]. now exists (String c a).
Qed.

(** The path that [get_safe_temp_path] returns is a direct child of the
    temporary directory, whatever the base name: provided the hexadecimal
    text of the identifier holds no slash, the path starts with the temporary
    directory, and its last component is the sanitized base name, an
    underscore and the first eight characters of the identifier. *)
Theorem safe_temp_path_in_temp_dir (uuid_hex temp_dir base_name p : string) :
  string_forall (fun c => negb (Ascii.eqb c "/")) uuid_hex = true ->
  get_safe_temp_path uuid_hex temp_dir base_name = Ok p ->
  exists safe_name,
    InputSanitizer.sanitize_filename base_name 255 = Ok safe_name /\
    PosixPath.basename p = safe_name ++ "_" ++ Py.take 8 uuid_hex /\
    Py.startswith p temp_dir = true /\
    (p = temp_dir ++ PosixPath.basename p \/ p = temp_dir ++ "/" ++ PosixPath.basename p).
Proof.
  intros Hhex H. unfold get_safe_temp_path in H.
  apply bind_Ok_inv in H as (safe & Hsafe & H). cbv zeta in H. injection H as <-.
  exists safe. split; [exact Hsafe |].
  destruct (sanitized_filename_shape base_name 255 safe Hsafe) as (Hfree & _ & _).
  apply sanitize_filename_Ok_inv in Hsafe as (_ & _ & Ht & _).
  set (x := safe ++ "_" ++ Py.take 8 uuid_hex).
  assert (Hx : string_forall (fun c => negb (Ascii.eqb c "/")) x = true).
  { subst x. rewrite !string_forall_app, (free_of_slash safe Hfree).
    rewrite (string_forall_take _ 8 uuid_hex Hhex). reflexivity. }
  assert (Hstart : Py.startswith x "/" = false).
  { subst x. destruct safe as [|c safe]; [discriminate |].
    cbn [append string_forall] in Hx. apply andb_true_iff in Hx as [Hc _].
    apply negb_true_iff in Hc. cbn [append Py.startswith].
    now rewrite Ascii.eqb_sym, Hc. }
  change (PosixPath.basename (PosixPath.join temp_dir x) = x /\
          Py.startswith (PosixPath.join temp_dir x) temp_dir = true /\
          (PosixPath.join temp_dir x
           = temp_dir ++ PosixPath.basename (PosixPath.join temp_dir x) \/
           PosixPath.join temp_dir x
           = temp_dir ++ "/" ++ PosixPath.basename (PosixPath.join temp_dir x))).
  clearbody x. unfold PosixPath.join. rewrite Hstart.
  destruct (Py.truthy temp_dir) eqn:Htmp; cbn [negb orb].
  - destruct (Py.endswith temp_dir "/") eqn:Hend.
    + destruct (endswith_inv _ _ Hend) as [a Ha].
      assert (Hb : PosixPath.basename (temp_dir ++ x) = x).
      { rewrite Ha, append_assoc. cbn [append]. now apply basename_after_slash. }
      rewrite Hb. split; [reflexivity |]. split; [apply startswith_app | now left].
    + assert (Hb : PosixPath.basename (temp_dir ++ "/" ++ x) = x).
      { cbn [append]. now apply basename_after_slash. }
      rewrite Hb. split; [reflexivity |]. split; [apply startswith_app | now right].
  - apply truthy_false_iff in Htmp. subst temp_dir. cbn [append].
    rewrite (basename_plain x Hx). split; [reflexivity |]. split; [reflexivity | now left].
Qed.

Lemma safe_temp_path_in_temp_dir_witness :
  exists safe_name,
    InputSanitizer.sanitize_filename "re:port.txt" 255 = Ok safe_name /\
    PosixPath.basename "/tmp/report.txt_01234567"
    = safe_name ++ "_" ++ Py.take 8 "0123456789abcdef0123456789abcdef" /\
    Py.startswith "/tmp/report.txt_01234567" "/tmp" = true /\
    ("/tmp/report.txt_01234567" = "/tmp" ++ PosixPath.basename "/tmp/report.txt_01234567" \/
     "/tmp/report.txt_01234567"
     = "/tmp" ++ "/" ++ PosixPath.basename "/tmp/report.txt_01234567").
Proof.
  exact (safe_temp_path_in_temp_dir "0123456789abcdef0123456789abcdef" "/tmp" "re:port.txt"
           "/tmp/report.txt_01234567" eq_refl eq_refl).
Defined.

(** ** The name and the description of the preview *)

Lemma slash_free_forall (s : string) :
  Py.contains "/" s = false -> string_forall (fun c => negb (Ascii.eqb c "/")) s = true.
Proof.
  induction s as [|c s IH]; [reflexivity |].
  cbn [Py.contains Py.startswith string_forall]. intros H.
  apply orb_false_iff in H as [Hc H].
  rewrite andb_true_r in Hc. now rewrite Ascii.eqb_sym, Hc, (IH H).
Qed.

Lemma names_directory_basename (d base : string) :
  names_directory d base -> Py.truthy d = true /\ PosixPath.basename d = base.
Proof.
  intros (Hne & Hfree & _ & _ & Hd).
  apply slash_free_forall in Hfree.
  destruct Hd as [-> | [parent ->]].
  - split; [exact Hne | now apply basename_plain].
  - split; [now destruct parent | now apply basename_after_slash].
Qed.

(** C8, as amended. For a directory that exists, is readable and holds a
    [gameoptions.yaml] and a [description.txt] within their size limits, the
    first kilobyte of the former not blank, given by a path whose last
    component is the name of the directory, [is_valid_scenario] answers
    [True] and [get_scenario_preview] returns a preview whose name is the
    directory's base name; its description is the stripped text of
    [description.txt] when the file can be read, and the placeholder
    ['Error reading description'] when reading it raises. *)
Theorem preview_name_and_description (max_size : Z) (fs : FS) (d base content : string) :
  names_directory d base ->
  exists_ fs d = true -> isdir fs d = true -> access_r fs d = Ok true ->
  file_accepted (Loader.ScenarioLoader_init max_size) fs d "gameoptions.yaml" ->
  file_accepted (Loader.ScenarioLoader_init max_size) fs d "description.txt" ->
  read_text fs (PosixPath.join d "gameoptions.yaml") (Some 1024%nat) = Ok content ->
  Py.truthy (Py.strip content) = true ->
  Loader.is_valid_scenario (Loader.ScenarioLoader_init max_size) fs (PyStr d) = Ok true /\
  exists pv,
    Loader.get_scenario_preview (Loader.ScenarioLoader_init max_size) fs d = Ok pv /\
    Loader.name pv = base /\
    (forall text,
       read_text fs (PosixPath.join d "description.txt") None = Ok text ->
       Loader.description pv = Py.strip text) /\
    (forall e,
       read_text fs (PosixPath.join d "description.txt") None = Raise e ->
       Loader.description pv = "Error reading description").
Proof.
  intros Hbase Hex Hdir Hacc Hgo Hdesc Hread Hs.
  destruct (names_directory_basename d base Hbase) as [Hd Hbn].
  assert (Hv : Loader.is_valid_scenario (Loader.ScenarioLoader_init max_size) fs (PyStr d)
               = Ok true).
  { apply (is_valid_scenario_true_intro _ fs d content); try assumption.
    intros f [<- | [<- | []]]; assumption. }
  split; [exact Hv |].
  destruct (get_scenario_preview_of_valid _ fs d Hv) as (pv & Hpv & Hname & Hdescr).
  exists pv. split; [exact Hpv |]. split; [now rewrite Hname |].
  destruct Hdesc as (Hdex & _). rewrite Hdex in Hdescr.
  split.
  - intros text Ht. now rewrite Ht in Hdescr.
  - intros e He. now rewrite He in Hdescr.
Qed.

Lemma preview_name_and_description_witness :
  Loader.is_valid_scenario (Loader.ScenarioLoader_init (10 * 1024 * 1024))
    Examples.fs_minimal (PyStr "/home/alice/scenarios/Default") = Ok true /\
  exists pv,
    Loader.get_scenario_preview (Loader.ScenarioLoader_init (10 * 1024 * 1024))
      Examples.fs_minimal "/home/alice/scenarios/Default" = Ok pv /\
    Loader.name pv = "Default" /\
    (forall text,
       read_text Examples.fs_minimal
         (PosixPath.join "/home/alice/scenarios/Default" "description.txt") None = Ok text ->
       Loader.description pv = Py.strip text) /\
    (forall e,
       read_text Examples.fs_minimal
         (PosixPath.join "/home/alice/scenarios/Default" "description.txt") None = Raise e ->
       Loader.description pv = "Error reading description").
Proof.
  apply (preview_name_and_description (10 * 1024 * 1024) Examples.fs_minimal
           "/home/alice/scenarios/Default" "Default"
           "Options: [{ValidFor: [SP, Creative, MP], Difficulty: Easy}, {ValidFor: [MP]}]").
  - split; [reflexivity |]. split; [reflexivity |].
    split; [discriminate |]. split; [discriminate |].
    right. exists "/home/alice/scenarios". reflexivity.
  - reflexivity.
  - reflexivity.
  - reflexivity.
  - split; [reflexivity |]. split; [reflexivity |].
    exists 120%Z. split; [reflexivity | vm_compute; discriminate].
  - split; [reflexivity |]. split; [reflexivity |].
    exists 24%Z. split; [reflexivity | vm_compute; discriminate].
  - reflexivity.
  - reflexivity.
Defined.

(** C8, the claim as stated fails. When reading [description.txt] raises, the
    preview succeeds but its description is the placeholder text, not the
    empty string. And when the path of the directory [Default] is written
    with a trailing slash, or with a trailing dot component, the scenario is
    valid and the preview succeeds, but its name is the empty string, or the
    dot, not the base name of the directory. *)
Lemma preview_round_trip_failures :
  (read_text Examples.fs_bad_description
     "/home/alice/scenarios/Default/description.txt" None
   = Raise (UnicodeDecodeError "'utf-8' codec can't decode byte 0xff") /\
   exists pv,
     Loader.get_scenario_preview Loader.default_loader Examples.fs_bad_description
       "/home/alice/scenarios/Default" = Ok pv /\
     Loader.description pv = "Error reading description" /\
     String.eqb (Loader.description pv) "" = false) /\
  (Loader.is_valid_scenario Loader.default_loader Examples.fs_respelled
     (PyStr "/home/alice/scenarios/Default/") = Ok true /\
   exists pv,
     Loader.get_scenario_preview Loader.default_loader Examples.fs_respelled
       "/home/alice/scenarios/Default/" = Ok pv /\
     Loader.name pv = "" /\
     Loader.description pv = "A quiet starter system") /\
  (Loader.is_valid_scenario Loader.default_loader Examples.fs_respelled
     (PyStr "/home/alice/scenarios/Default/.") = Ok true /\
   exists pv,
     Loader.get_scenario_preview Loader.default_loader Examples.fs_respelled
       "/home/alice/scenarios/Default/." = Ok pv /\
     Loader.name pv = "." /\
     Loader.description pv = "A quiet starter system").
Proof.
  split; [| split].
  - split; [reflexivity |].
    eexists. split; [vm_compute; reflexivity |]. split; reflexivity.
  - split; [vm_compute; reflexivity |].
    eexists. split; [vm_compute; reflexivity |]. split; reflexivity.
  - split; [vm_compute; reflexivity |].
    eexists. split; [vm_compute; reflexivity |]. split; reflexivity.
Qed.
